(** * The grounding pipeline of the digital twin

    A shallow embedding of the Python sources

    - [layers/retrieval.py]            ([Retrieval.retrieve]),
    - [layers/semantic_memory.py]      ([SemanticMemory.find_relevant_weeks]),
    - [layers/evidence_extraction.py]  ([EvidenceExtraction.extract]),
    - [layers/verifier_gate.py]        ([VerifierGate.generate_answer]),
    - [layers/style_layer.py]          ([StyleLayer.apply_style]),
    - [twin.py]                        ([DigitalTwin.answer]),

    followed by the properties of the pipeline.

    Conventions.  A Python [str] is a [string]; the character-level
    functions ([isspace], [lower], the word class of the regular
    expressions) are the ASCII restrictions of Python's Unicode-aware ones.
    A Python [int] is a [Z].  Calls to the OpenAI client are the only
    effects: they are the nodes of a program tree ([prog]) that is run
    against a record of services ([client]).  An exception that no handler
    catches ends the run ([Raise], [Raised]): those of [json.loads], of
    [np.dot] on vectors of different length and of the date parser are
    part of the model, next to the ones the extraction loop raises. *)

From stdpp Require Import gmap strings list pretty sorting.
From Stdlib Require Import Ascii ZArith Lia.

Local Open Scope Z_scope.
Local Open Scope nat_scope.
Set Warnings "-register-all".

(** ** Text primitives *)

Module Text.

Definition dquote : string := String (ascii_of_nat 34) "".
Definition newline : string := String (ascii_of_nat 10) "".

(** [str.isspace] on one ASCII character: tab, line feed, vertical tab,
    form feed, carriage return, the four separators 0x1c-0x1f and space. *)
Definition isspace (c : ascii) : bool :=
  let n := nat_of_ascii c in
  (Nat.leb 9 n && Nat.leb n 13) || (Nat.leb 28 n && Nat.leb n 32).

Definition isupper (c : ascii) : bool :=
  let n := nat_of_ascii c in Nat.leb 65 n && Nat.leb n 90.

Definition islower (c : ascii) : bool :=
  let n := nat_of_ascii c in Nat.leb 97 n && Nat.leb n 122.

Definition isdigit (c : ascii) : bool :=
  let n := nat_of_ascii c in Nat.leb 48 n && Nat.leb n 57.

Definition isalnum (c : ascii) : bool := isupper c || islower c || isdigit c.

Definition lower_char (c : ascii) : ascii :=
  if isupper c then ascii_of_nat (nat_of_ascii c + 32) else c.

Definition upper_char (c : ascii) : ascii :=
  if islower c then ascii_of_nat (nat_of_ascii c - 32) else c.

(** [s.lower()] *)
Fixpoint lower (s : string) : string :=
  match s with
  | "" => ""
  | String c s' => String (lower_char c) (lower s')
  end.

(** [s.lstrip()], [s.rstrip()], [s.strip()] *)
Fixpoint lstrip (s : string) : string :=
  match s with
  | "" => ""
  | String c s' => if isspace c then lstrip s' else s
  end.

Fixpoint rstrip (s : string) : string :=
  match s with
  | "" => ""
  | String c s' =>
      match rstrip s' with
      | "" => if isspace c then "" else String c ""
      | r => String c r
      end
  end.

Definition strip (s : string) : string := rstrip (lstrip s).

(** [s.split()]: the maximal runs of non-space characters. *)
Fixpoint split (s : string) : list string :=
  match s with
  | "" => []
  | String c s' =>
      if isspace c then split s'
      else match s' with
           | "" => [String c ""]
           | String d _ =>
               if isspace d then String c "" :: split s'
               else match split s' with
                    | w :: ws => String c w :: ws
                    | [] => [String c ""]
                    end
           end
  end.

(** [sep.join(parts)] *)
Fixpoint join (sep : string) (parts : list string) : string :=
  match parts with
  | [] => ""
  | [p] => p
  | p :: rest => p +:+ sep +:+ join sep rest
  end.

(** [' '.join(s.split())], the whitespace normalisation of the extractor. *)
Definition normalize (s : string) : string := join " " (split s).

(** [s.startswith(p)] *)
Definition startswith (s p : string) : bool := String.prefix p s.

(** [sub in s] *)
Fixpoint contains (sub s : string) : bool :=
  String.prefix sub s ||
  match s with
  | "" => false
  | String _ s' => contains sub s'
  end.

(** [s.replace(c, "")] for a one-character [c]. *)
Fixpoint remove_char (c : ascii) (s : string) : string :=
  match s with
  | "" => ""
  | String a s' =>
      if Ascii.eqb a c then remove_char c s' else String a (remove_char c s')
  end.

(** [any(k in s for k in keys)] *)
Definition contains_any (keys : list string) (s : string) : bool :=
  existsb (fun k => contains k s) keys.

(** [x in xs] for a list or set literal of strings. *)
Definition mem (x : string) (xs : list string) : bool :=
  existsb (String.eqb x) xs.

End Text.

(** ** Regular expressions

    The patterns of the gate are concatenations of literal characters,
    greedy repetitions of one character class, and word boundaries.
    [match_here] is the backtracking matcher of [re]: a repetition first
    takes as many characters as it can and gives them back one at a time
    while the rest of the pattern fails. *)

Module Re.
Import Text.

Record charset := Charset { negated : bool; member : ascii -> bool }.

Inductive atom :=
| Lit (c : ascii)
| Rep (cs : charset) (lo : nat) (hi : option nat)
| WordBoundary.

Definition regex := list atom.

Fixpoint lits (s : string) : regex :=
  match s with
  | "" => []
  | String c s' => Lit c :: lits s'
  end.

Definition star cs := Rep cs 0 None.
Definition plus cs := Rep cs 1 None.
Definition opt cs := Rep cs 0 (Some 1).

(** One character against a literal, with or without [re.IGNORECASE]. *)
Definition lit_test (ci : bool) (c a : ascii) : bool :=
  if ci then Ascii.eqb (lower_char a) (lower_char c) else Ascii.eqb a c.

(** One character against a class; under [re.IGNORECASE] a character is
    in the class when one of its two cases is. *)
Definition cs_test (ci : bool) (cs : charset) (a : ascii) : bool :=
  let hit :=
    if ci then member cs a || member cs (lower_char a) || member cs (upper_char a)
    else member cs a in
  xorb (negated cs) hit.

(** [\w] on ASCII. *)
Definition isword (c : ascii) : bool := isalnum c || Ascii.eqb c "_".

Definition word_before (prev : option ascii) : bool :=
  match prev with Some c => isword c | None => false end.

Definition word_after (s : string) : bool :=
  match s with String c _ => isword c | "" => false end.

(** [\b]: exactly one side is a word character. *)
Definition at_boundary (prev : option ascii) (s : string) : bool :=
  xorb (word_before prev) (word_after s).

Definition more (hi : option nat) : bool :=
  match hi with Some 0 => false | _ => true end.

Fixpoint greedy (test : ascii -> bool) (lo : nat) (hi : option nat)
    (k : option ascii -> string -> option string)
    (prev : option ascii) (s : string) {struct s} : option string :=
  let stop := match lo with 0 => k prev s | S _ => None end in
  match s with
  | String a s' =>
      if test a && more hi then
        match greedy test (Nat.pred lo) (Nat.pred <$> hi) k (Some a) s' with
        | Some r => Some r
        | None => stop
        end
      else stop
  | "" => stop
  end.

(** [match_here ci re prev s]: the rest of [s] after the match of [re]
    that starts at the head of [s]; [prev] is the character before. *)
Fixpoint match_here (ci : bool) (re : regex) : option ascii -> string -> option string :=
  match re with
  | [] => fun _ s => Some s
  | Lit c :: re' => fun _ s =>
      match s with
      | String a s' => if lit_test ci c a then match_here ci re' (Some a) s' else None
      | "" => None
      end
  | Rep cs lo hi :: re' => greedy (cs_test ci cs) lo hi (match_here ci re')
  | WordBoundary :: re' => fun prev s =>
      if at_boundary prev s then match_here ci re' prev s else None
  end.

Fixpoint search_from (ci : bool) (re : regex) (prev : option ascii) (s : string) : bool :=
  match match_here ci re prev s with
  | Some _ => true
  | None =>
      match s with
      | String a s' => search_from ci re (Some a) s'
      | "" => false
      end
  end.

(** [re.search(pattern, s, flags)] as a truth value. *)
Definition search (ci : bool) (re : regex) (s : string) : bool :=
  search_from ci re None s.

(** [re.sub]: [skip] counts the characters of the current match still to
    be dropped. *)
Fixpoint sub_from (re : regex) (repl : string) (skip : nat)
    (prev : option ascii) (s : string) {struct s} : string :=
  match skip with
  | S n =>
      match s with
      | String a s' => sub_from re repl n (Some a) s'
      | "" => ""
      end
  | 0 =>
      match match_here false re prev s with
      | Some rest =>
          match String.length s - String.length rest, s with
          | S n, String a s' => repl +:+ sub_from re repl n (Some a) s'
          | _, String a s' => repl +:+ String a (sub_from re repl 0 (Some a) s')
          | _, "" => repl
          end
      | None =>
          match s with
          | String a s' => String a (sub_from re repl 0 (Some a) s')
          | "" => ""
          end
      end
  end.

(** [re.sub(pattern, repl, s)] (no flags). *)
Definition sub (re : regex) (repl s : string) : string :=
  sub_from re repl 0 None s.

End Re.

(** ** Values decoded from JSON, and the exceptions of the pipeline *)

Module Json.

(** A Python [float]: not-a-number, an infinity, or [m * 2^e]. *)
Inductive pyfloat :=
| FNan
| FInf (negative : bool)
| FFinite (m e : Z).

(** What [json.loads] can return. *)
Inductive value :=
| JNull
| JBool (b : bool)
| JInt (z : Z)
| JFloat (f : pyfloat)
| JStr (s : string)
| JArr (items : list value)
| JObj (fields : list (string * value)).

(** [d.get(key, default)] on a decoded object, whose keys are distinct. *)
Fixpoint get (fields : list (string * value)) (key : string) (default : value) : value :=
  match fields with
  | [] => default
  | (k, v) :: rest => if String.eqb k key then v else get rest key default
  end.

(** [f < 0] and [f >= n] for a float [f] and a list length [n]. *)
Definition float_negative (f : pyfloat) : bool :=
  match f with
  | FNan => false
  | FInf negative => negative
  | FFinite m _ => (m <? 0)%Z
  end.

Definition float_ge (f : pyfloat) (n : nat) : bool :=
  match f with
  | FNan => false
  | FInf negative => negb negative
  | FFinite m e =>
      if (0 <=? e)%Z then (Z.of_nat n <=? m * 2 ^ e)%Z
      else (Z.of_nat n * 2 ^ (- e) <=? m)%Z
  end.

End Json.

(** The exceptions the pipeline meets.  A [JSONDecodeError] is the one
    [json.loads] raises on a text that is not JSON; the [ValueError] here is
    a plain one (of [np.dot], [datetime] or [int]), not caught by a handler
    for [JSONDecodeError]. *)
Inductive exn :=
| JSONDecodeError | KeyError | TypeError | AttributeError | ValueError | RecursionError.

Inductive outcome (A : Type) :=
| Returned (a : A)
| Raised (e : exn).
Arguments Returned {A} a.
Arguments Raised {A} e.

(** A loop that computes one value per element and stops at the first
    turn that raises. *)
Fixpoint traverse {A B : Type} (f : A -> outcome B) (l : list A) : outcome (list B) :=
  match l with
  | [] => Returned []
  | x :: l' =>
      match f x with
      | Raised e => Raised e
      | Returned y =>
          match traverse f l' with
          | Raised e => Raised e
          | Returned ys => Returned (y :: ys)
          end
      end
  end.

(** ** Data model *)

(** A chunk of the raw memory; a timestamp is an instant on the time line. *)
Record raw_chunk := RawChunk {
  chunk_id : string;
  chunk_file : string;
  chunk_text : string;
  chunk_timestamp : option Z;
}.

(** One evidence item of [extract]: [{quote, chunk_id, file, timestamp}]. *)
Record evidence_item := EvidenceItem {
  ev_quote : string;
  ev_chunk_id : string;
  ev_file : string;
  ev_timestamp : option Z;
}.

(** The dictionary returned by [extract]. *)
Record extraction := Extraction {
  evidence : list evidence_item;
  has_evidence : bool;
  raw_extraction : option string;
}.

Inductive confidence_level := none | medium | high.

Record citation := Citation {
  cit_text : string;
  cit_source : string;
  cit_chunk_id : string;
  cit_timestamp : option Z;
}.

(** The dictionary returned by the gate and by [DigitalTwin.answer]. *)
Record verdict := Verdict {
  answer : string;
  confidence : confidence_level;
  reasoning : string;
  citations : list citation;
}.

(** The three results of the entailment check. *)
Inductive entailment := yes | no | unknown.

(** A weekly summary of the semantic memory. *)
Record summary (F : Type) := Summary {
  week : string;
  week_chunk_ids : list string;
  week_embedding : option (list F);
}.
Arguments Summary {F}.
Arguments week {F}.
Arguments week_chunk_ids {F}.
Arguments week_embedding {F}.

(** One entry of the list returned by [retrieve]: [{chunk, score}]. *)
Record retrieved (F : Type) := Retrieved {
  chunk : raw_chunk;
  score : F;
}.
Arguments Retrieved {F}.
Arguments chunk {F}.
Arguments score {F}.

(** ** Library code the pipeline calls

    [float] stands for the floats of Python and numpy with the operations
    the retriever uses; [cosine q e] is the value of
    [np.dot(q, e) / (norm(q) * norm(e) + 1e-9)] on vectors of the same
    length (on other vectors [np.dot] raises, see [Retrieval.similarity]).
    [json_loads] is [json.loads]: it returns the decoded value or raises, a
    [JSONDecodeError] on a text that is not JSON, and other exceptions too
    (a [ValueError] on an integer of more than 4300 digits, a
    [RecursionError] on deep nesting).  [parse_entailment] is the reading
    of the reply of the entailment call (lines 96-117 of
    [verifier_gate.py]: a regular expression search, [json.loads] and a
    lookup of ["state"], all inside [try ... except Exception]), which
    always ends in one of the three states.  [parse_date_range] is the date
    parser of [query_understanding.py]: it returns a range or [None], or
    raises (a [ValueError] of [datetime] on a question that names the year
    0000).  No property below looks into the last two. *)
Class Library := {
  float : Type;
  f_zero : float;
  f_add : float -> float -> float;
  f_lt : float -> float -> bool;
  boost_profile : float;
  boost_in_range : float;
  cosine : list float -> list float -> float;
  json_loads : string -> outcome Json.value;
  parse_entailment : string -> entailment;
  parse_date_range : string -> outcome (option (Z * Z));
}.

(** ** Programs over the OpenAI client *)

Section Programs.
Context `{Library}.

(** A program returns, raises, or calls the client and goes on with the
    reply.  Replies of type [option _] are [None] when the call raised
    (each call site catches that).
    - [EmbedQuery], [EmbedChunks]: [client.embeddings.create];
    - [ExtractGen], [AnswerGen], [StyleGen]: [client.responses.create]
      with the prompt built from the arguments, replying [output_text];
    - [EntailGen]: [client.chat.completions.create] with the entailment
      prompt, replying the content of the first choice.
    Each kind of call is made at most once in a run of the pipeline. *)
Inductive prog (A : Type) : Type :=
| Ret (a : A)
| Raise (e : exn)
| EmbedQuery (query : string) (k : option (list float) -> prog A)
| EmbedChunks (texts : list string) (k : option (list (list float)) -> prog A)
| ExtractGen (question : string) (chunks : list (retrieved float)) (k : option string -> prog A)
| EntailGen (question : string) (quotes : list string) (k : option string -> prog A)
| AnswerGen (mode question : string) (evs : list evidence_item) (k : option string -> prog A)
| StyleGen (body : string) (k : option string -> prog A).

Arguments Ret {A} a.
Arguments Raise {A} e.
Arguments EmbedQuery {A} query k.
Arguments EmbedChunks {A} texts k.
Arguments ExtractGen {A} question chunks k.
Arguments EntailGen {A} question quotes k.
Arguments AnswerGen {A} mode question evs k.
Arguments StyleGen {A} body k.

Fixpoint bind {A B : Type} (p : prog A) (f : A -> prog B) : prog B :=
  match p with
  | Ret a => f a
  | Raise e => Raise e
  | EmbedQuery q k => EmbedQuery q (fun r => bind (k r) f)
  | EmbedChunks ts k => EmbedChunks ts (fun r => bind (k r) f)
  | ExtractGen q cs k => ExtractGen q cs (fun r => bind (k r) f)
  | EntailGen q qs k => EntailGen q qs (fun r => bind (k r) f)
  | AnswerGen m q evs k => AnswerGen m q evs (fun r => bind (k r) f)
  | StyleGen b k => StyleGen b (fun r => bind (k r) f)
  end.

(** The services behind the client, as functions of the request. *)
Record client := Client {
  embed_query : string -> option (list float);
  embed_chunks : list string -> option (list (list float));
  extract_gen : string -> list (retrieved float) -> option string;
  entail_gen : string -> list string -> option string;
  answer_gen : string -> string -> list evidence_item -> option string;
  style_gen : string -> option string;
}.

(** A call that was made, with its reply. *)
Inductive call :=
| CEmbedQuery (query : string) (r : option (list float))
| CEmbedChunks (texts : list string) (r : option (list (list float)))
| CExtractGen (question : string) (chunks : list (retrieved float)) (r : option string)
| CEntailGen (question : string) (quotes : list string) (r : option string)
| CAnswerGen (mode question : string) (evs : list evidence_item) (r : option string)
| CStyleGen (body : string) (r : option string).

(** Running a program: its outcome and the calls it made, in order. *)
Fixpoint run {A : Type} (c : client) (p : prog A) : outcome A * list call :=
  match p with
  | Ret a => (Returned a, [])
  | Raise e => (Raised e, [])
  | EmbedQuery q k =>
      let r := embed_query c q in
      let '(o, l) := run c (k r) in (o, CEmbedQuery q r :: l)
  | EmbedChunks ts k =>
      let r := embed_chunks c ts in
      let '(o, l) := run c (k r) in (o, CEmbedChunks ts r :: l)
  | ExtractGen q cs k =>
      let r := extract_gen c q cs in
      let '(o, l) := run c (k r) in (o, CExtractGen q cs r :: l)
  | EntailGen q qs k =>
      let r := entail_gen c q qs in
      let '(o, l) := run c (k r) in (o, CEntailGen q qs r :: l)
  | AnswerGen m q evs k =>
      let r := answer_gen c m q evs in
      let '(o, l) := run c (k r) in (o, CAnswerGen m q evs r :: l)
  | StyleGen b k =>
      let r := style_gen c b in
      let '(o, l) := run c (k r) in (o, CStyleGen b r :: l)
  end.

(** A computation without calls, as a program. *)
Definition lift {A : Type} (o : outcome A) : prog A :=
  match o with
  | Returned a => Ret a
  | Raised e => Raise e
  end.

Definition result {A : Type} (c : client) (p : prog A) : outcome A := fst (run c p).
Definition calls {A : Type} (c : client) (p : prog A) : list call := snd (run c p).

End Programs.

Arguments Ret {_ A} a.
Arguments Raise {_ A} e.
Arguments EmbedQuery {_ A} query k.
Arguments EmbedChunks {_ A} texts k.
Arguments ExtractGen {_ A} question chunks k.
Arguments EntailGen {_ A} question quotes k.
Arguments AnswerGen {_ A} mode question evs k.
Arguments StyleGen {_ A} body k.

Notation "x <- p ;; q" := (bind p (fun x => q))
  (at level 100, p at next level, right associativity, only parsing).

(** ** Layer 5: evidence extraction ([layers/evidence_extraction.py]) *)

Module Extraction.
Import Text Json.

Section Extract.
Context `{Library}.

(** The reply assumed when the generation call raises:
    the text [{"evidence":[]}]. *)
Definition default_extraction : string :=
  "{" +:+ dquote +:+ "evidence" +:+ dquote +:+ ":[]}".

Definition min_quote_length (answer_mode : string) : nat :=
  if String.eqb answer_mode "SUMMARY_MODE" then 5 else 8.

(** [for item in v]: a list gives its elements, a dict its keys, a
    string its characters; nothing else is iterable. *)
Definition iterate (v : value) : outcome (list value) :=
  match v with
  | JArr items => Returned items
  | JObj fields => Returned ((fun kv => JStr kv.1) <$> fields)
  | JStr s => Returned ((fun c => JStr (String c "")) <$> String.list_ascii_of_string s)
  | _ => Raised TypeError
  end.

(** The test
    [chunk_idx is None or chunk_idx < 0 or chunk_idx >= len(retrieved_chunks)]. *)
Inductive index_check :=
| Rejected                 (* the test holds: [continue] *)
| Incomparable             (* [<] raises [TypeError] *)
| Position (i : nat)       (* an integer within range *)
| Fractional.              (* a float within range: not an index *)

Definition check_int (z : Z) (n : nat) : index_check :=
  if ((z <? 0) || (Z.of_nat n <=? z))%Z then Rejected else Position (Z.to_nat z).

Definition check_index (chunk_idx : value) (n : nat) : index_check :=
  match chunk_idx with
  | JNull => Rejected
  | JInt z => check_int z n
  | JBool b => check_int (if b then 1 else 0)%Z n
  | JFloat f => if float_negative f || float_ge f n then Rejected else Fractional
  | JStr _ | JArr _ | JObj _ => Incomparable
  end.

(** One turn of the loop over the decoded items. *)
Inductive step :=
| Skip                       (* [continue] *)
| Keep (e : evidence_item)   (* [evidence_items.append] *)
| Fail (e : exn).            (* the turn raises *)

Definition validate (retrieved_chunks : list (retrieved float)) (min_len : nat)
    (item : value) : step :=
  match item with
  | JObj fields =>
      let chunk_idx := get fields "chunk_index" JNull in
      match get fields "quote" (JStr "") with
      | JStr q =>
          let quote := strip q in
          match check_index chunk_idx (length retrieved_chunks) with
          | Rejected => Skip
          | Incomparable => Fail TypeError
          | Fractional =>
              if Nat.ltb (String.length quote) min_len then Skip else Fail TypeError
          | Position i =>
              if Nat.ltb (String.length quote) min_len then Skip
              else match retrieved_chunks !! i with
                   | None => Skip (* not reached: [i] is within range *)
                   | Some entry =>
                       let chunk_text_normalized := normalize (chunk_text (chunk entry)) in
                       let quote_normalized := normalize quote in
                       if negb (contains quote_normalized chunk_text_normalized) then Skip
                       else Keep {| ev_quote := quote;
                                    ev_chunk_id := chunk_id (chunk entry);
                                    ev_file := chunk_file (chunk entry);
                                    ev_timestamp := chunk_timestamp (chunk entry) |}
                   end
          end
      | _ => Fail AttributeError
      end
  | _ => Fail AttributeError
  end.

(** The loop: the items kept so far, and the exception that ended it. *)
Fixpoint collect (retrieved_chunks : list (retrieved float)) (min_len : nat)
    (items : list value) (evidence_items : list evidence_item)
    : list evidence_item * option exn :=
  match items with
  | [] => (evidence_items, None)
  | item :: rest =>
      match validate retrieved_chunks min_len item with
      | Skip => collect retrieved_chunks min_len rest evidence_items
      | Keep e => collect retrieved_chunks min_len rest (evidence_items ++ [e])
      | Fail x => (evidence_items, Some x)
      end
  end.

(** The body of the [try]. *)
Definition parse_evidence (retrieved_chunks : list (retrieved float)) (min_len : nat)
    (extraction_text : string) : list evidence_item * option exn :=
  match json_loads (strip extraction_text) with
  | Raised x => ([], Some x)
  | Returned (JObj fields) =>
      match iterate (get fields "evidence" (JArr [])) with
      | Raised x => ([], Some x)
      | Returned items => collect retrieved_chunks min_len items []
      end
  | Returned _ => ([], Some AttributeError)
  end.

(** [except (json.JSONDecodeError, KeyError, TypeError)] *)
Definition caught (x : exn) : bool :=
  match x with
  | JSONDecodeError | KeyError | TypeError => true
  | AttributeError | ValueError | RecursionError => false
  end.

Definition extract (question : string) (retrieved_chunks : list (retrieved float))
    (answer_mode : string) : prog extraction :=
  match retrieved_chunks with
  | [] => Ret {| evidence := []; has_evidence := false; raw_extraction := None |}
  | _ =>
      ExtractGen question retrieved_chunks (fun resp =>
        let extraction_text := default default_extraction resp in
        let raw := extraction_text in
        let min_len := min_quote_length answer_mode in
        let '(evidence_items, raised) :=
          parse_evidence retrieved_chunks min_len extraction_text in
        let returned :=
          Ret {| evidence := evidence_items;
                 has_evidence := Nat.ltb 0 (length evidence_items);
                 raw_extraction := Some raw |} in
        match raised with
        | None => returned
        | Some x => if caught x then returned else Raise x
        end)
  end.

End Extract.
End Extraction.

(** ** Layer 6: the verifier gate ([layers/verifier_gate.py]) *)

Module Gate.
Import Text Re.

Definition alnum_class := Charset false isalnum.
(** [[0-9A-Z]] *)
Definition upper_digit_class := Charset false (fun c => isdigit c || isupper c).
(** [[:\s]] *)
Definition colon_space_class := Charset false (fun c => Ascii.eqb c ":" || isspace c).
(** [[^\s]] *)
Definition non_space_class := Charset true isspace.
(** [[_-]] *)
Definition underscore_dash_class :=
  Charset false (fun c => Ascii.eqb c "_" || Ascii.eqb c "-").

(** [<word>[:\s]*[^\s]+] *)
Definition field_pattern (word : regex) : regex :=
  word ++ [star colon_space_class; plus non_space_class].

Definition sensitive_patterns : list regex :=
  [ lits "sk-" ++ [Rep alnum_class 20 None];
    lits "AKIA" ++ [Rep upper_digit_class 16 (Some 16)];
    field_pattern (lits "password");
    field_pattern (lits "api" ++ [opt underscore_dash_class] ++ lits "key");
    field_pattern (lits "secret");
    field_pattern (lits "token") ].

Definition sensitive_keywords : list string :=
  [ "password"; "passwd"; "pwd";
    "api_key"; "api key"; "apikey";
    "secret"; "token";
    "credential"; "credentials"; "creds"; "cred";
    "aws access"; "aws secret"; "aws key";
    "account id"; "account number";
    "private key"; "ssh key" ].

Definition _contains_sensitive_info (text source_file : string) : bool :=
  match text with
  | "" => false
  | _ =>
      if contains "identity.md" source_file then false
      else
        existsb (fun pattern => search true pattern text) sensitive_patterns
        || contains_any sensitive_keywords (lower text)
  end.

(** [\b[A-Za-z0-9._%+-]+@[A-Za-z0-9.-]+\.[A-Z|a-z]{2,}\b] *)
Definition email_local_class :=
  Charset false (fun c => isalnum c || existsb (Ascii.eqb c) ["."; "_"; "%"; "+"; "-"]%char).
Definition email_domain_class :=
  Charset false (fun c => isalnum c || Ascii.eqb c "." || Ascii.eqb c "-").
Definition email_tld_class :=
  Charset false (fun c => isupper c || Ascii.eqb c "|" || islower c).

Definition email_pattern : regex :=
  [ WordBoundary; plus email_local_class; Lit "@"; plus email_domain_class;
    Lit "."; Rep email_tld_class 2 None; WordBoundary ].

Definition refusal_text : string := "I do not see this in your data.".

Definition blocked_question : verdict :=
  {| answer := "I cannot share sensitive information like credentials, passwords, or API keys.";
     confidence := none;
     reasoning := "Question blocked due to requesting sensitive information.";
     citations := [] |}.

Definition refusal (why : string) : verdict :=
  {| answer := refusal_text; confidence := none; reasoning := why; citations := [] |}.

Definition blocked_answer : verdict :=
  {| answer := "I cannot share that because it contains sensitive information.";
     confidence := none;
     reasoning := "Answer blocked due to sensitive information detection.";
     citations := [] |}.

(** The loop of the quote-only fallback over the evidence: the quote
    lines and the set of chunks seen. *)
Definition quote_step (st : list string * gset string) (ev : evidence_item)
    : list string * gset string :=
  let '(quote_lines, seen_chunks) := st in
  if bool_decide (ev_chunk_id ev ∉ seen_chunks) && Nat.ltb (length quote_lines) 3
  then (quote_lines ++ ["- " +:+ ev_quote ev], {[ev_chunk_id ev]} ∪ seen_chunks)
  else st.

Definition quote_only (evs : list evidence_item) : list string * gset string :=
  foldl quote_step ([], ∅) evs.

Definition cite (text : string) (ev : evidence_item) : citation :=
  {| cit_text := text; cit_source := ev_file ev;
     cit_chunk_id := ev_chunk_id ev; cit_timestamp := ev_timestamp ev |}.

Definition quote_only_citations (seen_chunks : gset string) (evs : list evidence_item)
    : list citation :=
  (fun ev => cite (ev_quote ev) ev)
    <$> filter (fun ev => ev_chunk_id ev ∈ seen_chunks) evs.

Definition quote_only_verdict (evs : list evidence_item) : verdict :=
  let '(quote_lines, seen_chunks) := quote_only evs in
  match quote_lines with
  | [] => refusal "Cannot verify if evidence supports the question."
  | _ =>
      {| answer := "From my data:" +:+ newline +:+ join newline quote_lines;
         confidence := medium;
         reasoning := "Entailment unclear, returning quote-only answer.";
         citations := quote_only_citations seen_chunks evs |}
  end.

(** The text kept from the generation call: the refusal text when the
    call raised or the stripped reply is empty. *)
Definition generated_text (resp : option string) : string :=
  let answer_text := strip (default refusal_text resp) in
  match answer_text with
  | "" => refusal_text
  | _ => answer_text
  end.

Definition placeholders : list string := ["__"; "___"; "..."; "----"; "N/A"; "n/a"].

Definition is_valid (quote_text : string) : bool :=
  negb (String.eqb quote_text "")
  && Nat.ltb 5 (String.length quote_text)
  && negb (mem quote_text placeholders)
  && negb (String.eqb
             (strip (remove_char "-" (remove_char "." (remove_char "_" quote_text)))) "").

(** One turn of the citation loop: the citation appended, if any. *)
Definition citation_of (ev : evidence_item) : option citation :=
  let quote_text := strip (ev_quote ev) in
  let source_file := ev_file ev in
  if is_valid quote_text then
    let quote_text :=
      if negb (contains "identity.md" source_file)
      then sub email_pattern "[redacted]" quote_text
      else quote_text in
    if negb (_contains_sensitive_info quote_text source_file)
    then Some (cite quote_text ev)
    else None
  else None.

Definition build_citations (evs : list evidence_item) : list citation :=
  omap citation_of evs.

Definition is_refusal (answer_text : string) : bool :=
  contains "do not see" (lower answer_text).

Definition assess_confidence (answer_text : string)
    (summary_confidence_boost : option confidence_level) (cits : list citation)
    : confidence_level :=
  if is_refusal answer_text then none
  else match summary_confidence_boost with
       | Some boost => boost
       | None => if Nat.leb 2 (length cits) then high else medium
       end.

(** Everything after the generation call. *)
Definition finish (evs : list evidence_item)
    (summary_confidence_boost : option confidence_level) (resp : option string)
    : verdict :=
  let answer_text := generated_text resp in
  let evidence_sources := ev_file <$> evs in
  let is_from_identity := existsb (contains "identity.md") evidence_sources in
  if negb is_from_identity && _contains_sensitive_info answer_text ""
  then blocked_answer
  else
    let cits := build_citations evs in
    {| answer := answer_text;
       confidence := assess_confidence answer_text summary_confidence_boost cits;
       reasoning := "Based on " +:+ pretty (length cits)
                    +:+ " valid citation(s) from retrieved context.";
       citations := cits |}.

Section Gate.
Context `{Library}.

(** The state read from the reply of the entailment call: [unknown] when
    the call raised. *)
Definition entailment_of (resp : option string) : entailment :=
  match resp with
  | Some content => parse_entailment (strip content)
  | None => unknown
  end.

Definition _entailment_state (question : string) (evidence_quotes : list string)
    : prog entailment :=
  match evidence_quotes with
  | [] => Ret no
  | _ => EntailGen question evidence_quotes (fun resp => Ret (entailment_of resp))
  end.

(** The mode branch either returns a verdict or goes on to generation
    with the value of [summary_confidence_boost]. *)
Inductive flow :=
| Return (v : verdict)
| Proceed (summary_confidence_boost : option confidence_level).

Definition summary_branch (evs : list evidence_item) : flow :=
  let unique_chunks : gset string := list_to_set (ev_chunk_id <$> evs) in
  if Nat.eqb (size unique_chunks) 0
  then Return (refusal "No evidence found for summary.")
  else Proceed (Some (if Nat.leb 2 (size unique_chunks) then high else medium)).

Definition fact_branch (question : string) (evs : list evidence_item) : prog flow :=
  let evidence_quotes := ev_quote <$> evs in
  state <- _entailment_state question evidence_quotes ;;
  match state with
  | no => Ret (Return (refusal "Evidence does not support the question."))
  | unknown => Ret (Return (quote_only_verdict evs))
  | yes => Ret (Proceed None)
  end.

Definition generate_answer (question : string) (ev : extraction)
    (retrieved_chunks : list (retrieved float)) (answer_mode : string)
    : prog verdict :=
  if _contains_sensitive_info question "" then Ret blocked_question
  else if negb (has_evidence ev) || Nat.eqb (length (evidence ev)) 0
  then Ret (refusal "No supporting evidence found in the data.")
  else
    branch <- (if String.eqb answer_mode "SUMMARY_MODE"
               then Ret (summary_branch (evidence ev))
               else fact_branch question (evidence ev)) ;;
    match branch with
    | Return v => Ret v
    | Proceed summary_confidence_boost =>
        AnswerGen answer_mode question (evidence ev) (fun resp =>
          Ret (finish (evidence ev) summary_confidence_boost resp))
    end.

End Gate.
End Gate.

(** ** Layer 4: retrieval ([layers/retrieval.py]) *)

Module Retrieval.
Import Text.

Inductive metadata :=
| EmbeddingFailed
| Stats (total_candidates selected_count total_chars : nat) (relevant_weeks : list string).

Section Retrieve.
Context `{Library}.

(** The dictionary returned by [retrieve]. *)
Record retrieval_result := RetrievalResult {
  chunks : list (retrieved float);
  meta : metadata;
}.

(** *** The accessors of the raw memory *)

Definition get_chunk_by_id (raw_chunks : list raw_chunk) (cid : string)
    : option raw_chunk :=
  List.find (fun c => String.eqb (chunk_id c) cid) raw_chunks.

Definition in_range (date_range : Z * Z) (c : raw_chunk) : bool :=
  match chunk_timestamp c with
  | Some t => ((date_range.1 <=? t) && (t <=? date_range.2))%Z
  | None => false
  end.

Definition get_chunks_by_time_range (raw_chunks : list raw_chunk) (date_range : Z * Z)
    : list raw_chunk :=
  List.filter (in_range date_range) raw_chunks.

(** *** Sorting by score, highest first

    [scores.sort(key=lambda x: x[0], reverse=True)]: a stable sort, so
    among equal scores the earlier entry stays first.  Insertion from the
    right gives that order whenever [<] is a strict weak order on the
    scores at hand, as it is on floats other than NaN. *)
Fixpoint insert_desc {A : Type} (x : float * A) (l : list (float * A))
    : list (float * A) :=
  match l with
  | [] => [x]
  | y :: l' => if f_lt x.1 y.1 then y :: insert_desc x l' else x :: l
  end.

Definition sort_desc {A : Type} (l : list (float * A)) : list (float * A) :=
  foldr insert_desc [] l.

(** *** The routing of the semantic memory *)

(** [np.dot(q, e) / (np.linalg.norm(q) * np.linalg.norm(e) + 1e-9)] on two
    one-dimensional arrays: [np.dot] raises a [ValueError] when their
    lengths differ. *)
Definition similarity (q_emb e : list float) : outcome float :=
  if Nat.eqb (length q_emb) (length e) then Returned (cosine q_emb e)
  else Raised ValueError.

(** The score of a week whose turn of the loop does not raise. *)
Definition week_value (q_emb : list float) (s : summary float) : float :=
  match week_embedding s with
  | Some (x :: e) => cosine q_emb (x :: e)
  | _ => f_zero
  end.

(** One turn of the loop of [find_relevant_weeks]. *)
Definition week_score (q_emb : list float) (s : summary float)
    : outcome (float * summary float) :=
  match week_embedding s with
  | Some (x :: e) =>
      match similarity q_emb (x :: e) with
      | Returned sim => Returned (sim, s)
      | Raised err => Raised err
      end
  | _ => Returned (f_zero, s)
  end.

Definition find_relevant_weeks (summaries : list (summary float))
    (query_embedding : list float) (top_k : nat) : outcome (list (summary float)) :=
  match traverse (week_score query_embedding) summaries with
  | Returned scores => Returned (snd <$> take top_k (sort_desc scores))
  | Raised err => Raised err
  end.

Definition get_chunk_ids_for_weeks (weeks : list (summary float)) : list string :=
  concat (week_chunk_ids <$> weeks).

(** *** Candidates *)

Definition personal_keywords : list string :=
  [ "you"; "your"; "archit"; "location"; "city"; "stay"; "live"; "where";
    "email"; "contact"; "phone"; "role"; "team"; "work"; "timezone" ].

Definition ids_of (cs : list raw_chunk) : gset string :=
  list_to_set (chunk_id <$> cs).

(** Append the chunks whose id is not among [existing_ids]; the set is
    fixed during the loop. *)
Definition merge_time_chunks (candidate_chunks time_chunks : list raw_chunk)
    : list raw_chunk :=
  let existing_ids := ids_of candidate_chunks in
  candidate_chunks ++ filter (fun tc => chunk_id tc ∉ existing_ids) time_chunks.

(** Append the profile chunks not yet present; the set grows with each
    chunk appended. *)
Definition merge_identity_chunks (candidate_chunks identity_chunks : list raw_chunk)
    : list raw_chunk :=
  fst (foldl
         (fun '(cands, existing_ids) ic =>
            if bool_decide (chunk_id ic ∉ existing_ids)
            then (cands ++ [ic], {[chunk_id ic]} ∪ existing_ids)
            else (cands, existing_ids))
         (candidate_chunks, ids_of candidate_chunks) identity_chunks).

(** The candidates built from the weeks the routing found (lines 54-90). *)
Definition candidates (raw_chunks : list raw_chunk) (relevant_weeks : list (summary float))
    (query : string) (date_range : option (Z * Z))
    : list raw_chunk :=
  let candidate_chunk_ids := get_chunk_ids_for_weeks relevant_weeks in
  let candidate_chunks := omap (get_chunk_by_id raw_chunks) candidate_chunk_ids in
  let candidate_chunks :=
    match date_range with
    | Some range =>
        merge_time_chunks candidate_chunks (get_chunks_by_time_range raw_chunks range)
    | None => candidate_chunks
    end in
  let candidate_chunks :=
    match candidate_chunks with
    | [] => raw_chunks
    | _ => candidate_chunks
    end in
  if contains_any personal_keywords (lower query)
  then merge_identity_chunks candidate_chunks
         (List.filter (fun c => contains "identity.md" (chunk_file c)) raw_chunks)
  else candidate_chunks.

(** *** Scores *)

(** [{chunks[i]["id"]: resp.data[i].embedding for i in range(len(chunks))}]:
    a reply shorter than the batch raises, and a later chunk overrides
    an earlier one of the same id. *)
Definition embedding_table (cs : list raw_chunk) (resp : option (list (list float)))
    : gmap string (list float) :=
  match resp with
  | Some data =>
      if Nat.ltb (length data) (length cs) then ∅
      else foldl (fun m p => <[p.1 := p.2]> m) ∅ (zip (chunk_id <$> cs) data)
  | None => ∅
  end.

Definition _embed_chunks (cs : list raw_chunk) : prog (gmap string (list float)) :=
  match cs with
  | [] => Ret ∅
  | _ => EmbedChunks (chunk_text <$> cs) (fun resp => Ret (embedding_table cs resp))
  end.

(** One turn of the scoring loop. *)
Definition score_chunk (q_emb : list float) (is_personal_query : bool)
    (date_range : option (Z * Z)) (chunk_embeddings : gmap string (list float))
    (c : raw_chunk) : outcome (float * raw_chunk) :=
  match chunk_embeddings !! chunk_id c with
  | None => Returned (f_zero, c)
  | Some c_emb =>
      match similarity q_emb c_emb with
      | Raised err => Raised err
      | Returned sim =>
          let boost := f_zero in
          let boost :=
            if is_personal_query && contains "identity.md" (chunk_file c)
            then f_add boost boost_profile else boost in
          let boost :=
            match date_range with
            | Some range => if in_range range c then f_add boost boost_in_range else boost
            | None => boost
            end in
          Returned (f_add sim boost, c)
      end
  end.

(** *** Selection: top-k within the context limit *)

Fixpoint select (top_k max_context_chars : Z) (scores : list (float * raw_chunk))
    (selected : list (retrieved float)) (total_chars : nat)
    : list (retrieved float) * nat :=
  match scores with
  | [] => (selected, total_chars)
  | (s, c) :: rest =>
      if (top_k <=? Z.of_nat (length selected))%Z then (selected, total_chars)
      else if (max_context_chars <? Z.of_nat (total_chars + String.length (chunk_text c)))%Z
      then (selected, total_chars)
      else select top_k max_context_chars rest
             (selected ++ [{| chunk := c; score := s |}])
             (total_chars + String.length (chunk_text c))
  end.

(** The scored candidates, highest score first. *)
Definition rank (q_emb : list float) (query : string) (date_range : option (Z * Z))
    (chunk_embeddings : gmap string (list float)) (candidate_chunks : list raw_chunk)
    : outcome (list (float * raw_chunk)) :=
  let is_personal_query := contains_any personal_keywords (lower query) in
  match traverse (score_chunk q_emb is_personal_query date_range chunk_embeddings)
          candidate_chunks with
  | Returned scores => Returned (sort_desc scores)
  | Raised err => Raised err
  end.

(** The embedding of the query, empty when the call raised. *)
Definition _embed_query (query : string) : prog (list float) :=
  EmbedQuery query (fun resp => Ret (default [] resp)).

Definition retrieve (raw_chunks : list raw_chunk) (summaries : list (summary float))
    (top_k : Z) (query : string) (date_range : option (Z * Z))
    (max_context_chars : Z) : prog retrieval_result :=
  q_emb <- _embed_query query ;;
  match q_emb with
  | [] => Ret {| chunks := []; meta := EmbeddingFailed |}
  | _ =>
      relevant_weeks <- lift (find_relevant_weeks summaries q_emb 3) ;;
      let candidate_chunks := candidates raw_chunks relevant_weeks query date_range in
      chunk_embeddings <- _embed_chunks candidate_chunks ;;
      scores <- lift (rank q_emb query date_range chunk_embeddings candidate_chunks) ;;
      let '(selected, total_chars) := select top_k max_context_chars scores [] 0 in
      Ret {| chunks := selected;
             meta := Stats (length candidate_chunks) (length selected) total_chars
                       (week <$> relevant_weeks) |}
  end.

End Retrieve.
End Retrieval.

(** ** Layer 7: the style layer ([layers/style_layer.py]) *)

Module Style.
Import Text.

(** [s.rsplit(sep, 1)] when [sep] occurs in [s]: the text before and
    after its last occurrence. *)
Fixpoint rsplit_once (sep s : string) : option (string * string) :=
  match s with
  | "" => if String.prefix sep "" then Some ("", "") else None
  | String c s' =>
      match rsplit_once sep s' with
      | Some (before, after) => Some (String c before, after)
      | None =>
          if String.prefix sep s
          then Some ("", String.substring (String.length sep) (String.length s) s)
          else None
      end
  end.

Definition set_answer (v : verdict) (a : string) : verdict :=
  {| answer := a; confidence := confidence v;
     reasoning := reasoning v; citations := citations v |}.

Section ApplyStyle.
Context `{Library}.

Definition apply_style (answer_result : verdict) : prog verdict :=
  let ans := answer answer_result in
  let answer_lower := lower ans in
  if contains "do not see" answer_lower || contains "don't see" answer_lower
  then Ret answer_result
  else if startswith ans "From my data:" then Ret answer_result
  else if Nat.ltb (String.length ans) 10 then Ret answer_result
  else
    let '(answer_body, sources_line) :=
      match rsplit_once "Sources:" ans with
      | Some (before, after) => (strip before, "Sources:" +:+ after)
      | None => (ans, "")
      end in
    StyleGen answer_body (fun resp =>
      let styled_answer := strip (default answer_body resp) in
      let styled_answer :=
        match styled_answer with "" => answer_body | _ => styled_answer end in
      let styled_answer :=
        match sources_line with
        | "" => styled_answer
        | _ => styled_answer +:+ newline +:+ newline +:+ sources_line
        end in
      Ret (set_answer answer_result styled_answer)).

End ApplyStyle.
End Style.

(** ** The orchestrator ([twin.py]) *)

Module Twin.
Import Text.

Definition greetings : list string := ["hi"; "hello"; "hey"].

Definition help_intents : list string :=
  ["help"; "what can you do"; "how do you work"; "examples"; "example questions"].

Definition greeting_verdict : verdict :=
  {| answer := "Hi. You can ask me about my work, decisions, and messages. "
               +:+ "For example: What happened in late December around inference?";
     confidence := none;
     reasoning := "Greeting handled as a UI intent without using memory.";
     citations := [] |}.

Definition help_verdict : verdict :=
  {| answer := "I answer questions about my work using only the data you provided. "
               +:+ "If I cannot find evidence, I will refuse. "
               +:+ "Try asking: What was I working on in Q4 2025?";
     confidence := none;
     reasoning := "Help intent handled as a UI intent without using memory.";
     citations := [] |}.

Section Answer.
Context `{Library}.

(** The state of a [DigitalTwin]: the chunks of the raw memory, the
    summaries of the semantic memory and the two limits read from the
    environment. *)
Record twin := DigitalTwin {
  raw_chunks : list raw_chunk;
  summaries : list (summary float);
  top_k : Z;
  max_context_chars : Z;
}.

Definition answer_mode_of (question : string) (date_range : option (Z * Z)) : string :=
  let question_lower := lower question in
  let is_summary_mode :=
    bool_decide (is_Some date_range)
    || startswith question_lower "what happened"
    || startswith question_lower "what was i working on"
    || contains "what was i doing" question_lower in
  if is_summary_mode then "SUMMARY_MODE" else "FACT_MODE".

(** [DigitalTwin.answer] with [debug=False]. *)
Definition answer (t : twin) (question : string) : prog verdict :=
  let q := lower (strip question) in
  if mem q greetings then Ret greeting_verdict
  else if mem q help_intents then Ret help_verdict
  else
    date_range <- lift (parse_date_range question) ;;
    let answer_mode := answer_mode_of question date_range in
    retrieval_result <-
      Retrieval.retrieve (raw_chunks t) (summaries t) (top_k t)
        question date_range (max_context_chars t) ;;
    let retrieved_chunks := Retrieval.chunks retrieval_result in
    ev <- Extraction.extract question retrieved_chunks answer_mode ;;
    answer_result <- Gate.generate_answer question ev retrieved_chunks answer_mode ;;
    Style.apply_style answer_result.

End Answer.
End Twin.

(** ** Vocabulary of the properties *)

Import Text.

(** A text is sensitive when a pattern matches it or its lowercase form
    holds a keyword. *)
Definition matches_sensitive (text : string) : Prop :=
  (exists p, In p Gate.sensitive_patterns /\ Re.search true p text = true)
  \/ (exists k, In k Gate.sensitive_keywords /\ contains k (lower text) = true).

(** The entailment check ran during the run of [p] and returned [st]. *)
Definition entailment_returned `{Library} {A : Type} (c : client) (p : prog A)
    (st : entailment) : Prop :=
  exists question quotes resp,
    In (CEntailGen question quotes resp) (calls c p) /\ Gate.entailment_of resp = st.

(** Answer generation ran during the run of [p] and replied [resp]. *)
Definition generation_replied `{Library} {A : Type} (c : client) (p : prog A)
    (resp : option string) : Prop :=
  exists mode question evs, In (CAnswerGen mode question evs resp) (calls c p).

(** The number of distinct chunks the evidence comes from. *)
Definition distinct_sources (evs : list evidence_item) : nat :=
  size (list_to_set (ev_chunk_id <$> evs) : gset string).

(** The line of the quote-only answer for one evidence item. *)
Definition quote_line (ev : evidence_item) : string := "- " +:+ ev_quote ev.

(** [v] is a quote-only answer over [evs]: the quotes of at most three
    evidence items from pairwise distinct chunks, in the order of [evs],
    with confidence [medium]. *)
Definition quote_only_answer (evs : list evidence_item) (v : verdict) : Prop :=
  exists picked : list evidence_item,
    picked <> [] /\ sublist picked evs /\ length picked <= 3
    /\ NoDup (ev_chunk_id <$> picked)
    /\ answer v = "From my data:" +:+ newline +:+ join newline (quote_line <$> picked)
    /\ confidence v = medium.

(** The post-generation scan lets the generated text through. *)
Definition passes_scan (evs : list evidence_item) (resp : option string) : Prop :=
  existsb (contains "identity.md") (ev_file <$> evs) = true
  \/ Gate._contains_sensitive_info (Gate.generated_text resp) "" = false.

(** The paths of [generate_answer]: the outcome and the calls of a run with
    client [c], branch by branch. *)
Inductive gate_path `{Library} (c : client) (question : string) (ev : extraction)
    (answer_mode : string) : outcome verdict * list call -> Prop :=
| PathBlocked :
    Gate._contains_sensitive_info question "" = true ->
    gate_path c question ev answer_mode (Returned Gate.blocked_question, [])
| PathNoEvidence :
    Gate._contains_sensitive_info question "" = false ->
    has_evidence ev = false \/ evidence ev = [] ->
    gate_path c question ev answer_mode
      (Returned (Gate.refusal "No supporting evidence found in the data."), [])
| PathSummary resp :
    Gate._contains_sensitive_info question "" = false ->
    has_evidence ev = true -> evidence ev <> [] ->
    answer_mode = "SUMMARY_MODE" ->
    resp = answer_gen c answer_mode question (evidence ev) ->
    gate_path c question ev answer_mode
      (Returned (Gate.finish (evidence ev)
                   (Some (if Nat.leb 2 (distinct_sources (evidence ev))
                          then high else medium)) resp),
       [CAnswerGen answer_mode question (evidence ev) resp])
| PathNo resp :
    Gate._contains_sensitive_info question "" = false ->
    has_evidence ev = true -> evidence ev <> [] ->
    answer_mode <> "SUMMARY_MODE" ->
    resp = entail_gen c question (ev_quote <$> evidence ev) ->
    Gate.entailment_of resp = no ->
    gate_path c question ev answer_mode
      (Returned (Gate.refusal "Evidence does not support the question."),
       [CEntailGen question (ev_quote <$> evidence ev) resp])
| PathUnknown resp :
    Gate._contains_sensitive_info question "" = false ->
    has_evidence ev = true -> evidence ev <> [] ->
    answer_mode <> "SUMMARY_MODE" ->
    resp = entail_gen c question (ev_quote <$> evidence ev) ->
    Gate.entailment_of resp = unknown ->
    gate_path c question ev answer_mode
      (Returned (Gate.quote_only_verdict (evidence ev)),
       [CEntailGen question (ev_quote <$> evidence ev) resp])
| PathYes reply resp :
    Gate._contains_sensitive_info question "" = false ->
    has_evidence ev = true -> evidence ev <> [] ->
    answer_mode <> "SUMMARY_MODE" ->
    reply = entail_gen c question (ev_quote <$> evidence ev) ->
    Gate.entailment_of reply = yes ->
    resp = answer_gen c answer_mode question (evidence ev) ->
    gate_path c question ev answer_mode
      (Returned (Gate.finish (evidence ev) None resp),
       [CEntailGen question (ev_quote <$> evidence ev) reply;
        CAnswerGen answer_mode question (evidence ev) resp]).

(** The summed text length of a selection. *)
Definition total_length {F : Type} (selected : list (retrieved F)) : nat :=
  foldr (fun r n => String.length (chunk_text (chunk r)) + n) 0 selected.


(** Each score of the list is at least the next one. *)
Definition descending `{Library} {A : Type} (scores : list (float * A)) : Prop :=
  Sorted (fun a b => f_lt a.1 b.1 = false) scores.

(** [quote] is verbatim text of a chunk of [store] with the given id and
    file: after whitespace normalisation it is a substring of the chunk's
    normalised text. *)
Definition verbatim_in (store : list raw_chunk) (quote source cid : string) : Prop :=
  exists ch,
    In ch store /\ chunk_id ch = cid /\ chunk_file ch = source
    /\ contains (normalize quote) (normalize (chunk_text ch)) = true.

(** The quote of [ev] is verbatim text of an entry of [retrieved_chunks]. *)
Definition verbatim_item `{Library} (retrieved_chunks : list (retrieved float))
    (ev : evidence_item) : Prop :=
  exists entry,
    In entry retrieved_chunks
    /\ ev_chunk_id ev = chunk_id (chunk entry)
    /\ ev_file ev = chunk_file (chunk entry)
    /\ contains (normalize (ev_quote ev)) (normalize (chunk_text (chunk entry))) = true.

(** [cit] cites [ev]: same chunk and file, and the text is the quote, as it
    is or stripped, or its redaction outside the profile record. *)
Definition cites (cit : citation) (ev : evidence_item) : Prop :=
  cit_source cit = ev_file ev
  /\ cit_chunk_id cit = ev_chunk_id ev
  /\ (cit_text cit = ev_quote ev
      \/ cit_text cit = strip (ev_quote ev)
      \/ (contains "identity.md" (ev_file ev) = false
          /\ cit_text cit = Re.sub Gate.email_pattern "[redacted]" (strip (ev_quote ev)))).

(** The state of the quote loop after some evidence: the lines are those of
    the items picked so far, which come from pairwise distinct chunks, are
    at most three, and whose chunks are exactly the ones seen. *)
Definition quote_inv (pre : list evidence_item) (st : list string * gset string)
    (picked : list evidence_item) : Prop :=
  st.1 = quote_line <$> picked
  /\ sublist picked pre
  /\ length picked <= 3
  /\ NoDup (ev_chunk_id <$> picked)
  /\ (forall cid, cid ∈ st.2 <-> cid ∈ ev_chunk_id <$> picked).

(** ** Concrete inputs

    A library instance and a few stores, replies and clients on which the
    definitions are run.  Floats are integers here, the cosine is the dot
    product, [decode] knows the documents the examples use (every entry is
    what [json.loads] returns on that text), and [read_state] reads the
    three replies [{"state": "yes"}], [{"state": "no"}] and
    [{"state": "unknown"}]. *)

Module Example.

Definition quoted (s : string) : string := dquote +:+ s +:+ dquote.

(** [{"evidence":[{"chunk_index":i,"quote":"q"}, ...]}] *)
Definition item_text (i q : string) : string :=
  "{" +:+ quoted "chunk_index" +:+ ":" +:+ i +:+ ","
      +:+ quoted "quote" +:+ ":" +:+ quoted q +:+ "}".

Definition reply_text (items : list string) : string :=
  "{" +:+ quoted "evidence" +:+ ":[" +:+ join "," items +:+ "]}".

Definition item_value (i : Json.value) (q : string) : Json.value :=
  Json.JObj [("chunk_index", i); ("quote", Json.JStr q)].

Definition reply_value (items : list Json.value) : Json.value :=
  Json.JObj [("evidence", Json.JArr items)].

Definition access_quote : string := "mail bob@example.com for access".
Definition cold_start_quote : string :=
  "it took about 6-9 minutes to get the first successful response".
Definition capacity_quote : string := "invoke requests failed with a no-capacity error".

Definition documents : list (string * Json.value) :=
  [ (Extraction.default_extraction, reply_value []);
    (reply_text [item_text "0" access_quote],
     reply_value [item_value (Json.JInt 0) access_quote]);
    (reply_text [item_text "0" cold_start_quote; item_text "1" capacity_quote],
     reply_value [item_value (Json.JInt 0) cold_start_quote;
                  item_value (Json.JInt 1) capacity_quote]);
    (reply_text [item_text "0" cold_start_quote; item_text (quoted "one") capacity_quote],
     reply_value [item_value (Json.JInt 0) cold_start_quote;
                  item_value (Json.JStr "one") capacity_quote]);
    ("[1, 2]", Json.JArr [Json.JInt 1; Json.JInt 2]) ].

Fixpoint decode_in (table : list (string * Json.value)) (s : string) : option Json.value :=
  match table with
  | [] => None
  | (text, v) :: rest => if String.eqb text s then Some v else decode_in rest s
  end.

(** An integer literal of 4301 digits, past the limit of [int]. *)
Definition long_integer : string :=
  Nat.iter 4301 (String "9"%char) "".

(** A decoder that knows the documents above and the long integer. *)
Definition decode (s : string) : outcome Json.value :=
  match decode_in documents s with
  | Some v => Returned v
  | None =>
      if String.eqb s long_integer then Raised ValueError else Raised JSONDecodeError
  end.

(** A date parser that finds no range, and raises on the year 0000. *)
Definition no_date_range (question : string) : outcome (option (Z * Z)) :=
  if contains "0000" question then Raised ValueError else Returned None.

Definition state_name (st : entailment) : string :=
  match st with yes => "yes" | no => "no" | unknown => "unknown" end.

(** [{"state": "<st>"}] *)
Definition state_reply (st : entailment) : string :=
  "{" +:+ quoted "state" +:+ ": " +:+ quoted (state_name st) +:+ "}".

Definition says (st : entailment) : option string := Some (state_reply st).

Definition read_state (s : string) : entailment :=
  if String.eqb s (state_reply yes) then yes
  else if String.eqb s (state_reply no) then no
  else unknown.

Fixpoint dot (a b : list Z) : Z :=
  match a, b with
  | x :: a', y :: b' => (x * y + dot a' b')%Z
  | _, _ => 0%Z
  end.

Definition library : Library :=
  {| float := Z; f_zero := 0%Z; f_add := Z.add; f_lt := Z.ltb;
     boost_profile := 5%Z; boost_in_range := 3%Z;
     cosine := dot; json_loads := decode;
     parse_entailment := read_state;
     parse_date_range := no_date_range |}.

(** A client that embeds every text as the same vector and gives fixed
    replies to the three kinds of generation. *)
Definition client_with (extracted entailed answered styled : option string)
    : @client library :=
  @Client library
    (fun _ => Some [1%Z])
    (fun texts => Some ((fun _ => [1%Z]) <$> texts))
    (fun _ _ => extracted)
    (fun _ _ => entailed)
    (fun _ _ _ => answered)
    (fun _ => styled).

(** The client of the access example: one quote extracted from the first
    chunk, a generated answer, no restyling. *)
Definition access_client : @client library :=
  client_with (Some (reply_text [item_text "0" access_quote])) (says yes)
    (Some "I asked Bob for building access.") None.

(** A client whose extraction reply has a well-formed first item and a
    second item indexed by a string. *)
Definition mixed_reply_client : @client library :=
  client_with
    (Some (reply_text [item_text "0" cold_start_quote;
                       item_text (quoted "one") capacity_quote]))
    (says yes) None None.

(** A client whose extraction reply is not JSON. *)
Definition prose_client : @client library :=
  client_with (Some "Sorry, I cannot produce JSON.") (says yes) None None.

(** Two summarising clients: a plain summary, and one that names a token. *)
Definition summary_client : @client library :=
  client_with None (says no) (Some "Cold starts were slow and capacity ran out.") None.

Definition token_client : @client library :=
  client_with None (says no) (Some "We rotated the token on Friday.") None.

Definition notes_chunk : raw_chunk :=
  {| chunk_id := "notes:chunk:0"; chunk_file := "data/notes.md";
     chunk_text := "Please " +:+ access_quote +:+ ".";
     chunk_timestamp := None |}.

Definition cold_chunk : raw_chunk :=
  {| chunk_id := "test:chunk:2"; chunk_file := "data/test.md";
     chunk_text := "From a fully cold state, " +:+ cold_start_quote +:+ ".";
     chunk_timestamp := None |}.

Definition capacity_chunk : raw_chunk :=
  {| chunk_id := "test:chunk:1"; chunk_file := "data/test.md";
     chunk_text := "Some " +:+ capacity_quote +:+ " last week.";
     chunk_timestamp := Some 100%Z |}.

(** A retrieved entry for [c]. *)
Definition hit (c : raw_chunk) : retrieved (@float library) := Retrieved c 1%Z.

Definition evidence_of (q : string) (c : raw_chunk) : evidence_item :=
  {| ev_quote := q; ev_chunk_id := chunk_id c; ev_file := chunk_file c;
     ev_timestamp := chunk_timestamp c |}.

Definition found (evs : list evidence_item) : extraction :=
  {| evidence := evs; has_evidence := true; raw_extraction := None |}.

Definition cold_evidence : extraction := found [evidence_of cold_start_quote cold_chunk].

Definition two_sources : extraction :=
  found [evidence_of cold_start_quote cold_chunk; evidence_of capacity_quote capacity_chunk].

Definition twin_of (store : list raw_chunk) (k budget : Z) : @Twin.twin library :=
  @Twin.DigitalTwin library store [] k budget.

End Example.

(** ** Further vocabulary *)

(** The kinds of call a run of the gate can make, in order: at most one
    entailment check, then at most one answer generation. *)
Definition gate_calls `{Library} (l : list call) : Prop :=
  l = []
  \/ (exists q quotes r, l = [CEntailGen q quotes r])
  \/ (exists m q evs r, l = [CAnswerGen m q evs r])
  \/ (exists q quotes r m q' evs r',
        l = [CEntailGen q quotes r; CAnswerGen m q' evs r']).

(** What [extract] promises of an evidence item: the quote is stripped and
    long enough for the mode, and the item is the verbatim quote of the
    retrieved chunk at some index, with that chunk's id, file and
    timestamp. *)
Definition valid_item `{Library} (retrieved_chunks : list (retrieved float))
    (answer_mode : string) (ev : evidence_item) : Prop :=
  Extraction.min_quote_length answer_mode <= String.length (ev_quote ev)
  /\ strip (ev_quote ev) = ev_quote ev
  /\ exists i entry,
       retrieved_chunks !! i = Some entry
       /\ ev_chunk_id ev = chunk_id (chunk entry)
       /\ ev_file ev = chunk_file (chunk entry)
       /\ ev_timestamp ev = chunk_timestamp (chunk entry)
       /\ contains (normalize (ev_quote ev)) (normalize (chunk_text (chunk entry))) = true.

(** A decoded item with a string quote whose index is null or an integer
    outside [0, n). *)
Definition index_out_of_range (n : nat) (item : Json.value) : Prop :=
  exists fields q,
    item = Json.JObj fields
    /\ Json.get fields "quote" (Json.JStr "") = Json.JStr q
    /\ (Json.get fields "chunk_index" Json.JNull = Json.JNull
        \/ exists z, Json.get fields "chunk_index" Json.JNull = Json.JInt z
                     /\ (z < 0 \/ Z.of_nat n <= z)%Z).

(** The summed text length of a list of chunks. *)
Definition text_total (cs : list raw_chunk) : nat :=
  foldr (fun ch n => String.length (chunk_text ch) + n) 0 cs.

(** The table of chunk embeddings [retrieve] works with: empty without a
    call when there is no candidate. *)
Definition chunk_table `{Library} (c : client) (cs : list raw_chunk)
    : gmap string (list float) :=
  match cs with
  | [] => ∅
  | _ => Retrieval.embedding_table cs (embed_chunks c (chunk_text <$> cs))
  end.

(** The embedding of the week, if any, has the length of the query's: the
    turn of the loop of [find_relevant_weeks] does not raise. *)
Definition week_aligned `{Library} (q_emb : list float) (s : summary float) : bool :=
  match week_embedding s with
  | Some (x :: e) => Nat.eqb (length q_emb) (length (x :: e))
  | _ => true
  end.

(** Every candidate with an embedding in [table] has one of the length of
    the query's: no turn of the scoring loop raises. *)
Definition table_aligned `{Library} (q_emb : list float)
    (table : gmap string (list float)) (cs : list raw_chunk) : bool :=
  forallb (fun ch =>
             match table !! chunk_id ch with
             | Some e => Nat.eqb (length q_emb) (length e)
             | None => true
             end) cs.

(** Some chunk of [cs] has the id of [ch]. *)
Definition id_among (ch : raw_chunk) (cs : list raw_chunk) : Prop :=
  exists ch', In ch' cs /\ chunk_id ch' = chunk_id ch.

(** The candidates before the profile chunks are added: the routed chunks,
    the chunks of the date range, or else the whole store. *)
Definition base_candidates `{Library} (raw_chunks : list raw_chunk)
    (relevant_weeks : list (summary float)) (date_range : option (Z * Z))
    : list raw_chunk :=
  let routed :=
    omap (Retrieval.get_chunk_by_id raw_chunks)
      (Retrieval.get_chunk_ids_for_weeks relevant_weeks) in
  let merged :=
    match date_range with
    | Some range =>
        Retrieval.merge_time_chunks routed
          (Retrieval.get_chunks_by_time_range raw_chunks range)
    | None => routed
    end in
  match merged with
  | [] => raw_chunks
  | _ => merged
  end.

(** The services behind the client, and the one a call went to. *)
Inductive service :=
| SvcEmbedQuery | SvcEmbedChunks | SvcExtract | SvcEntail | SvcAnswer | SvcStyle.

Definition service_of `{Library} (k : call) : service :=
  match k with
  | CEmbedQuery _ _ => SvcEmbedQuery
  | CEmbedChunks _ _ => SvcEmbedChunks
  | CExtractGen _ _ _ => SvcExtract
  | CEntailGen _ _ _ => SvcEntail
  | CAnswerGen _ _ _ _ => SvcAnswer
  | CStyleGen _ _ => SvcStyle
  end.

(** The order of the layers in [DigitalTwin.answer]. *)
Definition pipeline : list service :=
  [SvcEmbedQuery; SvcEmbedChunks; SvcExtract; SvcEntail; SvcAnswer; SvcStyle].

(** The text the style layer keeps for [body]: the stripped reply of the
    restyling call, or [body] when the call raised or replied nothing. *)
Definition restyled `{Library} (c : client) (body : string) : string :=
  let styled_answer := strip (default body (style_gen c body)) in
  match styled_answer with "" => body | _ => styled_answer end.

(** ** Further concrete inputs *)

Module Sample.

(** A client whose entailment call raises. *)
Definition silent_entailment_client : @client Example.library :=
  Example.client_with None None (Some "About 6-9 minutes.") None.

(** A client that answers the fact question. *)
Definition answering_client : @client Example.library :=
  Example.client_with None (Example.says yes) (Some "About 6-9 minutes.") None.

(** A client whose answer generation raises. *)
Definition failing_generation_client : @client Example.library :=
  Example.client_with None (Example.says yes) None None.

(** A client whose generated answer names a password. *)
Definition leaking_client : @client Example.library :=
  Example.client_with None (Example.says yes) (Some "The password is hunter2.") None.

(** Evidence with two quotes from one chunk and one from another. *)
Definition three_quotes : extraction :=
  Example.found
    [ Example.evidence_of Example.cold_start_quote Example.cold_chunk;
      Example.evidence_of "the first successful response" Example.cold_chunk;
      Example.evidence_of Example.capacity_quote Example.capacity_chunk ].

Definition profile_chunk : raw_chunk :=
  {| chunk_id := "identity:profile"; chunk_file := "data/identity.md";
     chunk_text := "Name: Archit. Location: Pune.";
     chunk_timestamp := None |}.

(** A store of three chunks, the profile last. *)
Definition store : list raw_chunk :=
  [Example.cold_chunk; Example.capacity_chunk; profile_chunk].

(** A client whose chunk embedding raises. *)
Definition no_chunk_embedding_client : @client Example.library :=
  @Client Example.library
    (fun _ => Some [1%Z]) (fun _ => None)
    (fun _ _ => None) (fun _ _ => None) (fun _ _ _ => None) (fun _ => None).

(** A client whose query embedding raises. *)
Definition no_query_embedding_client : @client Example.library :=
  @Client Example.library
    (fun _ => None) (fun _ => None)
    (fun _ _ => None) (fun _ _ => None) (fun _ _ _ => None) (fun _ => None).

(** Three weekly summaries, the last without an embedding. *)
Definition weeks : list (summary Z) :=
  [ {| week := "2025-W50"; week_chunk_ids := ["slack:1"]; week_embedding := Some [1%Z] |};
    {| week := "2025-W51"; week_chunk_ids := ["slack:2"]; week_embedding := Some [3%Z] |};
    {| week := "2025-W52"; week_chunk_ids := []; week_embedding := None |} ].

(** Evidence quoted from the profile chunk. *)
Definition profile_evidence : extraction :=
  Example.found [Example.evidence_of "Location: Pune." profile_chunk].

(** A client whose chunk embeddings are longer than its query embedding. *)
Definition misaligned_client : @client Example.library :=
  @Client Example.library
    (fun _ => Some [1%Z]) (fun texts => Some ((fun _ => [1%Z; 2%Z]) <$> texts))
    (fun _ _ => None) (fun _ _ => None) (fun _ _ _ => None) (fun _ => None).

(** A client whose extraction reply is an integer of 4301 digits. *)
Definition long_integer_client : @client Example.library :=
  Example.client_with (Some Example.long_integer) (Example.says yes) None None.

(** A client whose extraction reply decodes to a list, not an object. *)
Definition list_reply_client : @client Example.library :=
  Example.client_with (Some "[1, 2]") (Example.says yes) None None.

(** A client that restyles every answer to the same text. *)
Definition restyling_client : @client Example.library :=
  Example.client_with None (Example.says yes) None (Some "  I saw it take 6-9 minutes. ").

(** A generated verdict with a sources line. *)
Definition sourced_verdict : verdict :=
  {| answer := "It took about 6-9 minutes. Sources: test:chunk:2";
     confidence := medium;
     reasoning := "Based on 1 valid citation(s) from retrieved context.";
     citations := [] |}.

End Sample.

(** * Properties *)

Import Text.

(** ** Running programs *)

Lemma run_bind `{Library} {A B : Type} (c : client) (p : prog A) (f : A -> prog B) :
  run c (bind p f) =
  match run c p with
  | (Returned a, l) => let '(o, l') := run c (f a) in (o, l ++ l')
  | (Raised e, l) => (Raised e, l)
  end.
Proof.
  induction p as [a|e|q k IH|ts k IH|q cs k IH|q qs k IH|m q evs k IH|b k IH]; simpl.
  - destruct (run c (f a)); reflexivity.
  - reflexivity.
  - rewrite IH. destruct (run c (k (embed_query c q))) as [[a|e] l];
      [destruct (run c (f a))|]; reflexivity.
  - rewrite IH. destruct (run c (k (embed_chunks c ts))) as [[a|e] l];
      [destruct (run c (f a))|]; reflexivity.
  - rewrite IH. destruct (run c (k (extract_gen c q cs))) as [[a|e] l];
      [destruct (run c (f a))|]; reflexivity.
  - rewrite IH. destruct (run c (k (entail_gen c q qs))) as [[a|e] l];
      [destruct (run c (f a))|]; reflexivity.
  - rewrite IH. destruct (run c (k (answer_gen c m q evs))) as [[a|e] l];
      [destruct (run c (f a))|]; reflexivity.
  - rewrite IH. destruct (run c (k (style_gen c b))) as [[a|e] l];
      [destruct (run c (f a))|]; reflexivity.
Qed.

Lemma result_bind `{Library} {A B : Type} (c : client) (p : prog A) (f : A -> prog B) :
  result c (bind p f) =
  match result c p with
  | Returned a => result c (f a)
  | Raised e => Raised e
  end.
Proof.
  unfold result. rewrite run_bind.
  destruct (run c p) as [[a|e] l]; simpl; [|reflexivity].
  destruct (run c (f a)); reflexivity.
Qed.

(** ** Lists and texts *)

Lemma existsb_In {A : Type} (f : A -> bool) (l : list A) (x : A) :
  In x l -> f x = true -> existsb f l = true.
Proof. intros Hin Hf. apply existsb_exists. exists x. split; assumption. Qed.

Lemma existsb_false_In {A : Type} (f : A -> bool) (l : list A) (x : A) :
  existsb f l = false -> In x l -> f x = false.
Proof.
  intros Hex Hin. destruct (f x) eqn:Hf; [|reflexivity].
  rewrite (existsb_In f l x Hin Hf) in Hex. discriminate.
Qed.

Lemma mem_In (x : string) (xs : list string) : mem x xs = true <-> In x xs.
Proof.
  unfold mem. rewrite existsb_exists. split.
  - intros (y & Hy & Heq). apply String.eqb_eq in Heq. subst. assumption.
  - intros Hin. exists x. split; [assumption | apply String.eqb_refl].
Qed.

(** *** Whitespace normalisation *)

Lemma split_lstrip (s : string) : split (lstrip s) = split s.
Proof.
  induction s as [|c s IH].
  - reflexivity.
  - simpl lstrip. destruct (isspace c) eqn:Hc.
    + rewrite IH. simpl. rewrite Hc. reflexivity.
    + reflexivity.
Qed.

Lemma rstrip_head (d d' : ascii) (s r : string) :
  rstrip (String d s) = String d' r -> d = d'.
Proof.
  simpl. destruct (rstrip s); [destruct (isspace d)|]; congruence.
Qed.

Lemma split_rstrip (s : string) : split (rstrip s) = split s.
Proof.
  induction s as [|c s IH].
  - reflexivity.
  - simpl rstrip. destruct (rstrip s) as [|d' r] eqn:Hr.
    + simpl in IH. destruct (isspace c) eqn:Hc.
      * simpl. rewrite Hc. exact IH.
      * simpl. rewrite Hc. destruct s as [|d s']; [reflexivity|].
        rewrite <- IH. destruct (isspace d); reflexivity.
    + destruct s as [|d s']; [discriminate|].
      pose proof (rstrip_head _ _ _ _ Hr) as ->.
      change (split (String c (String d' r)))
        with (if isspace c then split (String d' r)
              else if isspace d' then String c "" :: split (String d' r)
              else match split (String d' r) with
                   | w :: ws => String c w :: ws
                   | [] => [String c ""]
                   end).
      change (split (String c (String d' s')))
        with (if isspace c then split (String d' s')
              else if isspace d' then String c "" :: split (String d' s')
              else match split (String d' s') with
                   | w :: ws => String c w :: ws
                   | [] => [String c ""]
                   end).
      rewrite IH. reflexivity.
Qed.

Lemma normalize_strip (s : string) : normalize (strip s) = normalize s.
Proof.
  unfold normalize, strip. rewrite split_rstrip, split_lstrip. reflexivity.
Qed.

(** *** Substitution without a match *)

Lemma sub_from_unchanged (re : Re.regex) (repl s : string) :
  forall prev, Re.search_from false re prev s = false -> Re.sub_from re repl 0 prev s = s.
Proof.
  induction s as [|a s IH]; intros prev; simpl.
  - destruct (Re.match_here false re prev ""); [discriminate | reflexivity].
  - destruct (Re.match_here false re prev (String a s)); [discriminate|].
    intros Hs. rewrite (IH _ Hs). reflexivity.
Qed.

(** [re.sub] leaves a text without a match as it is. *)
Lemma sub_unchanged (re : Re.regex) (repl s : string) :
  Re.search false re s = false -> Re.sub re repl s = s.
Proof. apply sub_from_unchanged. Qed.

(** ** The orchestrator: canned replies *)

(** C10.  A question whose stripped lowercase form is a greeting or a help
    string gets the canned greeting or help verdict, with confidence
    [none] and no citations.  The program is that bare return: neither
    retrieval nor extraction nor the gate is part of it, and no call is
    made. *)
Theorem answer_canned_intents `{Library} (c : client) (t : Twin.twin) (question : string) :
  In (lower (strip question)) (Twin.greetings ++ Twin.help_intents) ->
  exists v,
    Twin.answer t question = Ret v
    /\ run c (Twin.answer t question) = (Returned v, [])
    /\ v = (if mem (lower (strip question)) Twin.greetings
            then Twin.greeting_verdict else Twin.help_verdict)
    /\ confidence v = none /\ citations v = [].
Proof.
  intros Hin. apply in_app_or in Hin. unfold Twin.answer.
  destruct (mem (lower (strip question)) Twin.greetings) eqn:Hg.
  - exists Twin.greeting_verdict. repeat split.
  - destruct Hin as [Hin|Hin].
    + apply mem_In in Hin. congruence.
    + apply mem_In in Hin. rewrite Hin.
      exists Twin.help_verdict. repeat split.
Qed.

Lemma answer_canned_intents_witness :
  In (lower (strip "  Hello ")) (Twin.greetings ++ Twin.help_intents)
  /\ exists v,
       run (Example.client_with None (Example.says yes) None None)
         (Twin.answer (Example.twin_of [Example.cold_chunk] 6 3000) "  Hello ")
       = (Returned v, [])
       /\ v = Twin.greeting_verdict /\ confidence v = none /\ citations v = [].
Proof.
  assert (Hin : In (lower (strip "  Hello ")) (Twin.greetings ++ Twin.help_intents)).
  { vm_compute. tauto. }
  split; [exact Hin|].
  destruct (@answer_canned_intents Example.library
              (Example.client_with None (Example.says yes) None None)
              (Example.twin_of [Example.cold_chunk] 6 3000) "  Hello " Hin)
    as (v & _ & Hrun & Hv & Hconf & Hcit).
  exists v. repeat split; assumption.
Defined.

(** ** The verifier gate *)

(** *** Sensitive texts *)

(** No keyword occurs in the empty text, and no pattern matches it. *)
Lemma keyword_nonempty (k text : string) :
  In k Gate.sensitive_keywords -> contains k text = true -> text <> "".
Proof.
  intros Hin Hc ->. revert Hc. simpl in Hin.
  repeat (destruct Hin as [<-|Hin]; [vm_compute; discriminate|]). destruct Hin.
Qed.

Lemma pattern_nonempty (p : Re.regex) (text : string) :
  In p Gate.sensitive_patterns -> Re.search true p text = true -> text <> "".
Proof.
  intros Hin Hs ->. revert Hs. simpl in Hin.
  repeat (destruct Hin as [<-|Hin]; [vm_compute; discriminate|]). destruct Hin.
Qed.

Lemma lower_nonempty (s : string) : lower s <> "" -> s <> "".
Proof. intros Hl ->. apply Hl. reflexivity. Qed.

Lemma matches_sensitive_nonempty (text : string) : matches_sensitive text -> text <> "".
Proof.
  intros [(p & Hin & Hs)|(k & Hin & Hc)].
  - eapply pattern_nonempty; eassumption.
  - apply lower_nonempty. eapply keyword_nonempty; eassumption.
Qed.

(** Outside the profile record, [_contains_sensitive_info] holds exactly
    of the texts that match a pattern or hold a keyword. *)
Lemma contains_sensitive_iff (text source_file : string) :
  contains "identity.md" source_file = false ->
  Gate._contains_sensitive_info text source_file = true <-> matches_sensitive text.
Proof.
  intros Hid. split.
  - unfold Gate._contains_sensitive_info. destruct text as [|a s]; [discriminate|].
    rewrite Hid. intros Hs. apply orb_true_iff in Hs. destruct Hs as [Hs|Hs].
    + left. apply existsb_exists in Hs. destruct Hs as (p & Hin & Hp). eauto.
    + right. apply existsb_exists in Hs. destruct Hs as (k & Hin & Hk). eauto.
  - intros Hm. pose proof (matches_sensitive_nonempty _ Hm) as Hne.
    unfold Gate._contains_sensitive_info. destruct text as [|a s]; [congruence|].
    rewrite Hid. destruct Hm as [(p & Hin & Hs)|(k & Hin & Hc)].
    + rewrite (existsb_In _ _ p Hin Hs). reflexivity.
    + apply orb_true_iff. right. apply (existsb_In _ _ k Hin Hc).
Qed.

Lemma contains_sensitive_question (question : string) :
  matches_sensitive question -> Gate._contains_sensitive_info question "" = true.
Proof. apply contains_sensitive_iff. reflexivity. Qed.

Lemma contains_sensitive_profile (text source_file : string) :
  contains "identity.md" source_file = true ->
  Gate._contains_sensitive_info text source_file = false.
Proof.
  intros Hid. unfold Gate._contains_sensitive_info.
  destruct text; [reflexivity|]. rewrite Hid. reflexivity.
Qed.

(** C3.  A question that matches a sensitive pattern or keyword is answered
    with the fixed block verdict, confidence [none] and no citations,
    whatever the evidence and the mode, and without any call. *)
Theorem sensitive_question_blocked `{Library} (c : client) (question : string)
    (ev : extraction) (retrieved_chunks : list (retrieved float)) (answer_mode : string) :
  matches_sensitive question ->
  run c (Gate.generate_answer question ev retrieved_chunks answer_mode)
  = (Returned Gate.blocked_question, [])
  /\ confidence Gate.blocked_question = none
  /\ citations Gate.blocked_question = [].
Proof.
  intros Hm. unfold Gate.generate_answer.
  rewrite (contains_sensitive_question _ Hm). repeat split.
Qed.

Lemma sensitive_question_blocked_witness :
  matches_sensitive "What is the AWS secret for prod?"
  /\ run (Example.client_with None (Example.says yes) (Some "It is hunter2.") None)
       (Gate.generate_answer "What is the AWS secret for prod?"
          Example.two_sources [] "FACT_MODE")
     = (Returned Gate.blocked_question, []).
Proof.
  assert (Hm : matches_sensitive "What is the AWS secret for prod?").
  { right. exists "secret". split; [vm_compute; tauto | vm_compute; reflexivity]. }
  split; [exact Hm|].
  exact (proj1 (@sensitive_question_blocked Example.library
                  (Example.client_with None (Example.says yes) (Some "It is hunter2.") None)
                  "What is the AWS secret for prod?" Example.two_sources []
                  "FACT_MODE" Hm)).
Defined.

(** *** The paths through the gate *)

Lemma distinct_sources_pos (evs : list evidence_item) :
  evs <> [] -> distinct_sources evs <> 0.
Proof.
  destruct evs as [|e evs]; [congruence|]. intros _ Hz.
  unfold distinct_sources in Hz. apply size_empty_iff in Hz.
  rewrite fmap_cons, list_to_set_cons in Hz. set_solver.
Qed.

Lemma generate_answer_path `{Library} (c : client) (question : string) (ev : extraction)
    (retrieved_chunks : list (retrieved float)) (answer_mode : string) :
  gate_path c question ev answer_mode
    (run c (Gate.generate_answer question ev retrieved_chunks answer_mode)).
Proof.
  unfold Gate.generate_answer.
  destruct (Gate._contains_sensitive_info question "") eqn:Hs.
  { apply PathBlocked. assumption. }
  destruct (has_evidence ev) eqn:Hh; simpl negb; cbv iota.
  2:{ apply PathNoEvidence; auto. }
  rewrite orb_false_l.
  destruct (evidence ev) as [|e evs] eqn:He.
  { apply PathNoEvidence; auto. }
  change (Nat.eqb (length (e :: evs)) 0) with false. cbv iota.
  assert (Hne : evidence ev <> []) by (rewrite He; discriminate).
  destruct (String.eqb answer_mode "SUMMARY_MODE") eqn:Hm.
  - apply String.eqb_eq in Hm.
    unfold Gate.summary_branch.
    pose proof (distinct_sources_pos _ Hne) as Hpos. rewrite He in Hpos.
    fold (distinct_sources (e :: evs)).
    destruct (Nat.eqb (distinct_sources (e :: evs)) 0) eqn:Hz.
    { apply Nat.eqb_eq in Hz. contradiction. }
    simpl bind. simpl run. rewrite <- He.
    apply PathSummary; auto.
  - apply String.eqb_neq in Hm.
    unfold Gate.fact_branch, Gate._entailment_state.
    rewrite fmap_cons. simpl bind. simpl run.
    change (ev_quote e :: (ev_quote <$> evs)) with (ev_quote <$> e :: evs).
    destruct (Gate.entailment_of (entail_gen c question (ev_quote <$> e :: evs))) eqn:Hst;
      simpl;
      replace (ev_quote e :: list_fmap _ _ ev_quote evs)
        with (ev_quote <$> evidence ev) by (rewrite He; reflexivity);
      rewrite <- He in *.
    + eapply PathYes; eauto.
    + eapply PathNo; eauto.
    + eapply PathUnknown; eauto.
Qed.

(** Sorting out which call of a path a logged call is. *)
Ltac sift_calls :=
  repeat match goal with
         | H : _ /\ _ |- _ => destruct H
         | H : _ \/ _ |- _ => destruct H
         | H : False |- _ => destruct H
         | H : In _ [] |- _ => destruct H
         | H : CAnswerGen _ _ _ _ = CEntailGen _ _ _ |- _ => discriminate H
         | H : CEntailGen _ _ _ = CAnswerGen _ _ _ _ |- _ => discriminate H
         | H : CEntailGen _ _ _ = CEntailGen _ _ _ |- _ => injection H as ? ? ?
         | H : CAnswerGen _ _ _ _ = CAnswerGen _ _ _ _ |- _ => injection H as ? ? ? ?
         end;
  subst;
  try match goal with
      | H1 : Gate.entailment_of ?r = _, H2 : Gate.entailment_of ?r = _ |- _ =>
          rewrite H1 in H2; discriminate H2
      end.

(** A run that reached answer generation ends in [finish]. *)
Lemma generated_verdict `{Library} (c : client) (question : string) (ev : extraction)
    (retrieved_chunks : list (retrieved float)) (answer_mode : string)
    (resp : option string) :
  generation_replied c
    (Gate.generate_answer question ev retrieved_chunks answer_mode) resp ->
  exists boost,
    result c (Gate.generate_answer question ev retrieved_chunks answer_mode)
    = Returned (Gate.finish (evidence ev) boost resp)
    /\ evidence ev <> []
    /\ (answer_mode = "SUMMARY_MODE" ->
        boost = Some (if Nat.leb 2 (distinct_sources (evidence ev)) then high else medium)
        /\ calls c (Gate.generate_answer question ev retrieved_chunks answer_mode)
           = [CAnswerGen answer_mode question (evidence ev) resp]).
Proof.
  intros (m & q & evs & Hin). unfold calls, result in *.
  pose proof (generate_answer_path c question ev retrieved_chunks answer_mode) as Hp.
  destruct Hp; simpl in Hin |- *; sift_calls.
  - eexists. repeat split; assumption.
  - exists None. repeat split; try assumption; congruence.
Qed.

Lemma finish_passed (evs : list evidence_item) (boost : option confidence_level)
    (resp : option string) :
  passes_scan evs resp ->
  Gate.finish evs boost resp =
  {| answer := Gate.generated_text resp;
     confidence := Gate.assess_confidence (Gate.generated_text resp) boost
                     (Gate.build_citations evs);
     reasoning := "Based on " +:+ pretty (length (Gate.build_citations evs))
                  +:+ " valid citation(s) from retrieved context.";
     citations := Gate.build_citations evs |}.
Proof.
  intros Hp. unfold Gate.finish.
  destruct Hp as [Hp|Hp]; rewrite Hp; simpl; try reflexivity.
  rewrite andb_false_r. reflexivity.
Qed.

(** C4.  In fact mode with a non-empty evidence set, when the entailment
    check returns [no] the verdict is the refusal, with confidence [none]
    and no citations, however many evidence items there are. *)
Theorem entailment_no_refuses `{Library} (c : client) (question : string)
    (ev : extraction) (retrieved_chunks : list (retrieved float)) :
  evidence ev <> [] ->
  entailment_returned c (Gate.generate_answer question ev retrieved_chunks "FACT_MODE") no ->
  exists v,
    result c (Gate.generate_answer question ev retrieved_chunks "FACT_MODE") = Returned v
    /\ answer v = Gate.refusal_text
    /\ confidence v = none
    /\ citations v = [].
Proof.
  intros _ (q & quotes & reply & Hin & Hno). unfold calls, result in *.
  pose proof (generate_answer_path c question ev retrieved_chunks "FACT_MODE") as Hp.
  destruct Hp; simpl in Hin |- *; sift_calls.
  eexists. repeat split.
Qed.

Lemma entailment_no_refuses_witness :
  exists v,
    result (Example.client_with None (Example.says no) None None)
      (Gate.generate_answer "What customer complaints did we receive?"
         Example.two_sources [] "FACT_MODE") = Returned v
    /\ answer v = Gate.refusal_text /\ confidence v = none /\ citations v = [].
Proof.
  apply (@entailment_no_refuses Example.library
           (Example.client_with None (Example.says no) None None)
           "What customer complaints did we receive?" Example.two_sources []).
  - vm_compute. discriminate.
  - eexists _, _, _. vm_compute. split; [left|]; reflexivity.
Defined.

(** *** The quote-only fallback *)

Lemma quote_step_inv (pre : list evidence_item) (st : list string * gset string)
    (picked : list evidence_item) (ev : evidence_item) :
  quote_inv pre st picked ->
  exists more, quote_inv (pre ++ [ev]) (Gate.quote_step st ev) (picked ++ more).
Proof.
  destruct st as [quote_lines seen]. intros (Hl & Hsub & Hlen & Hnd & Hseen).
  simpl in Hl, Hseen. unfold Gate.quote_step.
  destruct (bool_decide (ev_chunk_id ev ∉ seen)) eqn:Hfresh;
    [destruct (Nat.ltb (length quote_lines) 3) eqn:Hroom|]; simpl andb; cbv iota.
  - exists [ev]. apply bool_decide_eq_true in Hfresh. apply Nat.ltb_lt in Hroom.
    rewrite Hl, length_fmap in Hroom.
    repeat split; simpl.
    + rewrite Hl, fmap_app. reflexivity.
    + apply sublist_app; [assumption | reflexivity].
    + rewrite length_app. simpl. lia.
    + rewrite fmap_app. apply NoDup_app. repeat split.
      * assumption.
      * intros cid Hin Hin'. apply list_elem_of_singleton in Hin'. subst cid.
        apply Hfresh, Hseen, Hin.
      * apply NoDup_singleton.
    + rewrite fmap_app, elem_of_app, elem_of_union, elem_of_singleton, Hseen.
      simpl. rewrite list_elem_of_singleton. tauto.
    + rewrite fmap_app, elem_of_app, elem_of_union, elem_of_singleton, Hseen.
      simpl. rewrite list_elem_of_singleton. tauto.
  - exists []. rewrite app_nil_r. repeat split; simpl; try assumption.
    + apply sublist_inserts_r. assumption.
    + apply Hseen.
    + apply Hseen.
  - exists []. rewrite app_nil_r. repeat split; simpl; try assumption.
    + apply sublist_inserts_r. assumption.
    + apply Hseen.
    + apply Hseen.
Qed.

Lemma quote_fold_inv (evs pre : list evidence_item) (st : list string * gset string)
    (picked : list evidence_item) :
  quote_inv pre st picked ->
  exists more, quote_inv (pre ++ evs) (foldl Gate.quote_step st evs) (picked ++ more).
Proof.
  revert pre st picked. induction evs as [|ev evs IH]; intros pre st picked Hinv.
  - exists []. rewrite !app_nil_r. assumption.
  - destruct (quote_step_inv pre st picked ev Hinv) as (m1 & H1).
    destruct (IH _ _ _ H1) as (m2 & H2).
    exists (m1 ++ m2). simpl foldl.
    rewrite <- app_assoc in H2. simpl in H2. rewrite app_assoc. assumption.
Qed.

Lemma quote_only_first (e : evidence_item) (evs : list evidence_item) :
  exists more, quote_inv (e :: evs) (Gate.quote_only (e :: evs)) (e :: more).
Proof.
  unfold Gate.quote_only. simpl foldl.
  assert (H1 : quote_inv [e] (Gate.quote_step ([], ∅) e) [e]).
  { unfold Gate.quote_step.
    rewrite bool_decide_eq_true_2 by set_solver. simpl.
    repeat split; simpl.
    - reflexivity.
    - lia.
    - apply NoDup_singleton.
    - rewrite elem_of_union, elem_of_singleton, list_elem_of_singleton.
      intros [->|Hin]; [reflexivity | exfalso; revert Hin; apply not_elem_of_empty].
    - rewrite elem_of_union, elem_of_singleton, list_elem_of_singleton. tauto. }
  destruct (quote_fold_inv evs [e] _ [e] H1) as (more & H2).
  exists more. exact H2.
Qed.

(** On a non-empty evidence set the fallback is a quote-only answer, whose
    citations are the evidence items of the chunks quoted, with their
    quotes as they are. *)
Lemma quote_only_verdict_spec (evs : list evidence_item) :
  evs <> [] ->
  quote_only_answer evs (Gate.quote_only_verdict evs)
  /\ (Gate.quote_only evs).1 <> []
  /\ citations (Gate.quote_only_verdict evs) <> []
  /\ forall cit, In cit (citations (Gate.quote_only_verdict evs)) ->
       exists e, In e evs /\ cit = Gate.cite (ev_quote e) e.
Proof.
  destruct evs as [|e evs]; [congruence|]. intros _.
  destruct (quote_only_first e evs) as (more & Hl & Hsub & Hlen & Hnd & Hseen).
  unfold Gate.quote_only_verdict.
  destruct (Gate.quote_only (e :: evs)) as [quote_lines seen] eqn:Hq.
  simpl in Hl. subst quote_lines. cbv beta iota. repeat split.
  - exists (e :: more). repeat split; try assumption. discriminate.
  - discriminate.
  - cbn [citations]. unfold Gate.quote_only_citations.
    rewrite filter_cons_True; [discriminate|].
    apply Hseen. simpl. left.
  - cbn [citations]. unfold Gate.quote_only_citations. intros cit Hin.
    apply list_elem_of_In, list_elem_of_fmap in Hin. destruct Hin as (e' & -> & Hin).
    apply list_elem_of_filter in Hin. destruct Hin as [_ Hin].
    exists e'. split; [apply list_elem_of_In; assumption | reflexivity].
Qed.



(** *** Citation assembly *)

(** The citation of one evidence item: none for a degenerate quote; the
    stripped quote as it is for the profile record; elsewhere the quote
    with its e-mail addresses redacted, unless it is still sensitive. *)
Lemma citation_of_spec (e : evidence_item) (cit : citation) :
  Gate.citation_of e = Some cit <->
  Gate.is_valid (strip (ev_quote e)) = true
  /\ ((contains "identity.md" (ev_file e) = true
       /\ cit = Gate.cite (strip (ev_quote e)) e)
      \/ (contains "identity.md" (ev_file e) = false
          /\ cit = Gate.cite (Re.sub Gate.email_pattern "[redacted]" (strip (ev_quote e))) e
          /\ ~ matches_sensitive (cit_text cit))).
Proof.
  unfold Gate.citation_of.
  destruct (Gate.is_valid (strip (ev_quote e))) eqn:Hv.
  2:{ split; [discriminate | intros [Hf _]; discriminate]. }
  destruct (contains "identity.md" (ev_file e)) eqn:Hid; simpl negb; cbv iota.
  - rewrite (contains_sensitive_profile _ _ Hid). simpl. split.
    + intros [= <-]. split; [reflexivity | left; split; reflexivity].
    + intros [_ [[_ ->]|[Hf _]]]; [reflexivity | discriminate].
  - destruct (Gate._contains_sensitive_info
                (Re.sub Gate.email_pattern "[redacted]" (strip (ev_quote e)))
                (ev_file e)) eqn:Hs; simpl negb; cbv iota.
    + split; [discriminate|].
      intros [_ [[Hf _]|(_ & -> & Hn)]]; [discriminate|].
      exfalso. apply Hn. apply (contains_sensitive_iff _ _ Hid). exact Hs.
    + split.
      * intros [= <-]. split; [reflexivity|]. right. repeat split.
        intros Hm. apply (contains_sensitive_iff _ (ev_file e) Hid) in Hm.
        simpl in Hm. congruence.
      * intros [_ [[Hf _]|(_ & -> & _)]]; [discriminate | reflexivity].
Qed.

Lemma build_citations_spec (evs : list evidence_item) (cit : citation) :
  In cit (Gate.build_citations evs) <->
  exists e, In e evs /\ Gate.citation_of e = Some cit.
Proof.
  unfold Gate.build_citations.
  rewrite <- list_elem_of_In, list_elem_of_omap.
  split; intros (e & He & Hc); exists e; split; try assumption;
    apply list_elem_of_In; assumption.
Qed.



(** *** Confidence *)

(** C7, as the code has it.  In summary mode with a non-empty evidence set,
    when the generated answer is not a refusal phrase and the
    post-generation scan lets it through, the confidence is [high] for
    evidence from two or more distinct chunks and [medium] for evidence
    from exactly one; the run makes no entailment check. *)
Theorem summary_confidence `{Library} (c : client) (question : string)
    (ev : extraction) (retrieved_chunks : list (retrieved float)) (resp : option string) :
  evidence ev <> [] ->
  generation_replied c
    (Gate.generate_answer question ev retrieved_chunks "SUMMARY_MODE") resp ->
  Gate.is_refusal (Gate.generated_text resp) = false ->
  passes_scan (evidence ev) resp ->
  exists v,
    result c (Gate.generate_answer question ev retrieved_chunks "SUMMARY_MODE") = Returned v
    /\ answer v = Gate.generated_text resp
    /\ (2 <= distinct_sources (evidence ev) -> confidence v = high)
    /\ (distinct_sources (evidence ev) = 1 -> confidence v = medium)
    /\ forall st,
         ~ entailment_returned c
             (Gate.generate_answer question ev retrieved_chunks "SUMMARY_MODE") st.
Proof.
  intros Hne Hgen Href Hpass.
  destruct (generated_verdict _ _ _ _ _ _ Hgen) as (boost & Hres & _ & Hsum).
  destruct (Hsum eq_refl) as [-> Hcalls].
  eexists. split; [exact Hres|].
  rewrite (finish_passed _ _ _ Hpass). cbn [answer confidence].
  unfold Gate.assess_confidence. rewrite Href. repeat split.
  - intros Hge. apply Nat.leb_le in Hge. rewrite Hge. reflexivity.
  - intros ->. reflexivity.
  - intros st (q & quotes & reply & Hin & _). rewrite Hcalls in Hin.
    destruct Hin as [Hin|[]]. discriminate Hin.
Qed.

Lemma summary_confidence_witness :
  exists v,
    result Example.summary_client
      (Gate.generate_answer "What happened last week?" Example.two_sources [] "SUMMARY_MODE")
    = Returned v
    /\ confidence v = high.
Proof.
  destruct (@summary_confidence Example.library Example.summary_client
              "What happened last week?" Example.two_sources []
              (Some "Cold starts were slow and capacity ran out."))
    as (v & Hres & _ & Hhigh & _).
  - vm_compute. discriminate.
  - eexists _, _, _. vm_compute. left. reflexivity.
  - vm_compute. reflexivity.
  - right. vm_compute. reflexivity.
  - exists v. split; [exact Hres|]. apply Hhigh. vm_compute. lia.
Defined.

(** C7 as stated fails: in summary mode, with evidence from two distinct
    chunks and a generated answer that is not a refusal phrase, the verdict
    is the block of the post-generation scan, with confidence [none]. *)
Lemma summary_confidence_counterexample :
  let c := Example.token_client in
  let ev := Example.two_sources in
  evidence ev <> []
  /\ 2 <= distinct_sources (evidence ev)
  /\ generation_replied c (Gate.generate_answer "What happened last week?" ev [] "SUMMARY_MODE")
       (Some "We rotated the token on Friday.")
  /\ Gate.is_refusal (Gate.generated_text (Some "We rotated the token on Friday.")) = false
  /\ exists v,
       result c (Gate.generate_answer "What happened last week?" ev [] "SUMMARY_MODE")
       = Returned v
       /\ confidence v = none
       /\ confidence v <> high.
Proof.
  cbv zeta. split; [vm_compute; discriminate|].
  split; [vm_compute; lia|].
  split; [eexists _, _, _; vm_compute; left; reflexivity|].
  split; [vm_compute; reflexivity|].
  eexists. split; [vm_compute; reflexivity|].
  split; [reflexivity | discriminate].
Qed.

(** *** Refusals that keep their citations *)

(** Where C2 fails.  In fact mode, with one supporting quote and the
    entailment check answering [yes], a generation call that raises leaves
    the refusal text as the answer: the confidence is [none], and the
    citation of the quote is still returned. *)
Lemma refusal_keeps_citations :
  exists v,
    result (Example.client_with None (Example.says yes) None None)
      (Gate.generate_answer "How long did cold start take?" Example.cold_evidence []
         "FACT_MODE") = Returned v
    /\ answer v = Gate.refusal_text
    /\ confidence v = none
    /\ citations v =
       [ {| cit_text := Example.cold_start_quote; cit_source := "data/test.md";
            cit_chunk_id := "test:chunk:2"; cit_timestamp := None |} ].
Proof. eexists. vm_compute. repeat split. Qed.

(** The other direction fails too: a five-character quote is accepted as
    evidence in summary mode and is too short to be cited, so a generated
    summary can carry confidence [medium] and no citation. *)
Lemma answer_without_citations :
  exists v,
    result (Example.client_with None (Example.says yes) (Some "It went fine.") None)
      (Gate.generate_answer "What happened last week?"
         (Example.found [Example.evidence_of "fine." Example.cold_chunk]) []
         "SUMMARY_MODE") = Returned v
    /\ confidence v = medium
    /\ citations v = [].
Proof. eexists. vm_compute. repeat split. Qed.

(** The coupling does hold on every path that ends before answer
    generation: the two blocks and refusals there carry no citation, and
    the quote-only answer has confidence [medium] and cites what it quotes. *)
Lemma coupling_without_generation `{Library} (c : client) (question : string)
    (ev : extraction) (retrieved_chunks : list (retrieved float)) (answer_mode : string)
    (v : verdict) :
  (forall resp,
     ~ generation_replied c
         (Gate.generate_answer question ev retrieved_chunks answer_mode) resp) ->
  result c (Gate.generate_answer question ev retrieved_chunks answer_mode) = Returned v ->
  confidence v = none <-> citations v = [].
Proof.
  unfold generation_replied, calls, result. intros Hgen.
  pose proof (generate_answer_path c question ev retrieved_chunks answer_mode) as Hp.
  destruct Hp; simpl in Hgen |- *; intros [= <-]; try (split; reflexivity).
  - exfalso. eapply Hgen. eexists _, _, _. left. reflexivity.
  - destruct (quote_only_verdict_spec (evidence ev)) as ((picked & Hq) & _ & Hcit & _);
      [assumption|].
    destruct Hq as (_ & _ & _ & _ & _ & Hconf). rewrite Hconf.
    split; [discriminate | contradiction].
  - exfalso. eapply Hgen. eexists _, _, _. right. left. reflexivity.
Qed.

(** ** Evidence extraction *)

Lemma flag_iff_empty (items : list evidence_item) :
  Nat.ltb 0 (length items) = false <-> items = [].
Proof. destruct items; simpl; split; intros Hx; first [reflexivity | discriminate]. Qed.

(** What [extract] returns, whenever it returns. *)
Lemma extract_returned `{Library} (c : client) (question : string)
    (retrieved_chunks : list (retrieved float)) (answer_mode : string) (e : extraction) :
  result c (Extraction.extract question retrieved_chunks answer_mode) = Returned e ->
  (retrieved_chunks = [] /\ evidence e = [] /\ has_evidence e = false)
  \/ (retrieved_chunks <> []
      /\ evidence e =
         (Extraction.parse_evidence retrieved_chunks
            (Extraction.min_quote_length answer_mode)
            (default Extraction.default_extraction
               (extract_gen c question retrieved_chunks))).1
      /\ has_evidence e = Nat.ltb 0 (length (evidence e))).
Proof.
  unfold result, Extraction.extract.
  destruct retrieved_chunks as [|r rs].
  { simpl. intros [= <-]. left. repeat split. }
  intros Hres. right. split; [discriminate|]. simpl in Hres.
  destruct (Extraction.parse_evidence (r :: rs) (Extraction.min_quote_length answer_mode)
              (default Extraction.default_extraction (extract_gen c question (r :: rs))))
    as [items raised].
  destruct raised as [x|]; [destruct (Extraction.caught x)|];
    simpl in Hres; inversion Hres; subst; split; reflexivity.
Qed.

(** The part of the fail-closed rule that holds.  When the generation call
    of [extract] raises, or [json.loads] raises a [JSONDecodeError] on its
    reply, [extract] returns with no evidence item at all; and whenever
    [extract] returns, [has_evidence] is false exactly when the evidence
    list is empty.  ([json.loads] is assumed to decode the default reply
    [{"evidence":[]}] to an object with an empty list.) *)
Lemma extract_fails_closed `{Library} (c : client) (question : string)
    (retrieved_chunks : list (retrieved float)) (answer_mode : string) :
  json_loads Extraction.default_extraction
  = Returned (Json.JObj [("evidence", Json.JArr [])]) ->
  ((extract_gen c question retrieved_chunks = None
    \/ exists text, extract_gen c question retrieved_chunks = Some text
                    /\ json_loads (strip text) = Raised JSONDecodeError) ->
   exists e,
     result c (Extraction.extract question retrieved_chunks answer_mode) = Returned e
     /\ evidence e = [] /\ has_evidence e = false)
  /\ (forall e,
        result c (Extraction.extract question retrieved_chunks answer_mode) = Returned e ->
        (has_evidence e = false <-> evidence e = [])).
Proof.
  intros Hdefault. split.
  - intros Hfail. unfold result, Extraction.extract.
    destruct retrieved_chunks as [|r rs].
    { eexists. simpl. repeat split. }
    simpl. destruct Hfail as [->|(text & -> & Hnone)]; simpl default.
    + unfold Extraction.parse_evidence.
      change (strip Extraction.default_extraction) with Extraction.default_extraction.
      rewrite Hdefault. simpl. eexists. repeat split.
    + unfold Extraction.parse_evidence. rewrite Hnone. simpl.
      eexists. repeat split.
  - intros e Hres. apply extract_returned in Hres.
    destruct Hres as [(_ & -> & ->)|(_ & _ & ->)].
    + split; reflexivity.
    + apply flag_iff_empty.
Qed.

Example extract_fails_closed_on_prose :
  exists e,
    result Example.prose_client
      (Extraction.extract "How long did cold start take?"
         [Example.hit Example.cold_chunk] "FACT_MODE") = Returned e
    /\ evidence e = [] /\ has_evidence e = false.
Proof. eexists. vm_compute. repeat split. Qed.

(** An exception of [json.loads] that the handler does not name escapes
    [extract]. *)
Lemma extract_raises_uncaught `{Library} (c : client) (question : string)
    (retrieved_chunks : list (retrieved float)) (answer_mode : string) (x : exn) :
  retrieved_chunks <> [] ->
  json_loads (strip (default Extraction.default_extraction
                       (extract_gen c question retrieved_chunks))) = Raised x ->
  Extraction.caught x = false ->
  result c (Extraction.extract question retrieved_chunks answer_mode) = Raised x.
Proof.
  intros Hne Hraise Hcaught. unfold result, Extraction.extract.
  destruct retrieved_chunks as [|r rs]; [congruence|]. simpl run.
  unfold Extraction.parse_evidence. rewrite Hraise, Hcaught. reflexivity.
Qed.

(** Where C5 fails.  A reply that does not parse as the expected structure
    is not always treated as no evidence.  A reply whose second item is
    indexed by a string ends the loop with a [TypeError] that is caught, and
    the item validated before it is returned as evidence, with
    [has_evidence] true; a reply that is a list makes [data.get] raise an
    [AttributeError], and a reply that is an integer of 4301 digits makes
    [json.loads] raise a [ValueError]: neither is caught, and [extract]
    raises instead of returning no evidence. *)
Lemma extract_keeps_partial_list :
  (exists e,
     result Example.mixed_reply_client
       (Extraction.extract "How long did cold start take?"
          [Example.hit Example.cold_chunk; Example.hit Example.capacity_chunk]
          "FACT_MODE") = Returned e
     /\ evidence e = [Example.evidence_of Example.cold_start_quote Example.cold_chunk]
     /\ has_evidence e = true)
  /\ result Sample.list_reply_client
       (Extraction.extract "How long did cold start take?"
          [Example.hit Example.cold_chunk] "FACT_MODE")
     = Raised AttributeError
  /\ result Sample.long_integer_client
       (Extraction.extract "How long did cold start take?"
          [Example.hit Example.cold_chunk] "FACT_MODE")
     = Raised ValueError.
Proof.
  split; [eexists; vm_compute; repeat split|].
  split; vm_compute; reflexivity.
Qed.

(** ** Retrieval *)

Section RetrievalProperties.
Context `{Library}.

(** *** The sort *)

Lemma insert_desc_perm {A : Type} (x : float * A) (l : list (float * A)) :
  Permutation (Retrieval.insert_desc x l) (x :: l).
Proof.
  induction l as [|y l IH]; simpl.
  - reflexivity.
  - destruct (f_lt x.1 y.1).
    + rewrite IH. apply perm_swap.
    + reflexivity.
Qed.

Lemma sort_desc_perm {A : Type} (l : list (float * A)) :
  Permutation (Retrieval.sort_desc l) l.
Proof.
  induction l as [|x l IH]; simpl.
  - reflexivity.
  - unfold Retrieval.sort_desc in *. simpl. rewrite insert_desc_perm, IH. reflexivity.
Qed.

Lemma insert_desc_hd {A : Type} (x y : float * A) (l : list (float * A)) :
  f_lt y.1 x.1 = false ->
  HdRel (fun a b => f_lt a.1 b.1 = false) y l ->
  HdRel (fun a b => f_lt a.1 b.1 = false) y (Retrieval.insert_desc x l).
Proof.
  intros Hyx Hhd. destruct l as [|z l]; simpl.
  - constructor. exact Hyx.
  - destruct (f_lt x.1 z.1); constructor.
    + inversion Hhd; assumption.
    + exact Hyx.
Qed.

Lemma insert_desc_sorted {A : Type} (x : float * A) (l : list (float * A)) :
  (forall a b : float, f_lt a b = true -> f_lt b a = false) ->
  descending l -> descending (Retrieval.insert_desc x l).
Proof.
  intros Hasym. unfold descending. induction l as [|y l IH]; intros Hs; simpl.
  - repeat constructor.
  - destruct (f_lt x.1 y.1) eqn:Hxy.
    + apply Sorted_inv in Hs. destruct Hs as [Hs Hhd]. constructor.
      * apply IH. exact Hs.
      * apply insert_desc_hd; [apply Hasym; exact Hxy | exact Hhd].
    + constructor; [exact Hs | constructor; exact Hxy].
Qed.

Lemma sort_desc_sorted {A : Type} (l : list (float * A)) :
  (forall a b : float, f_lt a b = true -> f_lt b a = false) ->
  descending (Retrieval.sort_desc l).
Proof.
  intros Hasym. induction l as [|x l IH].
  - constructor.
  - apply (insert_desc_sorted x _ Hasym IH).
Qed.

(** *** The selection loop *)

Lemma total_length_snoc (selected : list (retrieved float)) (r : retrieved float) :
  total_length (selected ++ [r])
  = total_length selected + String.length (chunk_text (chunk r)).
Proof.
  induction selected as [|r' sel IH]; simpl.
  - lia.
  - rewrite IH. lia.
Qed.

(** From a state within the bounds, [select] ends within the bounds, having
    appended to [selected] a prefix of [scores] that cannot be extended. *)
Lemma select_spec (top_k budget : Z) (scores : list (float * raw_chunk)) :
  forall (selected : list (retrieved float)) (total_chars : nat),
    total_chars = total_length selected ->
    (Z.of_nat (length selected) <= top_k)%Z ->
    (Z.of_nat total_chars <= budget)%Z ->
    let out := Retrieval.select top_k budget scores selected total_chars in
    out.2 = total_length out.1
    /\ (Z.of_nat (length out.1) <= top_k)%Z
    /\ (Z.of_nat (total_length out.1) <= budget)%Z
    /\ exists taken rest,
         scores = taken ++ rest
         /\ out.1 = selected ++ ((fun p => Retrieved p.2 p.1) <$> taken)
         /\ match rest with
            | [] => True
            | (s, c) :: _ =>
                (top_k <= Z.of_nat (length out.1))%Z
                \/ (budget < Z.of_nat (total_length out.1 + String.length (chunk_text c)))%Z
            end.
Proof.
  induction scores as [|[s c] scores IH]; intros selected total_chars Htot Hk Hb; simpl.
  - subst. repeat split; try assumption.
    exists [], []. simpl. rewrite app_nil_r. repeat split.
  - destruct (top_k <=? Z.of_nat (length selected))%Z eqn:Hfull.
    { subst. simpl. repeat split; try assumption.
      exists [], ((s, c) :: scores). simpl. rewrite app_nil_r. repeat split.
      left. apply Z.leb_le. exact Hfull. }
    destruct (budget <? Z.of_nat (total_chars + String.length (chunk_text c)))%Z eqn:Hover.
    { subst. simpl. repeat split; try assumption.
      exists [], ((s, c) :: scores). simpl. rewrite app_nil_r. repeat split.
      right. apply Z.ltb_lt. exact Hover. }
    apply Z.leb_gt in Hfull. apply Z.ltb_ge in Hover.
    specialize (IH (selected ++ [{| chunk := c; score := s |}])
                   (total_chars + String.length (chunk_text c))).
    destruct IH as (H1 & H2 & H3 & taken & rest & Hsc & Hout & Hrest).
    + rewrite total_length_snoc. simpl. lia.
    + rewrite length_app. simpl. lia.
    + exact Hover.
    + repeat split; try assumption.
      exists ((s, c) :: taken), rest. repeat split.
      * simpl. rewrite Hsc. reflexivity.
      * rewrite Hout, <- app_assoc. reflexivity.
      * exact Hrest.
Qed.


(** *** Loops that may raise *)

Lemma traverse_returned {A B : Type} (f : A -> outcome B) (l : list A) :
  forall ys, traverse f l = Returned ys -> Forall2 (fun x y => f x = Returned y) l ys.
Proof.
  induction l as [|x l IH]; simpl; intros ys.
  - intros [= <-]. constructor.
  - destruct (f x) as [y|e] eqn:Hx; [|discriminate].
    destruct (traverse f l) as [ys'|e]; [|discriminate].
    intros [= <-]. constructor; [exact Hx | apply IH; reflexivity].
Qed.

Lemma traverse_raised {A B : Type} (f : A -> outcome B) (l : list A) (e : exn) :
  traverse f l = Raised e -> exists x, In x l /\ f x = Raised e.
Proof.
  induction l as [|x l IH]; simpl; [discriminate|].
  destruct (f x) as [y|e'] eqn:Hx.
  - destruct (traverse f l) as [ys|e']; [discriminate|].
    intros [= <-]. destruct (IH eq_refl) as (x' & Hin & Hx'). eauto.
  - intros [= <-]. eauto.
Qed.

Lemma traverse_returns {A B : Type} (f : A -> outcome B) (l : list A) :
  (forall x, In x l -> exists y, f x = Returned y) ->
  exists ys, traverse f l = Returned ys.
Proof.
  induction l as [|x l IH]; simpl; intros Hall; [eexists; reflexivity|].
  destruct (Hall x (or_introl eq_refl)) as (y & ->).
  destruct IH as (ys & ->); [intros x' Hin; apply Hall; right; exact Hin|].
  eexists. reflexivity.
Qed.

Lemma similarity_raised (q_emb e : list float) (x : exn) :
  Retrieval.similarity q_emb e = Raised x ->
  x = ValueError /\ Nat.eqb (length q_emb) (length e) = false.
Proof.
  unfold Retrieval.similarity. destruct (Nat.eqb _ _); [discriminate|].
  intros [= <-]. split; reflexivity.
Qed.

Lemma similarity_returns (q_emb e : list float) :
  Nat.eqb (length q_emb) (length e) = true ->
  Retrieval.similarity q_emb e = Returned (cosine q_emb e).
Proof. unfold Retrieval.similarity. intros ->. reflexivity. Qed.

Lemma score_chunk_returned (q_emb : list float) (personal : bool)
    (date_range : option (Z * Z)) (table : gmap string (list float)) (ch : raw_chunk)
    (p : float * raw_chunk) :
  Retrieval.score_chunk q_emb personal date_range table ch = Returned p -> p.2 = ch.
Proof.
  unfold Retrieval.score_chunk. destruct (table !! chunk_id ch) as [e|].
  - destruct (Retrieval.similarity q_emb e); [|discriminate]. intros [= <-]. reflexivity.
  - intros [= <-]. reflexivity.
Qed.

Lemma chunks_of_scores (q_emb : list float) (personal : bool) (date_range : option (Z * Z))
    (table : gmap string (list float)) (cs : list raw_chunk)
    (scores : list (float * raw_chunk)) :
  traverse (Retrieval.score_chunk q_emb personal date_range table) cs = Returned scores ->
  snd <$> scores = cs.
Proof.
  intros Ht. apply traverse_returned in Ht.
  induction Ht as [|ch p cs scores Hp _ IH]; [reflexivity|].
  rewrite fmap_cons, IH. f_equal. eapply score_chunk_returned. exact Hp.
Qed.

Lemma rank_returned (q_emb : list float) (query : string) (date_range : option (Z * Z))
    (table : gmap string (list float)) (cs : list raw_chunk)
    (scores : list (float * raw_chunk)) :
  Retrieval.rank q_emb query date_range table cs = Returned scores ->
  Permutation (snd <$> scores) cs
  /\ ((forall a b : float, f_lt a b = true -> f_lt b a = false) -> descending scores).
Proof.
  unfold Retrieval.rank.
  destruct (traverse _ cs) as [unsorted|e] eqn:Ht; [|discriminate].
  intros [= <-]. split.
  - rewrite sort_desc_perm. rewrite (chunks_of_scores _ _ _ _ _ _ Ht). reflexivity.
  - intros Hasym. apply sort_desc_sorted. exact Hasym.
Qed.

Lemma rank_raised (q_emb : list float) (query : string) (date_range : option (Z * Z))
    (table : gmap string (list float)) (cs : list raw_chunk) (x : exn) :
  Retrieval.rank q_emb query date_range table cs = Raised x ->
  x = ValueError /\ table_aligned q_emb table cs = false.
Proof.
  unfold Retrieval.rank.
  destruct (traverse _ cs) as [unsorted|e] eqn:Ht; [discriminate|].
  intros [= <-]. apply traverse_raised in Ht. destruct Ht as (ch & Hin & Hch).
  unfold Retrieval.score_chunk in Hch.
  destruct (table !! chunk_id ch) as [emb|] eqn:Hemb; [|discriminate].
  destruct (Retrieval.similarity q_emb emb) as [sim|e'] eqn:Hsim; [discriminate|].
  injection Hch as ->. apply similarity_raised in Hsim. destruct Hsim as [-> Hlen].
  split; [reflexivity|].
  unfold table_aligned. apply not_true_is_false. intros Hall.
  rewrite forallb_forall in Hall. specialize (Hall ch Hin).
  rewrite Hemb, Hlen in Hall. discriminate.
Qed.

Lemma rank_returns (q_emb : list float) (query : string) (date_range : option (Z * Z))
    (table : gmap string (list float)) (cs : list raw_chunk) :
  table_aligned q_emb table cs = true ->
  exists scores, Retrieval.rank q_emb query date_range table cs = Returned scores.
Proof.
  unfold table_aligned, Retrieval.rank. intros Hall. rewrite forallb_forall in Hall.
  destruct (traverse_returns
              (Retrieval.score_chunk q_emb
                 (contains_any Retrieval.personal_keywords (lower query)) date_range table) cs)
    as (scores & ->); [|eexists; reflexivity].
  intros ch Hin. specialize (Hall ch Hin). unfold Retrieval.score_chunk.
  destruct (table !! chunk_id ch) as [emb|]; [|eexists; reflexivity].
  rewrite (similarity_returns _ _ Hall). eexists. reflexivity.
Qed.

Lemma week_score_returned (q_emb : list float) (s : summary float)
    (p : float * summary float) :
  Retrieval.week_score q_emb s = Returned p -> p = (Retrieval.week_value q_emb s, s).
Proof.
  unfold Retrieval.week_score, Retrieval.week_value, Retrieval.similarity.
  destruct (week_embedding s) as [[|x e]|]; try (intros [= <-]; reflexivity).
  destruct (Nat.eqb _ _); [|discriminate]. intros [= <-]. reflexivity.
Qed.

Lemma find_relevant_weeks_raised (summaries : list (summary float)) (q_emb : list float)
    (top_k : nat) (x : exn) :
  Retrieval.find_relevant_weeks summaries q_emb top_k = Raised x ->
  x = ValueError /\ forallb (week_aligned q_emb) summaries = false.
Proof.
  unfold Retrieval.find_relevant_weeks.
  destruct (traverse _ summaries) as [scores|e] eqn:Ht; [discriminate|].
  intros [= <-]. apply traverse_raised in Ht. destruct Ht as (s & Hin & Hs).
  unfold Retrieval.week_score in Hs.
  destruct (week_embedding s) as [[|y emb]|] eqn:Hemb; try discriminate.
  destruct (Retrieval.similarity q_emb (y :: emb)) as [sim|e'] eqn:Hsim; [discriminate|].
  injection Hs as ->. apply similarity_raised in Hsim. destruct Hsim as [-> Hlen].
  split; [reflexivity|].
  apply not_true_is_false. intros Hall.
  rewrite forallb_forall in Hall. specialize (Hall s Hin).
  unfold week_aligned in Hall. rewrite Hemb, Hlen in Hall. discriminate.
Qed.

Lemma find_relevant_weeks_returns (summaries : list (summary float)) (q_emb : list float)
    (top_k : nat) :
  forallb (week_aligned q_emb) summaries = true ->
  exists weeks, Retrieval.find_relevant_weeks summaries q_emb top_k = Returned weeks.
Proof.
  unfold Retrieval.find_relevant_weeks. intros Hall. rewrite forallb_forall in Hall.
  destruct (traverse_returns (Retrieval.week_score q_emb) summaries)
    as (scores & ->); [|eexists; reflexivity].
  intros s Hin. specialize (Hall s Hin). unfold week_aligned in Hall.
  unfold Retrieval.week_score.
  destruct (week_embedding s) as [[|y emb]|]; try (eexists; reflexivity).
  rewrite (similarity_returns _ _ Hall). eexists. reflexivity.
Qed.


Lemma select_incl (top_k budget : Z) (scores : list (float * raw_chunk)) :
  forall (selected : list (retrieved float)) (total_chars : nat) (r : retrieved float),
    In r (Retrieval.select top_k budget scores selected total_chars).1 ->
    In r selected \/ In (chunk r) (snd <$> scores).
Proof.
  induction scores as [|[s c] scores IH]; intros selected total_chars r; simpl.
  - tauto.
  - destruct (top_k <=? Z.of_nat (length selected))%Z; [simpl; tauto|].
    destruct (budget <? Z.of_nat (total_chars + String.length (chunk_text c)))%Z;
      [simpl; tauto|].
    intros Hin. apply IH in Hin. destruct Hin as [Hin|Hin]; [|tauto].
    apply in_app_or in Hin. destruct Hin as [Hin|[<-|[]]]; simpl; tauto.
Qed.

(** *** The run of [retrieve] *)

Lemma run_embed_chunks (c : client) (cs : list raw_chunk) :
  exists l, run c (Retrieval._embed_chunks cs) = (Returned (chunk_table c cs), l).
Proof. destruct cs; eexists; reflexivity. Qed.

(** The outcome of [retrieve]: the query could not be embedded and nothing
    is selected; or the routing raises; or the scoring raises; or the
    selection is made from the ranked candidates. *)
Lemma retrieve_result (c : client) (raw_chunks : list raw_chunk)
    (summaries : list (summary float)) (top_k : Z) (query : string)
    (date_range : option (Z * Z)) (budget : Z) :
  let q_emb := default [] (embed_query c query) in
  result c (Retrieval.retrieve raw_chunks summaries top_k query date_range budget)
  = match q_emb with
    | [] => Returned {| Retrieval.chunks := []; Retrieval.meta := Retrieval.EmbeddingFailed |}
    | _ =>
        match Retrieval.find_relevant_weeks summaries q_emb 3 with
        | Raised e => Raised e
        | Returned weeks =>
            let cands := Retrieval.candidates raw_chunks weeks query date_range in
            match Retrieval.rank q_emb query date_range (chunk_table c cands) cands with
            | Raised e => Raised e
            | Returned scores =>
                let out := Retrieval.select top_k budget scores [] 0 in
                Returned
                  {| Retrieval.chunks := out.1;
                     Retrieval.meta :=
                       Retrieval.Stats (length cands) (length out.1) out.2
                         (week <$> weeks) |}
            end
        end
    end.
Proof.
  cbv zeta. unfold Retrieval.retrieve, Retrieval._embed_query.
  simpl bind. unfold result at 1. simpl run.
  destruct (default [] (embed_query c query)) as [|x q_emb] eqn:Hq.
  { reflexivity. }
  destruct (Retrieval.find_relevant_weeks summaries (x :: q_emb) 3) as [weeks|e].
  2:{ reflexivity. }
  cbn [lift bind]. rewrite run_bind.
  destruct (run_embed_chunks c (Retrieval.candidates raw_chunks weeks query date_range))
    as (l & ->).
  cbv beta iota.
  destruct (Retrieval.rank (x :: q_emb) query date_range _ _) as [scores|e].
  2:{ reflexivity. }
  cbn [lift bind].
  destruct (Retrieval.select top_k budget scores [] 0) as [selected total].
  reflexivity.
Qed.

(** *** Retrieval only returns chunks of the store *)

Lemma get_chunk_by_id_In (raw_chunks : list raw_chunk) (cid : string) (ch : raw_chunk) :
  Retrieval.get_chunk_by_id raw_chunks cid = Some ch -> In ch raw_chunks.
Proof. intros Hf. apply find_some in Hf. tauto. Qed.

Lemma merge_identity_incl (cands identity_chunks store : list raw_chunk) :
  (forall ch, In ch cands -> In ch store) ->
  (forall ch, In ch identity_chunks -> In ch store) ->
  forall ch, In ch (Retrieval.merge_identity_chunks cands identity_chunks) -> In ch store.
Proof.
  unfold Retrieval.merge_identity_chunks.
  generalize (Retrieval.ids_of cands) as ids.
  revert cands. induction identity_chunks as [|ic ics IH]; intros cands ids Hc Hi ch; simpl.
  - apply Hc.
  - destruct (bool_decide (chunk_id ic ∉ ids)).
    + apply IH.
      * intros ch' Hin. apply in_app_or in Hin. destruct Hin as [Hin|[<-|[]]].
        -- apply Hc. exact Hin.
        -- apply Hi. left. reflexivity.
      * intros ch' Hin. apply Hi. right. exact Hin.
    + apply IH; [exact Hc|]. intros ch' Hin. apply Hi. right. exact Hin.
Qed.

Lemma candidates_from_store (raw_chunks : list raw_chunk)
    (relevant_weeks : list (summary float)) (query : string)
    (date_range : option (Z * Z)) (ch : raw_chunk) :
  In ch (Retrieval.candidates raw_chunks relevant_weeks query date_range) ->
  In ch raw_chunks.
Proof.
  unfold Retrieval.candidates.
  set (routed := omap (Retrieval.get_chunk_by_id raw_chunks) _).
  assert (Hrouted : forall x, In x routed -> In x raw_chunks).
  { intros x Hin. apply list_elem_of_In, list_elem_of_omap in Hin.
    destruct Hin as (cid & _ & Hf). eapply get_chunk_by_id_In. exact Hf. }
  set (merged := match date_range with Some _ => _ | None => routed end).
  assert (Hmerged : forall x, In x merged -> In x raw_chunks).
  { subst merged. destruct date_range as [range|]; [|exact Hrouted].
    intros x Hin. unfold Retrieval.merge_time_chunks in Hin.
    apply in_app_or in Hin. destruct Hin as [Hin|Hin]; [apply Hrouted; exact Hin|].
    apply list_elem_of_In, list_elem_of_filter in Hin. destruct Hin as [_ Hin].
    apply list_elem_of_In in Hin. unfold Retrieval.get_chunks_by_time_range in Hin.
    apply filter_In in Hin. tauto. }
  set (fallen := match merged with [] => raw_chunks | _ => merged end).
  assert (Hfallen : forall x, In x fallen -> In x raw_chunks).
  { subst fallen. destruct merged; [tauto | exact Hmerged]. }
  destruct (contains_any Retrieval.personal_keywords (lower query)).
  - apply merge_identity_incl; [exact Hfallen|].
    intros x Hin. apply filter_In in Hin. tauto.
  - apply Hfallen.
Qed.

Lemma retrieve_from_store (c : client) (raw_chunks : list raw_chunk)
    (summaries : list (summary float)) (top_k : Z) (query : string)
    (date_range : option (Z * Z)) (budget : Z) (r : Retrieval.retrieval_result) :
  result c (Retrieval.retrieve raw_chunks summaries top_k query date_range budget)
  = Returned r ->
  forall entry, In entry (Retrieval.chunks r) -> In (chunk entry) raw_chunks.
Proof.
  rewrite retrieve_result. cbv zeta.
  destruct (default [] (embed_query c query)) as [|x q_emb].
  { intros [= <-] entry []. }
  destruct (Retrieval.find_relevant_weeks _ _ _) as [weeks|e]; [|discriminate].
  destruct (Retrieval.rank _ _ _ _ _) as [scores|e] eqn:Hrank; [|discriminate].
  intros [= <-] entry Hin. cbn [Retrieval.chunks] in Hin.
  apply select_incl in Hin. destruct Hin as [[]|Hin].
  apply rank_returned in Hrank. destruct Hrank as [Hperm _].
  apply list_elem_of_In in Hin. rewrite Hperm in Hin.
  apply list_elem_of_In in Hin. eapply candidates_from_store. exact Hin.
Qed.

End RetrievalProperties.




(** A run that raises: the chunk embeddings are longer than the query
    embedding. *)
Example retrieve_raises_on_misaligned_embeddings :
  result Sample.misaligned_client
    (Retrieval.retrieve [Example.cold_chunk; Example.capacity_chunk] [] 6
       "How long did cold start take?" None 3000) = Raised ValueError.
Proof. vm_compute. reflexivity. Qed.

(** The selection on the same store with room for one chunk only. *)
Example retrieve_stops_at_budget :
  exists r,
    result (Example.client_with None (Example.says yes) None None)
      (Retrieval.retrieve [Example.cold_chunk; Example.capacity_chunk] [] 6
         "How long did cold start take?" None 100) = Returned r
    /\ (chunk <$> Retrieval.chunks r) = [Example.cold_chunk]
    /\ total_length (Retrieval.chunks r) = 88.
Proof. eexists. vm_compute. repeat split. Qed.

(** ** Citations are grounded in the store *)

Section Grounding.
Context `{Library}.

(** *** Extraction only keeps verbatim quotes *)

Lemma validate_keep (retrieved_chunks : list (retrieved float)) (min_len : nat)
    (item : Json.value) (ev : evidence_item) :
  Extraction.validate retrieved_chunks min_len item = Extraction.Keep ev ->
  verbatim_item retrieved_chunks ev.
Proof.
  unfold Extraction.validate.
  destruct item as [| | | | |items|fields]; try discriminate.
  destruct (Json.get fields "quote" (Json.JStr "")) as [| | | |q| |]; try discriminate.
  destruct (Extraction.check_index _ _) as [| |i|]; try discriminate.
  - destruct (Nat.ltb _ min_len); [discriminate|].
    destruct (retrieved_chunks !! i) as [entry|] eqn:Hi; [|discriminate].
    destruct (contains (normalize (strip q)) (normalize (chunk_text (chunk entry)))) eqn:Hc;
      simpl; [|discriminate].
    intros [= <-]. exists entry. simpl. repeat split; try assumption.
    apply list_elem_of_In. eapply list_elem_of_lookup_2. exact Hi.
  - destruct (Nat.ltb _ min_len); discriminate.
Qed.

Lemma collect_verbatim (retrieved_chunks : list (retrieved float)) (min_len : nat)
    (items : list Json.value) :
  forall acc,
    Forall (verbatim_item retrieved_chunks) acc ->
    Forall (verbatim_item retrieved_chunks)
      (Extraction.collect retrieved_chunks min_len items acc).1.
Proof.
  induction items as [|item items IH]; intros acc Hacc; simpl.
  - exact Hacc.
  - destruct (Extraction.validate retrieved_chunks min_len item) as [|ev|x] eqn:Hv.
    + apply IH. exact Hacc.
    + apply IH. apply Forall_app. split; [exact Hacc|].
      constructor; [|constructor]. eapply validate_keep. exact Hv.
    + exact Hacc.
Qed.

Lemma parse_evidence_verbatim (retrieved_chunks : list (retrieved float)) (min_len : nat)
    (extraction_text : string) :
  Forall (verbatim_item retrieved_chunks)
    (Extraction.parse_evidence retrieved_chunks min_len extraction_text).1.
Proof.
  unfold Extraction.parse_evidence.
  destruct (json_loads (strip extraction_text)) as [[| | | | | |fields]|];
    try (simpl; constructor).
  destruct (Extraction.iterate _) as [items|x]; [|simpl; constructor].
  apply collect_verbatim. constructor.
Qed.

Lemma extract_verbatim (c : client) (question : string)
    (retrieved_chunks : list (retrieved float)) (answer_mode : string) (e : extraction) :
  result c (Extraction.extract question retrieved_chunks answer_mode) = Returned e ->
  Forall (verbatim_item retrieved_chunks) (evidence e).
Proof.
  intros Hres. apply extract_returned in Hres.
  destruct Hres as [(_ & -> & _)|(_ & -> & _)].
  - constructor.
  - apply parse_evidence_verbatim.
Qed.

(** *** The gate cites evidence *)

Lemma finish_cites (evs : list evidence_item) (boost : option confidence_level)
    (resp : option string) (cit : citation) :
  In cit (citations (Gate.finish evs boost resp)) -> exists ev, In ev evs /\ cites cit ev.
Proof.
  unfold Gate.finish.
  destruct (negb _ && Gate._contains_sensitive_info (Gate.generated_text resp) "").
  { intros []. }
  cbn [citations]. intros Hin. apply build_citations_spec in Hin.
  destruct Hin as (ev & Hin & Hc). exists ev. split; [exact Hin|].
  apply citation_of_spec in Hc.
  destruct Hc as [_ [[_ ->]|(Hid & -> & _)]]; unfold cites; simpl.
  - split; [reflexivity|]. split; [reflexivity|]. right. left. reflexivity.
  - split; [reflexivity|]. split; [reflexivity|]. right. right. split; [exact Hid|reflexivity].
Qed.

Lemma gate_cites (c : client) (question : string) (ev : extraction)
    (retrieved_chunks : list (retrieved float)) (answer_mode : string) (v : verdict) :
  result c (Gate.generate_answer question ev retrieved_chunks answer_mode) = Returned v ->
  forall cit, In cit (citations v) -> exists e, In e (evidence ev) /\ cites cit e.
Proof.
  unfold result.
  pose proof (generate_answer_path c question ev retrieved_chunks answer_mode) as Hp.
  destruct Hp; simpl; intros [= <-] cit Hin;
    try (destruct Hin; fail);
    try (eapply finish_cites; exact Hin).
  destruct (quote_only_verdict_spec (evidence ev)) as (_ & _ & _ & Hq); [assumption|].
  destruct (Hq cit Hin) as (e & He & ->). exists e. split; [exact He|].
  unfold cites. simpl. split; [reflexivity|]. split; [reflexivity|]. left. reflexivity.
Qed.

(** *** The style layer keeps the citations *)

Lemma apply_style_citations (c : client) (v v' : verdict) :
  result c (Style.apply_style v) = Returned v' ->
  citations v' = citations v /\ confidence v' = confidence v.
Proof.
  unfold result, Style.apply_style.
  destruct (contains "do not see" (lower (answer v)) || contains "don't see" (lower (answer v))).
  { simpl. intros [= <-]. auto. }
  destruct (startswith (answer v) "From my data:").
  { simpl. intros [= <-]. auto. }
  destruct (Nat.ltb (String.length (answer v)) 10).
  { simpl. intros [= <-]. auto. }
  destruct (Style.rsplit_once "Sources:" (answer v)) as [[before after]|];
    simpl; intros [= <-]; auto.
Qed.

End Grounding.

(** C1, as the code has it.  Every citation of a verdict of the pipeline
    cites a chunk of the store, by id and file, and carries a quote of that
    chunk: a text that, whitespace-normalised, is a substring of the chunk's
    normalised text.  The citation's text is that quote itself or, when the
    source is not the profile record and the quote holds an e-mail match,
    the quote with its e-mail matches replaced by [[redacted]]. *)
Theorem citations_verbatim_or_redacted `{Library} (c : client) (t : Twin.twin)
    (question : string) (v : verdict) :
  result c (Twin.answer t question) = Returned v ->
  forall cit, In cit (citations v) ->
    exists quote,
      verbatim_in (Twin.raw_chunks t) quote (cit_source cit) (cit_chunk_id cit)
      /\ (cit_text cit = quote
          \/ (contains "identity.md" (cit_source cit) = false
              /\ Re.search false Gate.email_pattern quote = true
              /\ cit_text cit = Re.sub Gate.email_pattern "[redacted]" quote)).
Proof.
  unfold Twin.answer.
  destruct (mem (lower (strip question)) Twin.greetings).
  { unfold result. simpl. intros [= <-] cit []. }
  destruct (mem (lower (strip question)) Twin.help_intents).
  { unfold result. simpl. intros [= <-] cit []. }
  destruct (parse_date_range question) as [date_range|x]; [|discriminate].
  cbn [lift bind]. rewrite result_bind.
  destruct (result c (Retrieval.retrieve _ _ _ _ _ _)) as [r|x] eqn:Hr; [|discriminate].
  rewrite result_bind.
  destruct (result c (Extraction.extract _ _ _)) as [e|x] eqn:He; [|discriminate].
  rewrite result_bind.
  destruct (result c (Gate.generate_answer _ _ _ _)) as [v0|x] eqn:Hg; [|discriminate].
  intros Hs cit Hin.
  apply apply_style_citations in Hs. destruct Hs as [Hs _]. rewrite Hs in Hin.
  destruct (gate_cites _ _ _ _ _ _ Hg cit Hin) as (ev & Hev & Hsrc & Hid & Htext).
  pose proof (extract_verbatim _ _ _ _ _ He) as Hverb.
  rewrite Forall_forall in Hverb.
  destruct (Hverb ev (proj2 (list_elem_of_In _ _) Hev))
    as (entry & Hentry & Hcid & Hfile & Hsub).
  pose proof (retrieve_from_store _ _ _ _ _ _ _ _ Hr entry Hentry) as Hstore.
  assert (Hv : forall quote,
             normalize quote = normalize (ev_quote ev) ->
             verbatim_in (Twin.raw_chunks t) quote (cit_source cit) (cit_chunk_id cit)).
  { intros quote Hq. exists (chunk entry). rewrite Hq. repeat split; congruence. }
  destruct Htext as [Ht|[Ht|[Hprofile Ht]]].
  - exists (ev_quote ev). split; [apply Hv; reflexivity | left; exact Ht].
  - exists (strip (ev_quote ev)). split; [apply Hv, normalize_strip | left; exact Ht].
  - exists (strip (ev_quote ev)). split; [apply Hv, normalize_strip|].
    destruct (Re.search false Gate.email_pattern (strip (ev_quote ev))) eqn:Hmail.
    + right. split; [rewrite Hsrc; exact Hprofile|]. split; [reflexivity | exact Ht].
    + left. rewrite Ht. apply sub_unchanged. exact Hmail.
Qed.

Lemma citations_verbatim_or_redacted_witness :
  exists v,
    result Example.access_client
      (Twin.answer (Example.twin_of [Example.notes_chunk] 6 3000)
         "What happened with building access?") = Returned v
    /\ forall cit, In cit (citations v) ->
         exists quote,
           verbatim_in [Example.notes_chunk] quote (cit_source cit) (cit_chunk_id cit)
           /\ (cit_text cit = quote
               \/ (contains "identity.md" (cit_source cit) = false
                   /\ Re.search false Gate.email_pattern quote = true
                   /\ cit_text cit = Re.sub Gate.email_pattern "[redacted]" quote)).
Proof.
  eexists. split; [vm_compute; reflexivity|].
  apply (@citations_verbatim_or_redacted Example.library Example.access_client
           (Example.twin_of [Example.notes_chunk] 6 3000)
           "What happened with building access?").
  vm_compute. reflexivity.
Defined.

(** C1 as stated fails: the pipeline returns a citation whose text, with
    the e-mail address redacted, is not a substring of the chunk it cites,
    the only chunk of the store. *)
Lemma citation_not_verbatim_counterexample :
  exists v cit,
    result Example.access_client
      (Twin.answer (Example.twin_of [Example.notes_chunk] 6 3000)
         "What happened with building access?") = Returned v
    /\ In cit (citations v)
    /\ cit_text cit = "mail [redacted] for access"
    /\ cit_chunk_id cit = chunk_id Example.notes_chunk
    /\ normalize (chunk_text Example.notes_chunk) = "Please mail bob@example.com for access."
    /\ contains (normalize (cit_text cit)) (normalize (chunk_text Example.notes_chunk)) = false.
Proof.
  eexists _, _. split; [vm_compute; reflexivity|].
  split; [left; reflexivity|]. vm_compute. repeat split.
Qed.

(** * Further properties of the code *)

(** ** The verifier gate, branch by branch *)

(** X1.  [generate_answer] never raises: every run returns a verdict, after
    at most one entailment check followed by at most one answer
    generation. *)
Theorem gate_returns_after_few_calls `{Library} (c : client) (question : string)
    (ev : extraction) (retrieved_chunks : list (retrieved float)) (answer_mode : string) :
  exists v,
    result c (Gate.generate_answer question ev retrieved_chunks answer_mode) = Returned v
    /\ gate_calls (calls c (Gate.generate_answer question ev retrieved_chunks answer_mode)).
Proof.
  unfold result, calls, gate_calls.
  pose proof (generate_answer_path c question ev retrieved_chunks answer_mode) as Hp.
  destruct Hp; simpl; eexists; (split; [reflexivity|]).
  - left. reflexivity.
  - left. reflexivity.
  - right. right. left. eexists _, _, _, _. reflexivity.
  - right. left. eexists _, _, _. reflexivity.
  - right. left. eexists _, _, _. reflexivity.
  - right. right. right. eexists _, _, _, _, _, _, _. reflexivity.
Qed.

(** X2.  Outside summary mode an answer is generated only after the
    entailment check returned [yes]. *)
Theorem generation_needs_entailment `{Library} (c : client) (question : string)
    (ev : extraction) (retrieved_chunks : list (retrieved float)) (answer_mode : string)
    (resp : option string) :
  answer_mode <> "SUMMARY_MODE" ->
  generation_replied c
    (Gate.generate_answer question ev retrieved_chunks answer_mode) resp ->
  entailment_returned c
    (Gate.generate_answer question ev retrieved_chunks answer_mode) yes.
Proof.
  intros Hmode (m & q & evs & Hin). unfold entailment_returned, calls in *.
  pose proof (generate_answer_path c question ev retrieved_chunks answer_mode) as Hp.
  destruct Hp; simpl in Hin |- *; sift_calls; try congruence.
  eexists _, _, _. split; [left; reflexivity | assumption].
Qed.

Lemma generation_needs_entailment_witness :
  entailment_returned (Example.client_with None (Example.says yes) (Some "About 6-9 minutes.") None)
    (Gate.generate_answer "How long did cold start take?" Example.cold_evidence []
       "FACT_MODE") yes.
Proof.
  apply (@generation_needs_entailment Example.library
           (Example.client_with None (Example.says yes) (Some "About 6-9 minutes.") None)
           "How long did cold start take?" Example.cold_evidence [] "FACT_MODE"
           (Some "About 6-9 minutes.")).
  - discriminate.
  - eexists _, _, _. vm_compute. right. left. reflexivity.
Defined.

(** X3.  Fail-open entailment: when the entailment call raises, a
    non-sensitive question with evidence outside summary mode gets the
    quote-only answer, and no answer is generated. *)
Theorem entailment_failure_quotes_only `{Library} (c : client) (question : string)
    (ev : extraction) (retrieved_chunks : list (retrieved float)) (answer_mode : string) :
  Gate._contains_sensitive_info question "" = false ->
  has_evidence ev = true -> evidence ev <> [] ->
  answer_mode <> "SUMMARY_MODE" ->
  entail_gen c question (ev_quote <$> evidence ev) = None ->
  run c (Gate.generate_answer question ev retrieved_chunks answer_mode)
  = (Returned (Gate.quote_only_verdict (evidence ev)),
     [CEntailGen question (ev_quote <$> evidence ev) None])
  /\ quote_only_answer (evidence ev) (Gate.quote_only_verdict (evidence ev)).
Proof.
  intros Hs Hh Hne Hmode Hfail.
  pose proof (generate_answer_path c question ev retrieved_chunks answer_mode) as Hp.
  split; [|apply quote_only_verdict_spec; exact Hne].
  destruct Hp; try congruence;
    repeat match goal with
           | H : _ \/ _ |- _ => destruct H
           end; try congruence;
    subst; rewrite Hfail in *; try discriminate; try reflexivity.
Qed.

Lemma entailment_failure_quotes_only_witness :
  quote_only_answer (evidence Example.two_sources)
    (Gate.quote_only_verdict (evidence Example.two_sources)).
Proof.
  apply (@entailment_failure_quotes_only Example.library Sample.silent_entailment_client
           "How long did cold start take?" Example.two_sources [] "FACT_MODE").
  - vm_compute. reflexivity.
  - reflexivity.
  - vm_compute. discriminate.
  - discriminate.
  - reflexivity.
Defined.

(** The refusal text passes every scan and reads as a refusal. *)
Lemma refusal_text_generated (resp : option string) :
  resp = None \/ (exists text, resp = Some text /\ strip text = "") ->
  Gate.generated_text resp = Gate.refusal_text.
Proof.
  intros [->|(text & -> & Hblank)]; unfold Gate.generated_text; simpl default.
  - reflexivity.
  - rewrite Hblank. reflexivity.
Qed.

(** X4.  When answer generation raises, or replies nothing but whitespace,
    the verdict's answer is the refusal text and its confidence is
    [none], in either mode. *)
Theorem generation_failure_refuses `{Library} (c : client) (question : string)
    (ev : extraction) (retrieved_chunks : list (retrieved float)) (answer_mode : string)
    (resp : option string) :
  generation_replied c
    (Gate.generate_answer question ev retrieved_chunks answer_mode) resp ->
  resp = None \/ (exists text, resp = Some text /\ strip text = "") ->
  exists v,
    result c (Gate.generate_answer question ev retrieved_chunks answer_mode) = Returned v
    /\ answer v = Gate.refusal_text
    /\ confidence v = none.
Proof.
  intros Hgen Hfail.
  destruct (generated_verdict _ _ _ _ _ _ Hgen) as (boost & Hres & _ & _).
  eexists. split; [exact Hres|].
  assert (Hpass : passes_scan (evidence ev) resp).
  { right. rewrite (refusal_text_generated _ Hfail). reflexivity. }
  rewrite (finish_passed _ _ _ Hpass). cbn [answer confidence].
  rewrite (refusal_text_generated _ Hfail). split; reflexivity.
Qed.

Lemma generation_failure_refuses_witness :
  exists v,
    result Sample.failing_generation_client
      (Gate.generate_answer "How long did cold start take?" Example.cold_evidence []
         "FACT_MODE") = Returned v
    /\ answer v = Gate.refusal_text
    /\ confidence v = none.
Proof.
  apply (@generation_failure_refuses Example.library Sample.failing_generation_client
           "How long did cold start take?" Example.cold_evidence [] "FACT_MODE" None).
  - eexists _, _, _. vm_compute. right. left. reflexivity.
  - left. reflexivity.
Defined.



(** X6.  Outside summary mode, a generated answer that is let through and is
    not a refusal phrase has confidence [high] exactly when at least two
    citations survive the citation loop, and [medium] otherwise, whatever
    the number of chunks behind the evidence. *)
Theorem fact_confidence_counts_citations `{Library} (c : client) (question : string)
    (ev : extraction) (retrieved_chunks : list (retrieved float)) (answer_mode : string)
    (resp : option string) :
  answer_mode <> "SUMMARY_MODE" ->
  generation_replied c
    (Gate.generate_answer question ev retrieved_chunks answer_mode) resp ->
  passes_scan (evidence ev) resp ->
  Gate.is_refusal (Gate.generated_text resp) = false ->
  exists v,
    result c (Gate.generate_answer question ev retrieved_chunks answer_mode) = Returned v
    /\ (2 <= length (citations v) -> confidence v = high)
    /\ (length (citations v) < 2 -> confidence v = medium).
Proof.
  intros Hmode (m & q & evs & Hin) Hpass Href. unfold calls, result in *.
  pose proof (generate_answer_path c question ev retrieved_chunks answer_mode) as Hp.
  destruct Hp; simpl in Hin |- *; sift_calls; try congruence.
  eexists. split; [reflexivity|].
  rewrite (finish_passed _ _ _ Hpass). cbn [citations confidence].
  unfold Gate.assess_confidence. rewrite Href. split.
  - intros Hge. apply Nat.leb_le in Hge. rewrite Hge. reflexivity.
  - intros Hlt. apply Nat.leb_gt in Hlt. rewrite Hlt. reflexivity.
Qed.

Lemma fact_confidence_counts_citations_witness :
  exists v,
    result Sample.answering_client
      (Gate.generate_answer "How long did cold start take?" Sample.three_quotes []
         "FACT_MODE") = Returned v
    /\ confidence v = high.
Proof.
  destruct (@fact_confidence_counts_citations Example.library Sample.answering_client
              "How long did cold start take?" Sample.three_quotes [] "FACT_MODE"
              (Some "About 6-9 minutes."))
    as (v & Hres & Hhigh & _).
  - discriminate.
  - eexists _, _, _. vm_compute. right. left. reflexivity.
  - right. vm_compute. reflexivity.
  - vm_compute. reflexivity.
  - exists v. split; [exact Hres|]. apply Hhigh.
    unfold result in Hres. vm_compute in Hres. injection Hres as <-. simpl. lia.
Defined.

(** X7.  Refusal-citation coupling before generation: a verdict returned
    without an answer-generation call has confidence [none] exactly when it
    has no citations, and never has confidence [high]. *)
Theorem early_verdicts_coupled `{Library} (c : client) (question : string)
    (ev : extraction) (retrieved_chunks : list (retrieved float)) (answer_mode : string)
    (v : verdict) :
  (forall resp,
     ~ generation_replied c
         (Gate.generate_answer question ev retrieved_chunks answer_mode) resp) ->
  result c (Gate.generate_answer question ev retrieved_chunks answer_mode) = Returned v ->
  (confidence v = none <-> citations v = []) /\ confidence v <> high.
Proof.
  intros Hgen Hres. split; [eapply coupling_without_generation; eassumption|].
  revert Hgen Hres. unfold generation_replied, calls, result.
  pose proof (generate_answer_path c question ev retrieved_chunks answer_mode) as Hp.
  destruct Hp; simpl; intros Hgen [= <-]; try discriminate.
  - exfalso. eapply Hgen. eexists _, _, _. left. reflexivity.
  - destruct (quote_only_verdict_spec (evidence ev)) as ((picked & Hq) & _);
      [assumption|].
    destruct Hq as (_ & _ & _ & _ & _ & Hconf). rewrite Hconf. discriminate.
  - exfalso. eapply Hgen. eexists _, _, _. right. left. reflexivity.
Qed.

Lemma early_verdicts_coupled_witness :
  confidence (Gate.quote_only_verdict (evidence Example.two_sources)) = none
  <-> citations (Gate.quote_only_verdict (evidence Example.two_sources)) = [].
Proof.
  apply (@early_verdicts_coupled Example.library Sample.silent_entailment_client
           "How long did cold start take?" Example.two_sources [] "FACT_MODE").
  - intros resp (m & q & evs & Hin). vm_compute in Hin.
    destruct Hin as [Hin|[]]. discriminate Hin.
  - vm_compute. reflexivity.
Defined.

(** *** Who is cited by the quote-only answer *)

(** The quote loop only adds: lines and seen chunks grow; and while fewer
    than three lines are held, every chunk met so far has been seen. *)
Lemma quote_step_grows (st : list string * gset string) (ev : evidence_item) :
  let st' := Gate.quote_step st ev in
  st.2 ⊆ st'.2
  /\ length st.1 <= length st'.1
  /\ (length st'.1 < 3 -> ev_chunk_id ev ∈ st'.2).
Proof.
  destruct st as [quote_lines seen]. unfold Gate.quote_step. simpl.
  destruct (bool_decide (ev_chunk_id ev ∉ seen)) eqn:Hfresh;
    [destruct (Nat.ltb (length quote_lines) 3) eqn:Hroom|]; simpl.
  - rewrite length_app. simpl. repeat split; [set_solver | lia | set_solver].
  - apply Nat.ltb_ge in Hroom. repeat split; [set_solver | lia | lia].
  - apply bool_decide_eq_false in Hfresh.
    repeat split; [set_solver | lia |]. intros _.
    destruct (decide (ev_chunk_id ev ∈ seen)); [assumption | contradiction].
Qed.

Lemma quote_fold_grows (evs : list evidence_item) :
  forall st,
    let out := foldl Gate.quote_step st evs in
    st.2 ⊆ out.2
    /\ length st.1 <= length out.1
    /\ (length out.1 < 3 -> forall e, e ∈ evs -> ev_chunk_id e ∈ out.2).
Proof.
  induction evs as [|ev evs IH]; intros st; simpl.
  - repeat split; [set_solver | lia |]. intros _ e He. inversion He.
  - destruct (quote_step_grows st ev) as (Hsub & Hlen & Hseen).
    destruct (IH (Gate.quote_step st ev)) as (Hsub' & Hlen' & Hseen').
    split; [etransitivity; eassumption|]. split; [lia|].
    intros Hroom e He. apply elem_of_cons in He. destruct He as [->|He].
    + apply Hsub', Hseen. lia.
    + apply Hseen'; assumption.
Qed.

(** With evidence from at most three distinct chunks, every chunk of the
    evidence is seen by the quote loop. *)
Lemma quote_only_sees_all (evs : list evidence_item) :
  evs <> [] -> distinct_sources evs <= 3 ->
  forall e, e ∈ evs -> ev_chunk_id e ∈ (Gate.quote_only evs).2.
Proof.
  intros Hne Hfew e He.
  destruct evs as [|e0 evs0]; [congruence|].
  destruct (quote_only_first e0 evs0) as (more & Hl & Hsub & Hlen & Hnd & Hseen).
  remember (e0 :: evs0) as evs eqn:Hevs.
  destruct (quote_fold_grows evs ([], ∅)) as (_ & _ & Hall).
  fold (Gate.quote_only evs) in Hall.
  destruct (decide (length (Gate.quote_only evs).1 < 3)) as [Hroom|Hfull].
  { apply Hall; assumption. }
  rewrite Hl, length_fmap in Hfull.
  apply Hseen.
  set (picked := e0 :: more) in *.
  assert (Hset : (list_to_set (ev_chunk_id <$> picked) : gset string)
                 = list_to_set (ev_chunk_id <$> evs)).
  { apply set_subseteq_size_eq.
    - intros cid Hcid. apply elem_of_list_to_set in Hcid. apply elem_of_list_to_set.
      apply list_elem_of_fmap in Hcid. destruct Hcid as (x & -> & Hx).
      apply list_elem_of_fmap. exists x. split; [reflexivity|].
      eapply elem_of_sublist; eassumption.
    - rewrite (size_list_to_set (ev_chunk_id <$> picked)) by exact Hnd.
      rewrite length_fmap. unfold distinct_sources in Hfew. lia. }
  assert (Hin : ev_chunk_id e ∈ (list_to_set (ev_chunk_id <$> evs) : gset string)).
  { apply elem_of_list_to_set, list_elem_of_fmap. exists e. split; [reflexivity | exact He]. }
  rewrite <- Hset in Hin. apply elem_of_list_to_set in Hin. exact Hin.
Qed.

(** X8.  The quote-only answer cites the evidence as it is: with evidence
    from at most three distinct chunks, its citations are all the evidence
    items, in order, each with its quote unchanged (no redaction, no
    filtering). *)
Theorem quote_only_cites_everything (evs : list evidence_item) :
  evs <> [] -> distinct_sources evs <= 3 ->
  citations (Gate.quote_only_verdict evs) = (fun e => Gate.cite (ev_quote e) e) <$> evs.
Proof.
  intros Hne Hfew.
  pose proof (quote_only_sees_all evs Hne Hfew) as Hall.
  destruct (quote_only_verdict_spec evs Hne) as (_ & Hlines & _).
  unfold Gate.quote_only_verdict.
  destruct (Gate.quote_only evs) as [quote_lines seen] eqn:Hq. simpl in Hlines, Hall.
  destruct quote_lines as [|l ls]; [congruence|]. cbn [citations].
  unfold Gate.quote_only_citations. f_equal.
  clear Hq Hlines Hne Hfew. induction evs as [|e evs IH]; [reflexivity|].
  rewrite filter_cons_True by (apply Hall; left).
  f_equal. apply IH. intros x Hx. apply Hall. right. exact Hx.
Qed.

Lemma quote_only_cites_everything_witness :
  citations (Gate.quote_only_verdict (evidence Sample.three_quotes))
  = (fun e => Gate.cite (ev_quote e) e) <$> evidence Sample.three_quotes.
Proof.
  apply (quote_only_cites_everything (evidence Sample.three_quotes)).
  - vm_compute. discriminate.
  - vm_compute. lia.
Defined.

(** ** Evidence extraction: what is kept, what is dropped, what escapes *)

Lemma rstrip_nonspace (c : ascii) (s : string) :
  isspace c = false -> rstrip (String c s) = String c (rstrip s).
Proof. intros Hc. simpl. rewrite Hc. destruct (rstrip s); reflexivity. Qed.

Lemma rstrip_idempotent (s : string) : rstrip (rstrip s) = rstrip s.
Proof.
  induction s as [|c s IH]; [reflexivity|].
  simpl. destruct (rstrip s) as [|d r] eqn:Hr.
  - destruct (isspace c) eqn:Hc; [reflexivity|]. simpl. rewrite Hc. reflexivity.
  - change (rstrip (String c (String d r)))
      with (match rstrip (String d r) with
            | "" => if isspace c then "" else String c ""
            | r0 => String c r0
            end).
    rewrite IH. reflexivity.
Qed.

Lemma lstrip_head (s : string) :
  lstrip s = "" \/ exists c r, lstrip s = String c r /\ isspace c = false.
Proof.
  induction s as [|c s IH]; [left; reflexivity|].
  simpl. destruct (isspace c) eqn:Hc; [exact IH|]. right. eauto.
Qed.

(** [strip] is idempotent. *)
Lemma strip_idempotent (s : string) : strip (strip s) = strip s.
Proof.
  unfold strip. destruct (lstrip_head s) as [->|(c & r & -> & Hc)].
  - reflexivity.
  - rewrite (rstrip_nonspace _ _ Hc). simpl lstrip. rewrite Hc.
    rewrite (rstrip_nonspace _ _ Hc), rstrip_idempotent. reflexivity.
Qed.

Section ExtractionProperties.
Context `{Library}.

Lemma validate_keep_valid (retrieved_chunks : list (retrieved float)) (answer_mode : string)
    (item : Json.value) (ev : evidence_item) :
  Extraction.validate retrieved_chunks (Extraction.min_quote_length answer_mode) item
  = Extraction.Keep ev ->
  valid_item retrieved_chunks answer_mode ev.
Proof.
  unfold Extraction.validate.
  destruct item as [| | | | |items|fields]; try discriminate.
  destruct (Json.get fields "quote" (Json.JStr "")) as [| | | |q| |]; try discriminate.
  destruct (Extraction.check_index _ _) as [| |i|]; try discriminate.
  - destruct (Nat.ltb _ _) eqn:Hlen; [discriminate|]. apply Nat.ltb_ge in Hlen.
    destruct (retrieved_chunks !! i) as [entry|] eqn:Hi; [|discriminate].
    destruct (contains (normalize (strip q)) (normalize (chunk_text (chunk entry)))) eqn:Hc;
      simpl; [|discriminate].
    intros [= <-]. unfold valid_item. simpl. split; [exact Hlen|].
    split; [apply strip_idempotent|]. exists i, entry. repeat split; assumption.
  - destruct (Nat.ltb _ _); discriminate.
Qed.

Lemma collect_Forall (P : evidence_item -> Prop) (retrieved_chunks : list (retrieved float))
    (min_len : nat) (items : list Json.value) :
  (forall item ev,
     Extraction.validate retrieved_chunks min_len item = Extraction.Keep ev -> P ev) ->
  forall acc,
    Forall P acc -> Forall P (Extraction.collect retrieved_chunks min_len items acc).1.
Proof.
  intros Hkeep. induction items as [|item items IH]; intros acc Hacc; simpl.
  - exact Hacc.
  - destruct (Extraction.validate retrieved_chunks min_len item) as [|ev|x] eqn:Hv.
    + apply IH. exact Hacc.
    + apply IH. apply Forall_app. split; [exact Hacc|].
      constructor; [|constructor]. eapply Hkeep. exact Hv.
    + exact Hacc.
Qed.

Lemma parse_evidence_Forall (P : evidence_item -> Prop)
    (retrieved_chunks : list (retrieved float)) (min_len : nat) (extraction_text : string) :
  (forall item ev,
     Extraction.validate retrieved_chunks min_len item = Extraction.Keep ev -> P ev) ->
  Forall P (Extraction.parse_evidence retrieved_chunks min_len extraction_text).1.
Proof.
  intros Hkeep. unfold Extraction.parse_evidence.
  destruct (json_loads (strip extraction_text)) as [[| | | | | |fields]|];
    try (simpl; constructor).
  destruct (Extraction.iterate _) as [items|x]; [|simpl; constructor].
  apply collect_Forall; [exact Hkeep | constructor].
Qed.

(** The loop goes through a list in two parts. *)
Lemma collect_app (retrieved_chunks : list (retrieved float)) (min_len : nat)
    (pre post : list Json.value) :
  forall acc,
    Extraction.collect retrieved_chunks min_len (pre ++ post) acc =
    match Extraction.collect retrieved_chunks min_len pre acc with
    | (acc', None) => Extraction.collect retrieved_chunks min_len post acc'
    | (acc', Some x) => (acc', Some x)
    end.
Proof.
  induction pre as [|item pre IH]; intros acc; simpl.
  - reflexivity.
  - destruct (Extraction.validate retrieved_chunks min_len item); [apply IH.. | reflexivity].
Qed.

Lemma out_of_range_skipped (retrieved_chunks : list (retrieved float)) (min_len : nat)
    (item : Json.value) :
  index_out_of_range (length retrieved_chunks) item ->
  Extraction.validate retrieved_chunks min_len item = Extraction.Skip.
Proof.
  intros (fields & q & -> & Hq & Hidx). unfold Extraction.validate. rewrite Hq.
  destruct Hidx as [->|(z & -> & Hz)]; [reflexivity|].
  unfold Extraction.check_index, Extraction.check_int.
  assert (Hb : ((z <? 0) || (Z.of_nat (length retrieved_chunks) <=? z))%Z = true).
  { apply orb_true_iff. destruct Hz as [Hz|Hz];
      [left; apply Z.ltb_lt | right; apply Z.leb_le]; exact Hz. }
  rewrite Hb. reflexivity.
Qed.

(** The loop over the decoded items raises nothing but a [TypeError] or an
    [AttributeError]. *)
Lemma validate_fails (retrieved_chunks : list (retrieved float)) (min_len : nat)
    (item : Json.value) (y : exn) :
  Extraction.validate retrieved_chunks min_len item = Extraction.Fail y ->
  y = TypeError \/ y = AttributeError.
Proof.
  unfold Extraction.validate.
  destruct item as [| | | | |items|fields]; try (intros [= <-]; right; reflexivity).
  destruct (Json.get fields "quote" (Json.JStr "")) as [| | | |q| |];
    try (intros [= <-]; right; reflexivity).
  destruct (Extraction.check_index _ _) as [| |i|]; try discriminate.
  - intros [= <-]. left. reflexivity.
  - destruct (Nat.ltb _ _); [discriminate|].
    destruct (retrieved_chunks !! i); [|discriminate].
    destruct (negb _); discriminate.
  - destruct (Nat.ltb _ _); [discriminate|]. intros [= <-]. left. reflexivity.
Qed.

Lemma collect_raises (retrieved_chunks : list (retrieved float)) (min_len : nat)
    (items : list Json.value) (y : exn) :
  forall acc out,
    Extraction.collect retrieved_chunks min_len items acc = (out, Some y) ->
    y = TypeError \/ y = AttributeError.
Proof.
  induction items as [|item items IH]; intros acc out; simpl; [discriminate|].
  destruct (Extraction.validate retrieved_chunks min_len item) as [|ev|x] eqn:Hv.
  - apply IH.
  - apply IH.
  - intros [= _ <-]. eapply validate_fails. exact Hv.
Qed.

Lemma parse_evidence_raised (retrieved_chunks : list (retrieved float)) (min_len : nat)
    (extraction_text : string) (items : list evidence_item) (y : exn) :
  Extraction.parse_evidence retrieved_chunks min_len extraction_text = (items, Some y) ->
  json_loads (strip extraction_text) = Raised y
  \/ ((exists v, json_loads (strip extraction_text) = Returned v)
      /\ (y = TypeError \/ y = AttributeError)).
Proof.
  unfold Extraction.parse_evidence.
  destruct (json_loads (strip extraction_text)) as [v|e]; [|intros [= _ <-]; left; reflexivity].
  intros Hparse. right. split; [eexists; reflexivity|].
  destruct v as [| | | | | |fields]; try (injection Hparse as _ <-; right; reflexivity).
  destruct (Extraction.iterate _) as [decoded|x] eqn:Hit.
  - eapply collect_raises. exact Hparse.
  - injection Hparse as _ <-. left.
    unfold Extraction.iterate in Hit.
    destruct (Json.get fields "evidence" (Json.JArr [])); congruence.
Qed.

(** The runs of [extract]: no call on no chunks; else one call, after which
    it returns, or raises an exception its handler does not name: the one
    [json.loads] raised, or an [AttributeError] after the reply decoded. *)
Lemma extract_run (c : client) (question : string)
    (retrieved_chunks : list (retrieved float)) (answer_mode : string) :
  let reply := extract_gen c question retrieved_chunks in
  let decoded := json_loads (strip (default Extraction.default_extraction reply)) in
  (retrieved_chunks = []
   /\ run c (Extraction.extract question retrieved_chunks answer_mode)
      = (Returned {| evidence := []; has_evidence := false; raw_extraction := None |}, []))
  \/ (exists ev,
        run c (Extraction.extract question retrieved_chunks answer_mode)
        = (Returned ev, [CExtractGen question retrieved_chunks reply]))
  \/ (exists x,
        run c (Extraction.extract question retrieved_chunks answer_mode)
        = (Raised x, [CExtractGen question retrieved_chunks reply])
        /\ Extraction.caught x = false
        /\ (decoded = Raised x \/ (x = AttributeError /\ exists v, decoded = Returned v))).
Proof.
  cbv zeta. unfold Extraction.extract.
  destruct retrieved_chunks as [|r rs]; [left; split; reflexivity|]. right. simpl run.
  destruct (Extraction.parse_evidence (r :: rs) (Extraction.min_quote_length answer_mode)
              (default Extraction.default_extraction (extract_gen c question (r :: rs))))
    as [items raised] eqn:Hparse.
  destruct raised as [y|]; [|left; eexists; reflexivity].
  destruct (Extraction.caught y) eqn:Hc; [left; eexists; reflexivity|].
  right. exists y. split; [reflexivity|]. split; [exact Hc|].
  apply parse_evidence_raised in Hparse.
  destruct Hparse as [Hraise|(Hdec & [-> | ->])].
  - left. exact Hraise.
  - discriminate Hc.
  - right. split; [reflexivity | exact Hdec].
Qed.

End ExtractionProperties.

(** X9.  Every evidence item [extract] returns is valid: its quote is
    stripped and at least as long as the mode's minimum (8 characters, 5 in
    summary mode), it carries the id, file and timestamp of a retrieved
    chunk at an index within range, and its quote is verbatim in that
    chunk's text up to whitespace. *)
Theorem extract_items_valid `{Library} (c : client) (question : string)
    (retrieved_chunks : list (retrieved float)) (answer_mode : string) (e : extraction) :
  result c (Extraction.extract question retrieved_chunks answer_mode) = Returned e ->
  forall ev, In ev (evidence e) -> valid_item retrieved_chunks answer_mode ev.
Proof.
  intros Hres. apply extract_returned in Hres.
  destruct Hres as [(_ & -> & _)|(_ & -> & _)]; [intros ev []|].
  apply List.Forall_forall.
  apply (parse_evidence_Forall (valid_item retrieved_chunks answer_mode)).
  intros item ev. apply validate_keep_valid.
Qed.

Lemma extract_items_valid_witness :
  valid_item [Example.hit Example.cold_chunk; Example.hit Example.capacity_chunk]
    "FACT_MODE" (Example.evidence_of Example.cold_start_quote Example.cold_chunk).
Proof.
  apply (@extract_items_valid Example.library Example.mixed_reply_client
           "How long did cold start take?"
           [Example.hit Example.cold_chunk; Example.hit Example.capacity_chunk]
           "FACT_MODE"
           {| evidence := [Example.evidence_of Example.cold_start_quote Example.cold_chunk];
              has_evidence := true;
              raw_extraction :=
                Some (Example.reply_text
                        [Example.item_text "0" Example.cold_start_quote;
                         Example.item_text (Example.quoted "one") Example.capacity_quote]) |}).
  - vm_compute. reflexivity.
  - left. reflexivity.
Defined.

(** X10.  What escapes [extract].  An exception escapes only after the
    extraction call, the only call made, and never one the handler names
    ([JSONDecodeError], [KeyError], [TypeError]): it is the exception
    [json.loads] itself raised on the reply (a [ValueError] or a
    [RecursionError], say), or an [AttributeError] after a reply that
    decoded. *)
Theorem extract_raises_only_uncaught `{Library} (c : client) (question : string)
    (retrieved_chunks : list (retrieved float)) (answer_mode : string) (x : exn) :
  result c (Extraction.extract question retrieved_chunks answer_mode) = Raised x ->
  let reply := extract_gen c question retrieved_chunks in
  let decoded := json_loads (strip (default Extraction.default_extraction reply)) in
  Extraction.caught x = false
  /\ calls c (Extraction.extract question retrieved_chunks answer_mode)
     = [CExtractGen question retrieved_chunks reply]
  /\ (decoded = Raised x \/ (x = AttributeError /\ exists v, decoded = Returned v)).
Proof.
  unfold result, calls. cbv zeta.
  destruct (extract_run c question retrieved_chunks answer_mode)
    as [(_ & ->)|[(ev & ->)|(y & -> & Hc & Hwhy)]]; try discriminate.
  cbn [fst snd]. intros [= <-]. repeat split; assumption.
Qed.

Lemma extract_raises_only_uncaught_witness :
  Extraction.caught ValueError = false
  /\ calls Sample.long_integer_client
       (Extraction.extract "How long did cold start take?"
          [Example.hit Example.cold_chunk] "FACT_MODE")
     = [CExtractGen "How long did cold start take?" [Example.hit Example.cold_chunk]
          (Some Example.long_integer)]
  /\ (Example.decode (strip Example.long_integer) = Raised ValueError
      \/ (ValueError = AttributeError
          /\ exists v, Example.decode (strip Example.long_integer) = Returned v)).
Proof.
  apply (@extract_raises_only_uncaught Example.library Sample.long_integer_client
           "How long did cold start take?" [Example.hit Example.cold_chunk] "FACT_MODE"
           ValueError).
  vm_compute. reflexivity.
Defined.

(** X11.  Validation drops the item, not the request: in the loop over the
    decoded items, an item with a string quote whose index is null,
    negative or beyond the retrieved chunks is skipped, and the loop ends
    as it does on the list without that item. *)
Theorem out_of_range_item_dropped `{Library} (retrieved_chunks : list (retrieved float))
    (min_len : nat) (pre post : list Json.value) (item : Json.value) :
  index_out_of_range (length retrieved_chunks) item ->
  Extraction.collect retrieved_chunks min_len (pre ++ item :: post) []
  = Extraction.collect retrieved_chunks min_len (pre ++ post) [].
Proof.
  intros Hout. rewrite !collect_app.
  destruct (Extraction.collect retrieved_chunks min_len pre []) as [acc [x|]];
    [reflexivity|].
  simpl. rewrite (out_of_range_skipped _ _ _ Hout). reflexivity.
Qed.

Lemma out_of_range_item_dropped_witness :
  Extraction.collect [Example.hit Example.cold_chunk] 8
    ([Example.item_value (Json.JInt 0) Example.cold_start_quote]
     ++ Example.item_value (Json.JInt 7) Example.capacity_quote
     :: [Example.item_value (Json.JInt 0) "the first successful response"]) []
  = Extraction.collect [Example.hit Example.cold_chunk] 8
      ([Example.item_value (Json.JInt 0) Example.cold_start_quote]
       ++ [Example.item_value (Json.JInt 0) "the first successful response"]) [].
Proof.
  apply (@out_of_range_item_dropped Example.library [Example.hit Example.cold_chunk] 8
           [Example.item_value (Json.JInt 0) Example.cold_start_quote]
           [Example.item_value (Json.JInt 0) "the first successful response"]
           (Example.item_value (Json.JInt 7) Example.capacity_quote)).
  eexists _, _. split; [reflexivity|]. split; [reflexivity|].
  right. exists 7%Z. split; [reflexivity|]. right. simpl. lia.
Defined.

(** ** Retrieval: candidates, ranking and the record returned *)

Section RetrievalFurther.
Context `{Library}.

(** *** Candidates *)

(** The loop that adds the profile chunks keeps what it had, and ends with
    the id of every profile chunk among the candidates. *)
Lemma merge_identity_spec (identity_chunks : list raw_chunk) :
  forall (cands : list raw_chunk) (ids : gset string),
    (forall cid, cid ∈ ids <-> cid ∈ chunk_id <$> cands) ->
    let out := foldl
                 (fun '(cs, existing_ids) ic =>
                    if bool_decide (chunk_id ic ∉ existing_ids)
                    then (cs ++ [ic], {[chunk_id ic]} ∪ existing_ids)
                    else (cs, existing_ids))
                 (cands, ids) identity_chunks in
    (exists more, out.1 = cands ++ more)
    /\ (forall ic, In ic identity_chunks -> chunk_id ic ∈ chunk_id <$> out.1).
Proof.
  induction identity_chunks as [|ic ics IH]; intros cands ids Hids; simpl.
  - split; [exists []; rewrite app_nil_r; reflexivity | intros ic []].
  - destruct (bool_decide (chunk_id ic ∉ ids)) eqn:Hfresh.
    + destruct (IH (cands ++ [ic]) ({[chunk_id ic]} ∪ ids)) as ((more & Hmore) & Hall).
      { intros cid. rewrite fmap_app, elem_of_app, elem_of_union, elem_of_singleton, Hids.
        simpl. rewrite list_elem_of_singleton. tauto. }
      split.
      * exists (ic :: more). rewrite Hmore, <- app_assoc. reflexivity.
      * intros x [<-|Hx]; [|apply Hall; exact Hx].
        rewrite Hmore, !fmap_app, !elem_of_app. left. right. simpl. left.
    + apply bool_decide_eq_false in Hfresh.
      destruct (IH cands ids Hids) as ((more & Hmore) & Hall).
      split; [exists more; exact Hmore|].
      intros x [<-|Hx]; [|apply Hall; exact Hx].
      rewrite Hmore, fmap_app, elem_of_app. left. apply Hids.
      destruct (decide (chunk_id ic ∈ ids)); [assumption | contradiction].
Qed.

Lemma merge_identity_chunks_spec (cands identity_chunks : list raw_chunk) :
  (exists more, Retrieval.merge_identity_chunks cands identity_chunks = cands ++ more)
  /\ (forall ic, In ic identity_chunks ->
        id_among ic (Retrieval.merge_identity_chunks cands identity_chunks)).
Proof.
  unfold Retrieval.merge_identity_chunks.
  destruct (merge_identity_spec identity_chunks cands (Retrieval.ids_of cands))
    as (Hmore & Hall).
  { intros cid. unfold Retrieval.ids_of. apply elem_of_list_to_set. }
  split; [exact Hmore|].
  intros ic Hic. specialize (Hall ic Hic).
  apply list_elem_of_fmap in Hall. destruct Hall as (ch' & Heq & Hin).
  exists ch'. split; [apply list_elem_of_In; exact Hin | symmetry; exact Heq].
Qed.

Lemma candidates_extend_base (raw_chunks : list raw_chunk)
    (relevant_weeks : list (summary float)) (query : string)
    (date_range : option (Z * Z)) :
  exists more,
    Retrieval.candidates raw_chunks relevant_weeks query date_range
    = base_candidates raw_chunks relevant_weeks date_range ++ more.
Proof.
  unfold Retrieval.candidates. fold (base_candidates raw_chunks relevant_weeks date_range).
  destruct (contains_any Retrieval.personal_keywords (lower query)).
  - apply merge_identity_chunks_spec.
  - exists []. rewrite app_nil_r. reflexivity.
Qed.

Lemma id_among_app_l (ch : raw_chunk) (cs more : list raw_chunk) :
  id_among ch cs -> id_among ch (cs ++ more).
Proof.
  intros (ch' & Hin & Heq). exists ch'. split; [|exact Heq].
  apply in_or_app. left. exact Hin.
Qed.

Lemma merge_time_chunks_spec (cands time_chunks : list raw_chunk) (tc : raw_chunk) :
  In tc time_chunks -> id_among tc (Retrieval.merge_time_chunks cands time_chunks).
Proof.
  intros Hin. unfold Retrieval.merge_time_chunks.
  destruct (decide (chunk_id tc ∈ Retrieval.ids_of cands)) as [Hold|Hnew].
  - unfold Retrieval.ids_of in Hold.
    apply elem_of_list_to_set, list_elem_of_fmap in Hold.
    destruct Hold as (ch' & Heq & Hch'). apply id_among_app_l.
    exists ch'. split; [apply list_elem_of_In; exact Hch' | symmetry; exact Heq].
  - exists tc. split; [|reflexivity]. apply in_or_app. right.
    apply list_elem_of_In, list_elem_of_filter. split; [exact Hnew|].
    apply list_elem_of_In. exact Hin.
Qed.

(** *** The sort on equal scores *)

Lemma sort_desc_constant {A : Type} (z : float) (l : list (float * A)) :
  f_lt z z = false ->
  Forall (fun p => p.1 = z) l ->
  Retrieval.sort_desc l = l.
Proof.
  intros Hirr. induction l as [|x l IH]; intros Hall; [reflexivity|].
  apply Forall_cons in Hall. destruct Hall as [Hx Hall].
  unfold Retrieval.sort_desc in *. simpl. rewrite (IH Hall).
  destruct l as [|y l']; [reflexivity|]. simpl.
  apply Forall_cons in Hall. destruct Hall as [Hy _].
  rewrite Hx, Hy, Hirr. reflexivity.
Qed.

(** *** The selection loop, without bounds *)

Lemma select_total (top_k budget : Z) (scores : list (float * raw_chunk)) :
  forall (selected : list (retrieved float)) (total_chars : nat),
    total_chars = total_length selected ->
    (Retrieval.select top_k budget scores selected total_chars).2
    = total_length (Retrieval.select top_k budget scores selected total_chars).1.
Proof.
  induction scores as [|[s ch] scores IH]; intros selected total_chars Htot; simpl.
  - exact Htot.
  - destruct (top_k <=? Z.of_nat (length selected))%Z; [exact Htot|].
    destruct (budget <? Z.of_nat (total_chars + String.length (chunk_text ch)))%Z;
      [exact Htot|].
    apply IH. rewrite total_length_snoc. simpl. lia.
Qed.

Lemma select_prefix (top_k budget : Z) (scores : list (float * raw_chunk)) :
  forall (selected : list (retrieved float)) (total_chars : nat),
    exists taken rest,
      scores = taken ++ rest
      /\ (Retrieval.select top_k budget scores selected total_chars).1
         = selected ++ ((fun p => Retrieved p.2 p.1) <$> taken).
Proof.
  induction scores as [|[s ch] scores IH]; intros selected total_chars; simpl.
  - exists [], []. simpl. rewrite app_nil_r. split; reflexivity.
  - destruct (top_k <=? Z.of_nat (length selected))%Z.
    { exists [], ((s, ch) :: scores). simpl. rewrite app_nil_r. split; reflexivity. }
    destruct (budget <? Z.of_nat (total_chars + String.length (chunk_text ch)))%Z.
    { exists [], ((s, ch) :: scores). simpl. rewrite app_nil_r. split; reflexivity. }
    destruct (IH (selected ++ [{| chunk := ch; score := s |}])
                 (total_chars + String.length (chunk_text ch)))
      as (taken & rest & Hsc & Hout).
    exists ((s, ch) :: taken), rest. split.
    + simpl. rewrite Hsc. reflexivity.
    + rewrite Hout, <- app_assoc. reflexivity.
Qed.

End RetrievalFurther.

(** X12.  Retrieval invents nothing: every chunk [retrieve] returns is a
    chunk of the raw memory. *)
Theorem retrieve_only_store_chunks `{Library} (c : client) (raw_chunks : list raw_chunk)
    (summaries : list (summary float)) (top_k : Z) (query : string)
    (date_range : option (Z * Z)) (max_context_chars : Z) (r : Retrieval.retrieval_result) :
  result c (Retrieval.retrieve raw_chunks summaries top_k query date_range
              max_context_chars) = Returned r ->
  forall entry, In entry (Retrieval.chunks r) -> In (chunk entry) raw_chunks.
Proof. apply retrieve_from_store. Qed.

Lemma retrieve_only_store_chunks_witness :
  In (chunk (Example.hit Example.cold_chunk)) [Example.cold_chunk; Example.capacity_chunk].
Proof.
  apply (@retrieve_only_store_chunks Example.library
           (Example.client_with None (Example.says yes) None None)
           [Example.cold_chunk; Example.capacity_chunk] [] 6%Z
           "How long did cold start take?" None 100%Z
           {| Retrieval.chunks := [Example.hit Example.cold_chunk];
              Retrieval.meta := Retrieval.Stats 2 1 88 [] |}).
  - vm_compute. reflexivity.
  - left. reflexivity.
Defined.

(** X13.  The outcome of [retrieve] is consistent.  It returns, or raises a
    [ValueError] after the query was embedded.  When it returns, either the
    query embedding failed and nothing is selected, or the metadata give
    the number of candidates, the number of chunks selected and their
    summed text length, and the weeks the routing returned. *)
Theorem retrieve_metadata_consistent `{Library} (c : client) (raw_chunks : list raw_chunk)
    (summaries : list (summary float)) (top_k : Z) (query : string)
    (date_range : option (Z * Z)) (max_context_chars : Z) :
  let q_emb := default [] (embed_query c query) in
  match result c (Retrieval.retrieve raw_chunks summaries top_k query date_range
                    max_context_chars) with
  | Returned r =>
      (q_emb = [] /\ Retrieval.chunks r = []
       /\ Retrieval.meta r = Retrieval.EmbeddingFailed)
      \/ (q_emb <> []
          /\ exists weeks,
               Retrieval.find_relevant_weeks summaries q_emb 3 = Returned weeks
               /\ Retrieval.meta r =
                  Retrieval.Stats
                    (length (Retrieval.candidates raw_chunks weeks query date_range))
                    (length (Retrieval.chunks r))
                    (total_length (Retrieval.chunks r))
                    (week <$> weeks)
               /\ length (Retrieval.chunks r)
                  <= length (Retrieval.candidates raw_chunks weeks query date_range))
  | Raised x => x = ValueError /\ q_emb <> []
  end.
Proof.
  cbv zeta. rewrite retrieve_result. cbv zeta.
  destruct (default [] (embed_query c query)) as [|x q_emb] eqn:Hq.
  { left. repeat split. }
  destruct (Retrieval.find_relevant_weeks summaries (x :: q_emb) 3) as [weeks|e] eqn:Hweeks.
  2:{ apply find_relevant_weeks_raised in Hweeks. destruct Hweeks as [-> _].
      split; [reflexivity | discriminate]. }
  set (cands := Retrieval.candidates raw_chunks weeks query date_range).
  destruct (Retrieval.rank (x :: q_emb) query date_range (chunk_table c cands) cands)
    as [scores|e] eqn:Hrank.
  2:{ apply rank_raised in Hrank. destruct Hrank as [-> _].
      split; [reflexivity | discriminate]. }
  right. split; [discriminate|]. exists weeks. split; [reflexivity|].
  cbn [Retrieval.chunks Retrieval.meta]. split.
  - f_equal. apply select_total. reflexivity.
  - destruct (select_prefix top_k max_context_chars scores [] 0)
      as (taken & rest & Hsc & Hout).
    rewrite Hout, app_nil_l, length_fmap.
    apply rank_returned in Hrank. destruct Hrank as [Hperm _]. fold cands.
    rewrite <- (Permutation_length Hperm), length_fmap, Hsc, length_app. lia.
Qed.

(** X14.  No query is starved: with a non-empty store the candidate list is
    never empty, whatever the routing and the date range give. *)
Theorem candidates_never_empty `{Library} (raw_chunks : list raw_chunk)
    (relevant_weeks : list (summary float)) (query : string)
    (date_range : option (Z * Z)) :
  raw_chunks <> [] ->
  Retrieval.candidates raw_chunks relevant_weeks query date_range <> [].
Proof.
  intros Hne.
  destruct (candidates_extend_base raw_chunks relevant_weeks query date_range)
    as (more & ->).
  unfold base_candidates.
  destruct (match date_range with Some _ => _ | None => _ end) as [|m ms].
  - destruct raw_chunks; [congruence | discriminate].
  - discriminate.
Qed.

Lemma candidates_never_empty_witness :
  @Retrieval.candidates Example.library Sample.store [] "cold start" None <> [].
Proof.
  apply (@candidates_never_empty Example.library Sample.store [] "cold start" None).
  discriminate.
Defined.

(** X15.  For a query that holds a personal keyword, every chunk of the
    store whose file is the profile record has its id among the
    candidates. *)
Theorem identity_chunks_included `{Library} (raw_chunks : list raw_chunk)
    (relevant_weeks : list (summary float)) (query : string)
    (date_range : option (Z * Z)) (ch : raw_chunk) :
  contains_any Retrieval.personal_keywords (lower query) = true ->
  In ch raw_chunks ->
  contains "identity.md" (chunk_file ch) = true ->
  id_among ch (Retrieval.candidates raw_chunks relevant_weeks query date_range).
Proof.
  intros Hpersonal Hin Hid. unfold Retrieval.candidates. rewrite Hpersonal.
  apply merge_identity_chunks_spec. apply filter_In. split; assumption.
Qed.

Lemma identity_chunks_included_witness :
  id_among Sample.profile_chunk
    (@Retrieval.candidates Example.library Sample.store []
       "Where do you live?" (Some (0, 200)%Z)).
Proof.
  apply (@identity_chunks_included Example.library Sample.store []
           "Where do you live?" (Some (0, 200)%Z) Sample.profile_chunk).
  - vm_compute. reflexivity.
  - right. right. left. reflexivity.
  - vm_compute. reflexivity.
Defined.

(** X16.  With an explicit date range, every chunk of the store whose
    timestamp lies in the range has its id among the candidates. *)
Theorem time_range_chunks_included `{Library} (raw_chunks : list raw_chunk)
    (relevant_weeks : list (summary float)) (query : string)
    (range : Z * Z) (ch : raw_chunk) :
  In ch raw_chunks ->
  Retrieval.in_range range ch = true ->
  id_among ch (Retrieval.candidates raw_chunks relevant_weeks query (Some range)).
Proof.
  intros Hin Hrange.
  destruct (candidates_extend_base raw_chunks relevant_weeks query (Some range))
    as (more & ->).
  apply id_among_app_l. unfold base_candidates.
  assert (Hmerged : id_among ch
            (Retrieval.merge_time_chunks
               (omap (Retrieval.get_chunk_by_id raw_chunks)
                  (Retrieval.get_chunk_ids_for_weeks relevant_weeks))
               (Retrieval.get_chunks_by_time_range raw_chunks range))).
  { apply merge_time_chunks_spec. apply filter_In. split; assumption. }
  destruct (Retrieval.merge_time_chunks _ _) as [|m ms].
  - destruct Hmerged as (ch' & [] & _).
  - exact Hmerged.
Qed.

Lemma time_range_chunks_included_witness :
  id_among Example.capacity_chunk
    (@Retrieval.candidates Example.library Sample.store []
       "What failed?" (Some (0, 200)%Z)).
Proof.
  apply (@time_range_chunks_included Example.library Sample.store []
           "What failed?" (0, 200)%Z Example.capacity_chunk).
  - right. left. reflexivity.
  - vm_compute. reflexivity.
Defined.

(** ** What the selection keeps, and in which order *)

Section RetrievalOrder.
Context `{Library}.

Lemma text_total_app (a b : list raw_chunk) :
  text_total (a ++ b) = text_total a + text_total b.
Proof. induction a as [|x a IH]; simpl; [reflexivity | rewrite IH; lia]. Qed.

Lemma text_total_perm (a b : list raw_chunk) :
  Permutation a b -> text_total a = text_total b.
Proof. induction 1; simpl; lia. Qed.

Lemma total_length_entries (taken : list (float * raw_chunk)) :
  total_length ((fun p => Retrieved p.2 p.1) <$> taken) = text_total (snd <$> taken).
Proof.
  induction taken as [|[s ch] taken IH]; [reflexivity|].
  unfold total_length, text_total in *. simpl. f_equal. exact IH.
Qed.

Lemma chunks_of_entries (taken : list (float * raw_chunk)) :
  chunk <$> ((fun p => Retrieved p.2 p.1) <$> taken) = snd <$> taken.
Proof. induction taken as [|[s ch] taken IH]; simpl; [reflexivity | f_equal; exact IH]. Qed.

(** When every scored chunk fits both bounds, the loop takes them all. *)
Lemma select_all (top_k budget : Z) (scores : list (float * raw_chunk)) :
  (Z.of_nat (length scores) <= top_k)%Z ->
  (Z.of_nat (text_total (snd <$> scores)) <= budget)%Z ->
  (Retrieval.select top_k budget scores [] 0).1 = (fun p => Retrieved p.2 p.1) <$> scores.
Proof.
  intros Hk Hb.
  destruct (select_spec top_k budget scores [] 0 eq_refl)
    as (_ & _ & _ & taken & rest & Hsc & Hout & Hrest); [simpl; lia..|].
  cbv zeta in Hrest. rewrite Hout in Hrest. rewrite Hout. clear Hout.
  rewrite app_nil_l in *.
  destruct rest as [|[s ch] rest].
  { rewrite app_nil_r in Hsc. subst. reflexivity. }
  exfalso. rewrite Hsc in Hk, Hb.
  rewrite length_app in Hk. rewrite fmap_app, text_total_app in Hb. simpl in Hk, Hb.
  rewrite length_fmap, total_length_entries in Hrest. lia.
Qed.

Lemma unscored (q_emb : list float) (personal : bool) (date_range : option (Z * Z))
    (cs : list raw_chunk) :
  traverse (Retrieval.score_chunk q_emb personal date_range ∅) cs
  = Returned ((fun ch => (f_zero, ch)) <$> cs).
Proof.
  induction cs as [|ch cs IH]; [reflexivity|].
  cbn [traverse]. rewrite IH. reflexivity.
Qed.

Lemma week_scores_returned (q_emb : list float) (summaries : list (summary float))
    (scores : list (float * summary float)) :
  traverse (Retrieval.week_score q_emb) summaries = Returned scores ->
  scores = (fun s => (Retrieval.week_value q_emb s, s)) <$> summaries.
Proof.
  intros Ht. apply traverse_returned in Ht.
  induction Ht as [|s p l scores Hp _ IH]; [reflexivity|].
  rewrite fmap_cons, <- IH. f_equal. apply week_score_returned. exact Hp.
Qed.

Lemma strongly_sorted_app {A : Type} (R : A -> A -> Prop) (l1 l2 : list A) :
  StronglySorted R (l1 ++ l2) ->
  forall x y, In x l1 -> In y l2 -> R x y.
Proof.
  induction l1 as [|a l1 IH]; simpl; intros Hs x y Hx Hy; [contradiction|].
  apply StronglySorted_inv in Hs. destruct Hs as [Hs Hall].
  destruct Hx as [<-|Hx].
  - rewrite List.Forall_forall in Hall. apply Hall. apply in_or_app. right. exact Hy.
  - apply (IH Hs x y Hx Hy).
Qed.

End RetrievalOrder.

(** X17.  Nothing is dropped needlessly: when the query is embedded, the
    routing returns, no candidate has an embedding of another length than
    the query's, and the candidates number at most top-k and their texts
    together fit the budget, [retrieve] returns every candidate, each
    once. *)
Theorem retrieve_keeps_all_that_fit `{Library} (c : client) (raw_chunks : list raw_chunk)
    (summaries : list (summary float)) (top_k : Z) (query : string)
    (date_range : option (Z * Z)) (max_context_chars : Z)
    (weeks : list (summary float)) :
  let q_emb := default [] (embed_query c query) in
  let cands := Retrieval.candidates raw_chunks weeks query date_range in
  q_emb <> [] ->
  Retrieval.find_relevant_weeks summaries q_emb 3 = Returned weeks ->
  table_aligned q_emb (chunk_table c cands) cands = true ->
  (Z.of_nat (length cands) <= top_k)%Z ->
  (Z.of_nat (text_total cands) <= max_context_chars)%Z ->
  exists r,
    result c (Retrieval.retrieve raw_chunks summaries top_k query date_range
                max_context_chars) = Returned r
    /\ Permutation (chunk <$> Retrieval.chunks r) cands.
Proof.
  cbv zeta. intros Hq Hweeks Haligned Hk Hb. rewrite retrieve_result. cbv zeta.
  destruct (default [] (embed_query c query)) as [|x q_emb]; [congruence|].
  rewrite Hweeks. cbv zeta.
  set (cands := Retrieval.candidates raw_chunks weeks query date_range) in *.
  destruct (rank_returns (x :: q_emb) query date_range _ _ Haligned) as (scores & Hrank).
  rewrite Hrank. eexists. split; [reflexivity|]. cbn [Retrieval.chunks].
  apply rank_returned in Hrank. destruct Hrank as [Hperm _].
  rewrite select_all.
  - rewrite chunks_of_entries. exact Hperm.
  - rewrite <- (length_fmap snd), (Permutation_length Hperm). exact Hk.
  - rewrite (text_total_perm _ _ Hperm). exact Hb.
Qed.

Lemma retrieve_keeps_all_that_fit_witness :
  exists r,
    result (Example.client_with None None None None)
      (Retrieval.retrieve Sample.store [] 6 "What failed?" None 3000) = Returned r
    /\ Permutation (chunk <$> Retrieval.chunks r) Sample.store.
Proof.
  apply (@retrieve_keeps_all_that_fit Example.library
           (Example.client_with None None None None) Sample.store [] 6%Z
           "What failed?" None 3000%Z []).
  - vm_compute. discriminate.
  - vm_compute. reflexivity.
  - vm_compute. reflexivity.
  - vm_compute. discriminate.
  - vm_compute. discriminate.
Defined.

(** X18.  When the routing returns and the batch embedding of the
    candidates raises, every candidate scores zero and the ranking falls
    back to the order of the candidates: [retrieve] returns a prefix of
    them, each with score zero.  (Zero is not below itself, as on
    floats.) *)
Theorem unembedded_candidates_keep_order `{Library} (c : client)
    (raw_chunks : list raw_chunk) (summaries : list (summary float)) (top_k : Z)
    (query : string) (date_range : option (Z * Z)) (max_context_chars : Z)
    (weeks : list (summary float)) :
  let q_emb := default [] (embed_query c query) in
  let cands := Retrieval.candidates raw_chunks weeks query date_range in
  f_lt f_zero f_zero = false ->
  q_emb <> [] ->
  Retrieval.find_relevant_weeks summaries q_emb 3 = Returned weeks ->
  embed_chunks c (chunk_text <$> cands) = None ->
  exists r n,
    result c (Retrieval.retrieve raw_chunks summaries top_k query date_range
                max_context_chars) = Returned r
    /\ chunk <$> Retrieval.chunks r = take n cands
    /\ Forall (fun entry => score entry = f_zero) (Retrieval.chunks r).
Proof.
  cbv zeta. intros Hirr Hq Hweeks Hfail. rewrite retrieve_result. cbv zeta.
  destruct (default [] (embed_query c query)) as [|x q_emb] eqn:Hemb; [congruence|].
  rewrite Hweeks. cbv zeta.
  set (cands := Retrieval.candidates raw_chunks weeks query date_range) in *.
  assert (Htable : chunk_table c cands = ∅).
  { unfold chunk_table. destruct cands; [reflexivity|]. rewrite Hfail. reflexivity. }
  assert (Hrank : Retrieval.rank (x :: q_emb) query date_range (chunk_table c cands) cands
                  = Returned ((fun ch => (f_zero, ch)) <$> cands)).
  { unfold Retrieval.rank. rewrite Htable, unscored. f_equal.
    apply (sort_desc_constant f_zero); [exact Hirr|].
    apply Forall_fmap. apply Forall_true. reflexivity. }
  rewrite Hrank.
  destruct (select_prefix top_k max_context_chars ((fun ch => (f_zero, ch)) <$> cands) [] 0)
    as (taken & rest & Hsc & Hout).
  eexists. exists (length taken). split; [reflexivity|]. cbn [Retrieval.chunks]. split.
  - rewrite Hout. simpl. rewrite chunks_of_entries.
    assert (Hc : cands = (snd <$> taken) ++ (snd <$> rest)).
    { rewrite <- fmap_app, <- Hsc, <- list_fmap_compose. symmetry. apply list_fmap_id. }
    rewrite Hc, <- (length_fmap snd taken), take_app_length. reflexivity.
  - rewrite Hout. simpl. apply Forall_fmap.
    assert (Hall : Forall (fun p : float * raw_chunk => p.1 = f_zero) (taken ++ rest)).
    { rewrite <- Hsc. apply Forall_fmap. apply Forall_true. reflexivity. }
    apply Forall_app in Hall. destruct Hall as [Hall _].
    eapply Forall_impl; [exact Hall|]. intros p Hp. exact Hp.
Qed.

Lemma unembedded_candidates_keep_order_witness :
  exists r n,
    result Sample.no_chunk_embedding_client
      (Retrieval.retrieve Sample.store [] 2 "What failed?" None 3000) = Returned r
    /\ chunk <$> Retrieval.chunks r = take n Sample.store
    /\ Forall (fun entry => score entry = 0%Z) (Retrieval.chunks r).
Proof.
  apply (@unembedded_candidates_keep_order Example.library
           Sample.no_chunk_embedding_client Sample.store [] 2%Z
           "What failed?" None 3000%Z []).
  - reflexivity.
  - vm_compute. discriminate.
  - reflexivity.
  - reflexivity.
Defined.

(** X19.  [find_relevant_weeks] returns the best-scoring weeks, or raises a
    [ValueError] when the embedding of some week has another length than
    the query's.  The weeks returned are as many as asked for (or all of
    them, if fewer), each a summary of the memory, and no week left out
    scores above a week returned.  (The comparison of scores is assumed a
    strict weak order, as [<] is on floats other than NaN.) *)
Theorem find_relevant_weeks_best `{Library} (summaries : list (summary float))
    (query_embedding : list float) (top_k : nat) :
  (forall a b : float, f_lt a b = true -> f_lt b a = false) ->
  (forall a b d : float, f_lt a b = false -> f_lt b d = false -> f_lt a d = false) ->
  match Retrieval.find_relevant_weeks summaries query_embedding top_k with
  | Returned found =>
      length found = Nat.min top_k (length summaries)
      /\ exists left_out,
           Permutation (found ++ left_out) summaries
           /\ forall s s', In s found -> In s' left_out ->
                f_lt (Retrieval.week_value query_embedding s)
                     (Retrieval.week_value query_embedding s') = false
  | Raised x =>
      x = ValueError /\ forallb (week_aligned query_embedding) summaries = false
  end.
Proof.
  intros Hasym Htrans.
  destruct (Retrieval.find_relevant_weeks summaries query_embedding top_k)
    as [found|x] eqn:Hfound; [|eapply find_relevant_weeks_raised; exact Hfound].
  unfold Retrieval.find_relevant_weeks in Hfound.
  destruct (traverse _ summaries) as [scores|e] eqn:Ht; [|discriminate].
  injection Hfound as <-. apply week_scores_returned in Ht.
  set (ranked := Retrieval.sort_desc scores).
  assert (Hperm : Permutation ranked scores) by apply sort_desc_perm.
  assert (Hscore : forall p, In p ranked ->
                     p = (Retrieval.week_value query_embedding p.2, p.2)).
  { intros p Hp. apply list_elem_of_In in Hp. rewrite Hperm, Ht in Hp.
    apply list_elem_of_fmap in Hp. destruct Hp as (s & -> & _). reflexivity. }
  assert (Hsnd : snd <$> scores = summaries).
  { rewrite Ht, <- list_fmap_compose. apply list_fmap_id. }
  split.
  - rewrite length_fmap, length_take, (Permutation_length Hperm), <- Hsnd, length_fmap.
    reflexivity.
  - exists (snd <$> drop top_k ranked). split.
    + rewrite <- fmap_app, take_drop, Hperm. rewrite Hsnd. reflexivity.
    + intros s s' Hs Hs'.
      apply in_map_iff in Hs. destruct Hs as (p & <- & Hp).
      apply in_map_iff in Hs'. destruct Hs' as (p' & <- & Hp').
      assert (Hin : In p ranked).
      { rewrite <- (take_drop top_k ranked). apply in_or_app. left. exact Hp. }
      assert (Hin' : In p' ranked).
      { rewrite <- (take_drop top_k ranked). apply in_or_app. right. exact Hp'. }
      assert (Hsorted : StronglySorted (fun a b : float * summary float => f_lt a.1 b.1 = false)
                          (take top_k ranked ++ drop top_k ranked)).
      { rewrite take_drop. apply Sorted_StronglySorted.
        - intros a b d Hab Hbd. exact (Htrans _ _ _ Hab Hbd).
        - apply (sort_desc_sorted _ Hasym). }
      pose proof (strongly_sorted_app _ _ _ Hsorted p p' Hp Hp') as Hle.
      rewrite (Hscore p Hin), (Hscore p' Hin') in Hle. exact Hle.
Qed.

Lemma find_relevant_weeks_best_witness :
  match @Retrieval.find_relevant_weeks Example.library Sample.weeks [2%Z] 2 with
  | Returned found =>
      length found = Nat.min 2 (length Sample.weeks)
      /\ exists left_out,
           Permutation (found ++ left_out) Sample.weeks
           /\ forall s s', In s found -> In s' left_out ->
                Z.ltb (@Retrieval.week_value Example.library [2%Z] s)
                      (@Retrieval.week_value Example.library [2%Z] s') = false
  | Raised x =>
      x = ValueError
      /\ forallb (@week_aligned Example.library [2%Z]) Sample.weeks = false
  end.
Proof.
  apply (@find_relevant_weeks_best Example.library Sample.weeks [2%Z] 2).
  - intros a b Hab. apply Z.ltb_lt in Hab. apply Z.ltb_ge. lia.
  - intros a b d Hab Hbd. apply Z.ltb_ge in Hab. apply Z.ltb_ge in Hbd.
    apply Z.ltb_ge. lia.
Defined.

(** ** The style layer and the whole pipeline *)

Section PipelineProperties.
Context `{Library}.

Lemma calls_bind_sublist {A B : Type} (c : client) (p : prog A) (f : A -> prog B)
    (s1 s2 : list service) :
  sublist (service_of <$> calls c p) s1 ->
  (forall a, sublist (service_of <$> calls c (f a)) s2) ->
  sublist (service_of <$> calls c (bind p f)) (s1 ++ s2).
Proof.
  unfold calls. intros H1 H2. rewrite run_bind.
  destruct (run c p) as [[a|e] l]; cbn [snd] in *.
  - specialize (H2 a). destruct (run c (f a)) as [o l']. cbn [snd] in *.
    rewrite fmap_app. apply sublist_app; assumption.
  - apply sublist_inserts_r. exact H1.
Qed.

Lemma calls_lift {A : Type} (c : client) (o : outcome A) : calls c (lift o) = [].
Proof. destruct o; reflexivity. Qed.

Lemma retrieve_calls (c : client) (raw_chunks : list raw_chunk)
    (summaries : list (summary float)) (top_k : Z) (query : string)
    (date_range : option (Z * Z)) (budget : Z) :
  sublist
    (service_of <$> calls c (Retrieval.retrieve raw_chunks summaries top_k query
                               date_range budget))
    [SvcEmbedQuery; SvcEmbedChunks].
Proof.
  unfold Retrieval.retrieve.
  apply (calls_bind_sublist c _ _ [SvcEmbedQuery] [SvcEmbedChunks]).
  { apply sublist_skip. apply sublist_nil. }
  intros [|x q_emb]; [apply sublist_nil_l|].
  apply (calls_bind_sublist c _ _ [] [SvcEmbedChunks]).
  { rewrite calls_lift. apply sublist_nil. }
  intros weeks.
  apply (calls_bind_sublist c _ _ [SvcEmbedChunks] []).
  - destruct (Retrieval.candidates _ _ _ _); [apply sublist_nil_l|].
    apply sublist_skip. apply sublist_nil.
  - intros table. apply (calls_bind_sublist c _ _ [] []).
    + rewrite calls_lift. apply sublist_nil.
    + intros scores. destruct (Retrieval.select _ _ _ _ _). apply sublist_nil.
Qed.

Lemma retrieve_run_failed (c : client) (raw_chunks : list raw_chunk)
    (summaries : list (summary float)) (top_k : Z) (query : string)
    (date_range : option (Z * Z)) (budget : Z) :
  default [] (embed_query c query) = [] ->
  run c (Retrieval.retrieve raw_chunks summaries top_k query date_range budget)
  = (Returned {| Retrieval.chunks := []; Retrieval.meta := Retrieval.EmbeddingFailed |},
     [CEmbedQuery query (embed_query c query)]).
Proof.
  intros Hq. unfold Retrieval.retrieve, Retrieval._embed_query.
  simpl bind. simpl run. rewrite Hq. reflexivity.
Qed.

(** A run of [retrieve] starts with the embedding of the query; it returns,
    or raises a [ValueError]. *)
Lemma retrieve_first_call (c : client) (raw_chunks : list raw_chunk)
    (summaries : list (summary float)) (top_k : Z) (query : string)
    (date_range : option (Z * Z)) (budget : Z) :
  exists o rest,
    run c (Retrieval.retrieve raw_chunks summaries top_k query date_range budget)
    = (o, CEmbedQuery query (embed_query c query) :: rest)
    /\ (forall x, o = Raised x -> x = ValueError)
    /\ Forall (fun k => service_of k = SvcEmbedChunks) rest.
Proof.
  unfold Retrieval.retrieve, Retrieval._embed_query.
  simpl bind. simpl run.
  destruct (default [] (embed_query c query)) as [|x q_emb].
  { eexists _, _. split; [reflexivity|]. split; [discriminate | constructor]. }
  destruct (Retrieval.find_relevant_weeks summaries (x :: q_emb) 3) as [weeks|e] eqn:Hweeks.
  2:{ eexists _, _. split; [reflexivity|]. split; [|constructor].
      intros y [= <-]. eapply find_relevant_weeks_raised. exact Hweeks. }
  cbn [lift bind]. rewrite run_bind.
  destruct (run_embed_chunks c (Retrieval.candidates raw_chunks weeks query date_range))
    as (l & Hl).
  assert (Hkind : Forall (fun k => service_of k = SvcEmbedChunks) l).
  { destruct (Retrieval.candidates raw_chunks weeks query date_range);
      injection Hl as <-; repeat constructor. }
  rewrite Hl. cbv beta iota.
  destruct (Retrieval.rank (x :: q_emb) query date_range _ _) as [scores|e] eqn:Hrank.
  2:{ eexists _, _. split; [reflexivity|]. cbn [lift bind run]. rewrite app_nil_r.
      split; [|exact Hkind].
      intros y [= <-]. eapply rank_raised. exact Hrank. }
  cbn [lift bind].
  destruct (Retrieval.select top_k budget scores [] 0) as [selected total].
  eexists _, _. split; [reflexivity|]. cbn [run]. rewrite app_nil_r.
  split; [discriminate | exact Hkind].
Qed.

Lemma extract_calls (c : client) (question : string)
    (retrieved_chunks : list (retrieved float)) (answer_mode : string) :
  sublist (service_of <$> calls c (Extraction.extract question retrieved_chunks answer_mode))
    [SvcExtract].
Proof.
  unfold calls.
  destruct (extract_run c question retrieved_chunks answer_mode)
    as [(_ & ->)|[(ev & ->)|(x & -> & _)]]; cbn [snd].
  - apply sublist_nil_l.
  - apply sublist_skip. apply sublist_nil.
  - apply sublist_skip. apply sublist_nil.
Qed.

Lemma gate_run (c : client) (question : string) (ev : extraction)
    (retrieved_chunks : list (retrieved float)) (answer_mode : string) :
  exists v l,
    run c (Gate.generate_answer question ev retrieved_chunks answer_mode) = (Returned v, l)
    /\ sublist (service_of <$> l) [SvcEntail; SvcAnswer].
Proof.
  pose proof (generate_answer_path c question ev retrieved_chunks answer_mode) as Hp.
  destruct Hp; eexists _, _; (split; [reflexivity|]); repeat constructor.
Qed.

Lemma apply_style_run (c : client) (v : verdict) :
  exists v' l,
    run c (Style.apply_style v) = (Returned v', l)
    /\ citations v' = citations v /\ confidence v' = confidence v
    /\ reasoning v' = reasoning v
    /\ sublist (service_of <$> l) [SvcStyle].
Proof.
  unfold Style.apply_style.
  destruct (contains "do not see" (lower (answer v)) || contains "don't see" (lower (answer v))).
  { eexists _, _. repeat split. apply sublist_nil_l. }
  destruct (startswith (answer v) "From my data:").
  { eexists _, _. repeat split. apply sublist_nil_l. }
  destruct (Nat.ltb (String.length (answer v)) 10).
  { eexists _, _. repeat split. apply sublist_nil_l. }
  destruct (Style.rsplit_once "Sources:" (answer v)) as [[before after]|];
    eexists _, _; (split; [reflexivity|]); repeat split;
    apply sublist_skip; apply sublist_nil.
Qed.

Lemma gate_style_run (c : client) (question : string) (ev : extraction)
    (retrieved_chunks : list (retrieved float)) (answer_mode : string) :
  exists v l,
    run c (bind (Gate.generate_answer question ev retrieved_chunks answer_mode)
             (fun answer_result => Style.apply_style answer_result)) = (Returned v, l).
Proof.
  rewrite run_bind.
  destruct (gate_run c question ev retrieved_chunks answer_mode) as (v & l & -> & _).
  destruct (apply_style_run c v) as (v' & l' & -> & _).
  eexists _, _. reflexivity.
Qed.

Lemma apply_style_refusal (why : string) :
  Style.apply_style (Gate.refusal why) = Ret (Gate.refusal why).
Proof. reflexivity. Qed.

Lemma apply_style_quote_only (evs : list evidence_item) :
  Style.apply_style (Gate.quote_only_verdict evs) = Ret (Gate.quote_only_verdict evs).
Proof.
  unfold Gate.quote_only_verdict.
  destruct (Gate.quote_only evs) as [[|line lines] seen]; [reflexivity|].
  unfold Style.apply_style. cbn [answer].
  destruct (contains "do not see" _ || contains "don't see" _); reflexivity.
Qed.

Lemma substring_all (s : string) (m : nat) :
  String.length s <= m -> String.substring 0 m s = s.
Proof.
  revert m. induction s as [|a s IH]; intros m Hm.
  - destruct m; reflexivity.
  - destruct m; simpl in *; [lia|]. rewrite IH; [reflexivity | lia].
Qed.

Lemma prefix_split (p : string) :
  forall (s : string) (m : nat),
    String.prefix p s = true -> String.length s <= m ->
    s = p +:+ String.substring (String.length p) m s.
Proof.
  induction p as [|a p IH]; intros s m Hp Hm.
  - simpl. rewrite substring_all; [reflexivity | exact Hm].
  - destruct s as [|b s]; [discriminate|]. simpl in Hp.
    destruct (Ascii.ascii_dec a b) as [->|Hne]; [|discriminate].
    change (String b s = String b (p +:+ String.substring (String.length p) m s)).
    f_equal. apply IH; [exact Hp | simpl in Hm; lia].
Qed.

(** [rsplit_once] cuts at an occurrence of the separator. *)
Lemma rsplit_once_spec (sep s before after : string) :
  Style.rsplit_once sep s = Some (before, after) ->
  s = before +:+ sep +:+ after.
Proof.
  revert before. induction s as [|a s IH]; intros before; cbn [Style.rsplit_once].
  - destruct sep; simpl; [|discriminate]. intros [= <- <-]. reflexivity.
  - destruct (Style.rsplit_once sep s) as [[b' a']|].
    + intros [= <- <-]. change (String a s = String a (b' +:+ sep +:+ a')).
      f_equal. apply IH. reflexivity.
    + destruct (String.prefix sep (String a s)) eqn:Hp; [|discriminate].
      intros [= <- <-]. simpl.
      apply (prefix_split sep (String a s) (String.length (String a s)) Hp). lia.
Qed.

End PipelineProperties.

(** X20.  The style layer changes the answer text only, and never fails:
    [apply_style] always returns, with the confidence, the reasoning and
    the citations of the verdict it was given, after at most one call, a
    restyling call. *)
Theorem apply_style_changes_answer_only `{Library} (c : client) (v : verdict) :
  exists v',
    result c (Style.apply_style v) = Returned v'
    /\ confidence v' = confidence v
    /\ reasoning v' = reasoning v
    /\ citations v' = citations v
    /\ (calls c (Style.apply_style v) = []
        \/ exists body, calls c (Style.apply_style v) = [CStyleGen body (style_gen c body)]).
Proof.
  unfold result, calls, Style.apply_style.
  destruct (contains "do not see" (lower (answer v)) || contains "don't see" (lower (answer v))).
  { eexists. repeat split. left. reflexivity. }
  destruct (startswith (answer v) "From my data:").
  { eexists. repeat split. left. reflexivity. }
  destruct (Nat.ltb (String.length (answer v)) 10).
  { eexists. repeat split. left. reflexivity. }
  destruct (Style.rsplit_once "Sources:" (answer v)) as [[before after]|];
    eexists; (split; [reflexivity|]); repeat split; right; eexists; reflexivity.
Qed.

(** X21.  What the gate decided without generating is delivered as it is:
    unless the question was blocked, a verdict that came without an answer
    generation call (a refusal or a quote-only answer) passes the style
    layer unchanged, and no restyling call is made. *)
Theorem ungenerated_verdicts_not_restyled `{Library} (c : client) (question : string)
    (ev : extraction) (retrieved_chunks : list (retrieved float)) (answer_mode : string)
    (v : verdict) (l : list call) :
  Gate._contains_sensitive_info question "" = false ->
  run c (Gate.generate_answer question ev retrieved_chunks answer_mode) = (Returned v, l) ->
  (forall m q evs r, ~ In (CAnswerGen m q evs r) l) ->
  run c (Style.apply_style v) = (Returned v, []).
Proof.
  intros Hs Hrun Hno.
  pose proof (generate_answer_path c question ev retrieved_chunks answer_mode) as Hp.
  rewrite Hrun in Hp. inversion Hp; subst.
  - congruence.
  - rewrite apply_style_refusal. reflexivity.
  - exfalso. eapply Hno. left. reflexivity.
  - rewrite apply_style_refusal. reflexivity.
  - rewrite apply_style_quote_only. reflexivity.
  - exfalso. eapply Hno. right. left. reflexivity.
Qed.

Lemma ungenerated_verdicts_not_restyled_witness :
  run Sample.restyling_client
    (Style.apply_style (Gate.refusal "No supporting evidence found in the data."))
  = (Returned (Gate.refusal "No supporting evidence found in the data."), []).
Proof.
  apply (@ungenerated_verdicts_not_restyled Example.library Sample.restyling_client
           "How long did cold start take?"
           {| evidence := []; has_evidence := false; raw_extraction := None |}
           [] "FACT_MODE"
           (Gate.refusal "No supporting evidence found in the data.") []).
  - vm_compute. reflexivity.
  - vm_compute. reflexivity.
  - intros m q evs r [].
Defined.

(** X22.  The block message is not exempt from restyling: for a sensitive
    question the gate's fixed message is sent to the restyling call, and
    the answer delivered is the stripped reply of that call (the message
    itself when the call raises or replies nothing); confidence, reasoning
    and the empty citations stay. *)
Theorem block_message_is_restyled `{Library} (c : client) (question : string)
    (ev : extraction) (retrieved_chunks : list (retrieved float)) (answer_mode : string) :
  matches_sensitive question ->
  let message := answer Gate.blocked_question in
  run c (bind (Gate.generate_answer question ev retrieved_chunks answer_mode)
           Style.apply_style)
  = (Returned (Style.set_answer Gate.blocked_question (restyled c message)),
     [CStyleGen message (style_gen c message)]).
Proof.
  intros Hm. cbv zeta. unfold Gate.generate_answer.
  rewrite (contains_sensitive_question _ Hm). reflexivity.
Qed.

Lemma block_message_is_restyled_witness :
  run Sample.restyling_client
    (bind (Gate.generate_answer "What is the AWS secret for prod?" Example.cold_evidence
             [] "FACT_MODE")
       Style.apply_style)
  = (Returned (Style.set_answer Gate.blocked_question "I saw it take 6-9 minutes."),
     [CStyleGen (answer Gate.blocked_question) (Some "  I saw it take 6-9 minutes. ")]).
Proof.
  apply (@block_message_is_restyled Example.library Sample.restyling_client
           "What is the AWS secret for prod?" Example.cold_evidence [] "FACT_MODE").
  right. exists "secret". split; [|vm_compute; reflexivity].
  vm_compute. tauto.
Defined.

(** X23.  The sources line survives restyling: for an answer that is
    restyled and holds [Sources:], only the stripped text before the last
    [Sources:] is sent to the restyling call, and the answer delivered is
    a stripped body, a blank line, and the original text from that
    [Sources:] on. *)
Theorem sources_line_survives_restyling `{Library} (c : client) (v : verdict)
    (before after : string) :
  contains "do not see" (lower (answer v)) || contains "don't see" (lower (answer v)) = false ->
  startswith (answer v) "From my data:" = false ->
  10 <= String.length (answer v) ->
  Style.rsplit_once "Sources:" (answer v) = Some (before, after) ->
  answer v = before +:+ "Sources:" +:+ after
  /\ exists body,
       run c (Style.apply_style v)
       = (Returned (Style.set_answer v
                      (body +:+ newline +:+ newline +:+ "Sources:" +:+ after)),
          [CStyleGen (strip before) (style_gen c (strip before))])
       /\ strip body = body.
Proof.
  intros Hrefusal Hquote Hlen Hsplit. split; [apply rsplit_once_spec; exact Hsplit|].
  unfold Style.apply_style. rewrite Hrefusal, Hquote, Hsplit.
  destruct (Nat.ltb_spec (String.length (answer v)) 10) as [Hlt|_]; [lia|].
  exists (restyled c (strip before)). split; [reflexivity|].
  unfold restyled. cbv zeta.
  destruct (strip (default (strip before) (style_gen c (strip before)))) as [|a s] eqn:Hst.
  - apply strip_idempotent.
  - rewrite <- Hst. apply strip_idempotent.
Qed.

Lemma sources_line_survives_restyling_witness :
  answer Sample.sourced_verdict
  = "It took about 6-9 minutes. " +:+ "Sources:" +:+ " test:chunk:2"
  /\ exists body,
       run Sample.restyling_client (Style.apply_style Sample.sourced_verdict)
       = (Returned (Style.set_answer Sample.sourced_verdict
                      (body +:+ newline +:+ newline +:+ "Sources:" +:+ " test:chunk:2")),
          [CStyleGen (strip "It took about 6-9 minutes. ")
             (style_gen Sample.restyling_client (strip "It took about 6-9 minutes. "))])
       /\ strip body = body.
Proof.
  apply (@sources_line_survives_restyling Example.library Sample.restyling_client
           Sample.sourced_verdict "It took about 6-9 minutes. " " test:chunk:2").
  - vm_compute. reflexivity.
  - vm_compute. reflexivity.
  - vm_compute. lia.
  - vm_compute. reflexivity.
Defined.

(** X24.  One question costs at most one call to each service, in the
    order of the layers: the services called by [DigitalTwin.answer] form
    a subsequence of query embedding, chunk embedding, extraction,
    entailment, generation, restyling. *)
Theorem twin_calls_in_pipeline_order `{Library} (c : client) (t : Twin.twin)
    (question : string) :
  sublist (service_of <$> calls c (Twin.answer t question)) pipeline.
Proof.
  unfold Twin.answer.
  destruct (mem (lower (strip question)) Twin.greetings); [apply sublist_nil_l|].
  destruct (mem (lower (strip question)) Twin.help_intents); [apply sublist_nil_l|].
  destruct (parse_date_range question) as [date_range|x]; [|apply sublist_nil_l].
  cbn [lift bind].
  apply (calls_bind_sublist c _ _ [SvcEmbedQuery; SvcEmbedChunks]
           [SvcExtract; SvcEntail; SvcAnswer; SvcStyle]); [apply retrieve_calls|].
  intros r.
  apply (calls_bind_sublist c _ _ [SvcExtract] [SvcEntail; SvcAnswer; SvcStyle]);
    [apply extract_calls|].
  intros ev.
  apply (calls_bind_sublist c _ _ [SvcEntail; SvcAnswer] [SvcStyle]).
  - unfold calls. destruct (gate_run c question ev (Retrieval.chunks r)
                              (Twin.answer_mode_of question date_range))
      as (v & l & -> & Hl). exact Hl.
  - intros v. unfold calls. destruct (apply_style_run c v) as (v' & l & -> & _ & _ & _ & Hl).
    exact Hl.
Qed.

(** X25.  Where an exception of [DigitalTwin.answer] comes from.  The gate
    and the style layer never raise.  An exception that escapes is the one
    the date parser raised, before any call; or the [ValueError] of
    retrieval, after embedding calls only; or it is raised by extraction
    right after its call, the last call made, and is not one the handler
    of [extract] names: the exception of [json.loads] on the reply, or an
    [AttributeError] after a reply that decoded. *)
Theorem twin_exceptions_come_early `{Library} (c : client) (t : Twin.twin)
    (question : string) (x : exn) :
  result c (Twin.answer t question) = Raised x ->
  (parse_date_range question = Raised x /\ calls c (Twin.answer t question) = [])
  \/ (x = ValueError
      /\ Forall (fun k => service_of k = SvcEmbedQuery \/ service_of k = SvcEmbedChunks)
           (calls c (Twin.answer t question)))
  \/ (Extraction.caught x = false
      /\ exists earlier chunks,
           let reply := extract_gen c question chunks in
           let decoded := json_loads (strip (default Extraction.default_extraction reply)) in
           calls c (Twin.answer t question)
           = earlier ++ [CExtractGen question chunks reply]
           /\ (decoded = Raised x \/ (x = AttributeError /\ exists v, decoded = Returned v))).
Proof.
  unfold result, calls, Twin.answer.
  destruct (mem (lower (strip question)) Twin.greetings); [discriminate|].
  destruct (mem (lower (strip question)) Twin.help_intents); [discriminate|].
  destruct (parse_date_range question) as [date_range|y].
  2:{ cbn. intros [= <-]. left. split; reflexivity. }
  cbn [lift bind]. rewrite run_bind.
  destruct (retrieve_first_call c (Twin.raw_chunks t) (Twin.summaries t) (Twin.top_k t)
              question date_range (Twin.max_context_chars t))
    as (o & rest & -> & Hraised & Hrest).
  destruct o as [r|y].
  2:{ cbn [fst snd]. intros [= <-]. right. left. split; [apply Hraised; reflexivity|].
      constructor; [left; reflexivity|].
      eapply Forall_impl; [exact Hrest|]. intros k Hk. right. exact Hk. }
  rewrite run_bind.
  destruct (extract_run c question (Retrieval.chunks r)
              (Twin.answer_mode_of question date_range))
    as [(_ & ->)|[(ev & ->)|(y & -> & Hcaught & Hwhy)]]; cbv beta iota.
  - destruct (gate_style_run c question
                {| evidence := []; has_evidence := false; raw_extraction := None |}
                (Retrieval.chunks r) (Twin.answer_mode_of question date_range))
      as (v & l & ->). discriminate.
  - destruct (gate_style_run c question ev (Retrieval.chunks r)
                (Twin.answer_mode_of question date_range))
      as (v & l & ->). discriminate.
  - cbn [fst snd]. intros [= <-]. right. right. split; [exact Hcaught|].
    eexists _, _. cbv zeta. split; [reflexivity | exact Hwhy].
Qed.

Lemma twin_exceptions_come_early_witness :
  (Example.no_date_range "How long did cold start take?" = Raised ValueError
   /\ calls Sample.long_integer_client
        (Twin.answer (Example.twin_of Sample.store 6 3000) "How long did cold start take?")
      = [])
  \/ (ValueError = ValueError
      /\ Forall (fun k => service_of k = SvcEmbedQuery \/ service_of k = SvcEmbedChunks)
           (calls Sample.long_integer_client
              (Twin.answer (Example.twin_of Sample.store 6 3000)
                 "How long did cold start take?")))
  \/ (Extraction.caught ValueError = false
      /\ exists earlier chunks,
           let reply :=
             extract_gen Sample.long_integer_client "How long did cold start take?" chunks in
           let decoded :=
             Example.decode (strip (default Extraction.default_extraction reply)) in
           calls Sample.long_integer_client
             (Twin.answer (Example.twin_of Sample.store 6 3000)
                "How long did cold start take?")
           = earlier ++ [CExtractGen "How long did cold start take?" chunks reply]
           /\ (decoded = Raised ValueError
               \/ (ValueError = AttributeError /\ exists v, decoded = Returned v))).
Proof.
  apply (@twin_exceptions_come_early Example.library Sample.long_integer_client
           (Example.twin_of Sample.store 6 3000) "How long did cold start take?"
           ValueError).
  vm_compute. reflexivity.
Defined.

(** X26.  Without a query embedding the twin refuses: when the date parser
    returns and the embedding call raises or replies nothing, a question
    that is neither a canned intent nor sensitive gets the no-evidence
    refusal, and no other call is made. *)
Theorem twin_without_query_embedding_refuses `{Library} (c : client) (t : Twin.twin)
    (question : string) (date_range : option (Z * Z)) :
  mem (lower (strip question)) Twin.greetings = false ->
  mem (lower (strip question)) Twin.help_intents = false ->
  Gate._contains_sensitive_info question "" = false ->
  parse_date_range question = Returned date_range ->
  default [] (embed_query c question) = [] ->
  run c (Twin.answer t question)
  = (Returned (Gate.refusal "No supporting evidence found in the data."),
     [CEmbedQuery question (embed_query c question)]).
Proof.
  intros Hg Hh Hs Hdate Hq. unfold Twin.answer. rewrite Hg, Hh, Hdate. cbn [lift bind].
  rewrite run_bind, (retrieve_run_failed c _ _ _ _ _ _ Hq).
  cbv beta iota. cbn [Retrieval.chunks]. unfold Extraction.extract. cbn [bind].
  rewrite run_bind. unfold Gate.generate_answer. rewrite Hs. reflexivity.
Qed.

Lemma twin_without_query_embedding_refuses_witness :
  run Sample.no_query_embedding_client
    (Twin.answer (Example.twin_of Sample.store 6 3000) "How long did cold start take?")
  = (Returned (Gate.refusal "No supporting evidence found in the data."),
     [CEmbedQuery "How long did cold start take?" None]).
Proof.
  apply (@twin_without_query_embedding_refuses Example.library
           Sample.no_query_embedding_client (Example.twin_of Sample.store 6 3000)
           "How long did cold start take?" None).
  - vm_compute. reflexivity.
  - vm_compute. reflexivity.
  - vm_compute. reflexivity.
  - vm_compute. reflexivity.
  - reflexivity.
Defined.

(** X27.  End to end, a sensitive question is never answered from the
    data: whenever [DigitalTwin.answer] returns on a question that matches
    a sensitive pattern or keyword, the confidence is [none] and there are
    no citations. *)
Theorem twin_sensitive_question_never_cites `{Library} (c : client) (t : Twin.twin)
    (question : string) (v : verdict) :
  matches_sensitive question ->
  result c (Twin.answer t question) = Returned v ->
  confidence v = none /\ citations v = [].
Proof.
  intros Hm. unfold Twin.answer.
  destruct (mem (lower (strip question)) Twin.greetings).
  { intros [= <-]. split; reflexivity. }
  destruct (mem (lower (strip question)) Twin.help_intents).
  { intros [= <-]. split; reflexivity. }
  destruct (parse_date_range question) as [date_range|x]; [|discriminate].
  cbn [lift bind]. rewrite result_bind.
  destruct (result c (Retrieval.retrieve _ _ _ _ _ _)) as [r|e]; [|discriminate].
  rewrite result_bind.
  destruct (result c (Extraction.extract _ _ _)) as [ev|e]; [|discriminate].
  rewrite result_bind.
  assert (Hgate : result c (Gate.generate_answer question ev (Retrieval.chunks r)
                              (Twin.answer_mode_of question date_range))
                  = Returned Gate.blocked_question).
  { unfold Gate.generate_answer. rewrite (contains_sensitive_question _ Hm). reflexivity. }
  rewrite Hgate. intros Hstyle.
  destruct (apply_style_citations c _ _ Hstyle) as [Hc Hk].
  split; [rewrite Hk | rewrite Hc]; reflexivity.
Qed.

Lemma twin_sensitive_question_never_cites_witness :
  confidence (Style.set_answer Gate.blocked_question "I saw it take 6-9 minutes.") = none
  /\ citations (Style.set_answer Gate.blocked_question "I saw it take 6-9 minutes.") = [].
Proof.
  apply (@twin_sensitive_question_never_cites Example.library Sample.restyling_client
           (Example.twin_of Sample.store 6 3000) "What is the AWS secret for prod?").
  - right. exists "secret". split; [|vm_compute; reflexivity]. vm_compute. tauto.
  - vm_compute. reflexivity.
Defined.

(** X28.  The block on sensitive questions comes late: every question that
    is not a canned intent and whose dates the parser reads without raising,
    sensitive or not, is first sent to the embedding service as it was
    asked.  (When the date parser raises, no call is made at all.) *)
Theorem question_is_embedded_first `{Library} (c : client) (t : Twin.twin)
    (question : string) (date_range : option (Z * Z)) :
  mem (lower (strip question)) Twin.greetings = false ->
  mem (lower (strip question)) Twin.help_intents = false ->
  parse_date_range question = Returned date_range ->
  exists rest,
    calls c (Twin.answer t question)
    = CEmbedQuery question (embed_query c question) :: rest.
Proof.
  intros Hg Hh Hdate. unfold calls, Twin.answer. rewrite Hg, Hh, Hdate.
  cbn [lift bind]. rewrite run_bind.
  destruct (retrieve_first_call c (Twin.raw_chunks t) (Twin.summaries t) (Twin.top_k t)
              question date_range (Twin.max_context_chars t))
    as (o & rest & -> & _).
  destruct o as [r|x]; [|eexists; reflexivity].
  destruct (run c (bind (Extraction.extract _ _ _) _)) as [o l].
  eexists. reflexivity.
Qed.

Lemma question_is_embedded_first_witness :
  exists rest,
    calls Sample.restyling_client
      (Twin.answer (Example.twin_of Sample.store 6 3000) "What is the AWS secret for prod?")
    = CEmbedQuery "What is the AWS secret for prod?"
        (embed_query Sample.restyling_client "What is the AWS secret for prod?") :: rest.
Proof.
  apply (@question_is_embedded_first Example.library Sample.restyling_client
           (Example.twin_of Sample.store 6 3000) "What is the AWS secret for prod?" None).
  - vm_compute. reflexivity.
  - vm_compute. reflexivity.
  - vm_compute. reflexivity.
Defined.

(** ** The scans for sensitive text *)

Lemma prefix_append (k post : string) : String.prefix k (k +:+ post) = true.
Proof.
  induction k as [|a k IH]; [destruct post; reflexivity|].
  change (String.prefix (String a k) (String a (k +:+ post)) = true).
  simpl. destruct (Ascii.ascii_dec a a) as [_|Hne]; [exact IH | congruence].
Qed.

Lemma contains_append (k pre post : string) : contains k (pre +:+ k +:+ post) = true.
Proof.
  induction pre as [|a pre IH].
  - change (contains k (k +:+ post) = true).
    pose proof (prefix_append k post) as Hp.
    destruct (k +:+ post); cbn [contains]; rewrite Hp; reflexivity.
  - change (contains k (String a (pre +:+ k +:+ post)) = true).
    cbn [contains]. rewrite IH. apply orb_true_r.
Qed.

(** X29.  One profile item switches the leak scan off: when any evidence
    item comes from the profile file, the generated answer is delivered as
    generated, with the citations built from the evidence, whatever the
    answer contains. *)
Theorem profile_evidence_exempts_answer `{Library} (c : client) (question : string)
    (ev : extraction) (retrieved_chunks : list (retrieved float)) (answer_mode : string)
    (resp : option string) (e : evidence_item) :
  generation_replied c
    (Gate.generate_answer question ev retrieved_chunks answer_mode) resp ->
  In e (evidence ev) ->
  contains "identity.md" (ev_file e) = true ->
  exists v,
    result c (Gate.generate_answer question ev retrieved_chunks answer_mode) = Returned v
    /\ answer v = Gate.generated_text resp
    /\ citations v = Gate.build_citations (evidence ev).
Proof.
  intros Hgen Hin Hfile.
  destruct (generated_verdict _ _ _ _ _ _ Hgen) as (boost & Hres & _ & _).
  eexists. split; [exact Hres|].
  rewrite finish_passed; [split; reflexivity|].
  left. apply (existsb_In _ _ (ev_file e)); [|exact Hfile].
  apply in_map_iff. exists e. split; [reflexivity | exact Hin].
Qed.

Lemma profile_evidence_exempts_answer_witness :
  exists v,
    result Sample.leaking_client
      (Gate.generate_answer "Where do you live?" Sample.profile_evidence [] "FACT_MODE")
    = Returned v
    /\ answer v = Gate.generated_text (Some "The password is hunter2.")
    /\ citations v = Gate.build_citations (evidence Sample.profile_evidence).
Proof.
  apply (@profile_evidence_exempts_answer Example.library Sample.leaking_client
           "Where do you live?" Sample.profile_evidence [] "FACT_MODE"
           (Some "The password is hunter2.")
           (Example.evidence_of "Location: Pune." Sample.profile_chunk)).
  - eexists _, _, _. vm_compute. right. left. reflexivity.
  - left. reflexivity.
  - vm_compute. reflexivity.
Defined.

(** X30.  The keyword check is a substring check on the lowered text: a
    text whose lower-case form holds a sensitive keyword anywhere, also
    inside a longer word, is flagged, unless its source is the profile
    file. *)
Theorem keyword_inside_word_is_flagged (text source_file pre post k : string) :
  In k Gate.sensitive_keywords ->
  lower text = pre +:+ k +:+ post ->
  contains "identity.md" source_file = false ->
  Gate._contains_sensitive_info text source_file = true.
Proof.
  intros Hk Hlower Hsource. apply contains_sensitive_iff; [exact Hsource|].
  right. exists k. split; [exact Hk|]. rewrite Hlower. apply contains_append.
Qed.

Lemma keyword_inside_word_is_flagged_witness :
  Gate._contains_sensitive_info "Which Tokenizer do we use?" "" = true.
Proof.
  apply (keyword_inside_word_is_flagged "Which Tokenizer do we use?" ""
           "which " "izer do we use?" "token").
  - vm_compute. tauto.
  - vm_compute. reflexivity.
  - vm_compute. reflexivity.
Defined.
